(** * JuiSip storefront: the cart, the pricer and the persistence glue

    A shallow embedding of the two React applications of the repository:

    - [JuiSipApp]  (the customisable juice shop: the sanitised application
      id, the form with [handleToggleAddition], the quantity buttons and
      [calculateItemPrice], [handleAddToCart], [updateCartItemQuantity],
      [removeItemFromCart], [handleQuantityChange], [updateFirestoreCart] and
      the cart listener);
    - [JuiSipApp2] (the cloud kitchen: [addToCart], [updateQuantity],
      [removeFromCart], [clearCart], the derived totals, the tabs of the
      menu, [updateCartInDb] with its retry loop, [handlePlaceOrder], the
      cart listener and the history listener).

    A JavaScript number is a binary64 float.  The arithmetic of the code is
    written once, over an interface [Num], and read at two instances: the
    kernel's binary64 floats, which are the numbers the code runs on, and
    exact rationals ([Q]), which are the decimals the specification names.
    What is said of the prices and totals of the code is proved for every
    instance, in the order in which the code adds, or for binary64; the exact
    instance gives the decimal a binary64 result is compared with.
    Quantities are integers. *)

From Stdlib Require Import ZArith QArith Qround Lia List Bool String Ascii.
From Stdlib Require Import Floats.PrimFloat Numbers.Cyclic.Int63.Uint63.
From Stdlib Require Import Floats.SpecFloat Floats.FloatOps Floats.FloatAxioms.
From Stdlib Require Import Setoid Morphisms Permutation Sorted.
Import ListNotations.

Set Warnings "-inexact-float".
Local Open Scope string_scope.
Local Open Scope list_scope.
Local Open Scope Z_scope.

(* ------------------------------------------------------------------ *)
(** ** JavaScript numbers *)

Declare Scope js_scope.
Delimit Scope js_scope with js.

(** The operations the two applications use on numbers.  [lit n d] is the
    decimal literal whose value is [n/d] (5.99 is [lit 599 100]). *)
Class Num (T : Type) : Type := {
  lit : Z -> Z -> T;
  num_add : T -> T -> T;
  num_sub : T -> T -> T;
  num_mul : T -> T -> T;
  num_gt : T -> T -> bool;
  num_eq : T -> T -> bool
}.

Infix "+" := num_add : js_scope.
Infix "-" := num_sub : js_scope.
Infix "*" := num_mul : js_scope.
Infix ">" := num_gt : js_scope.
Infix "===" := num_eq (at level 70) : js_scope.

(** Exact decimals: the values the specification writes.  The code does not
    compute with them; they are what a binary64 result is measured against. *)
#[export] Instance Num_Q : Num Q := {
  lit n d := Qmake n (Z.to_pos d);
  num_add := Qplus;
  num_sub := Qminus;
  num_mul := Qmult;
  num_gt a b := negb (Qle_bool a b);
  num_eq := Qeq_bool
}.

(** Binary64.  An integer below 2^53 converts exactly, and IEEE division is
    correctly rounded, so [lit n d] is the float a JavaScript engine reads the
    literal as. *)
Definition float_of_Z (z : Z) : float :=
  match z with
  | Z0 => PrimFloat.zero
  | Zpos _ => PrimFloat.of_uint63 (Uint63.of_Z z)
  | Zneg p => PrimFloat.opp (PrimFloat.of_uint63 (Uint63.of_Z (Zpos p)))
  end.

#[export] Instance Num_float : Num float := {
  lit n d := PrimFloat.div (float_of_Z n) (float_of_Z d);
  num_add := PrimFloat.add;
  num_sub := PrimFloat.sub;
  num_mul := PrimFloat.mul;
  num_gt a b := PrimFloat.ltb b a;
  num_eq := PrimFloat.eqb
}.

(** A quantity entering a product with a price. *)
Definition num_of_Z {T} `{Num T} (z : Z) : T := lit z 1.

(** The sum of a list of numbers. *)
Definition sumOf {T} `{Num T} (l : list T) : T := fold_right num_add (lit 0 1) l.

(** The sum of a list of numbers taken from zero, one after the other from
    the left: the order in which a [reduce] with the initial value 0 adds. *)
Definition sumInOrder {T} `{Num T} (l : list T) : T := fold_left num_add l (lit 0 1).

(** The binary64 a JavaScript engine reads a decimal as: the quotient of the
    numerator and the denominator of its reduced fraction, both exact below
    2^53, rounded once. *)
Definition binary64_of_decimal (q : Q) : float :=
  let r := Qred q in lit (Qnum r) (Zpos (Qden r)).

(* ------------------------------------------------------------------ *)
(** ** Arrays *)

(** [Array.prototype.findIndex]: the index of the first element that
    satisfies [p], or [-1]. *)
Fixpoint findIndex_from {A} (p : A -> bool) (l : list A) (k : Z) : Z :=
  match l with
  | [] => -1
  | x :: l' => if p x then k else findIndex_from p l' (k + 1)
  end.

Definition findIndex {A} (p : A -> bool) (l : list A) : Z :=
  findIndex_from p l 0.

(** [Array.prototype.map] with the two-argument callback [(x, index)]. *)
Fixpoint map_index_from {A B} (f : A -> Z -> B) (l : list A) (k : Z) : list B :=
  match l with
  | [] => []
  | x :: l' => f x k :: map_index_from f l' (k + 1)
  end.

Definition map_index {A B} (f : A -> Z -> B) (l : list A) : list B :=
  map_index_from f l 0.

(** The pattern shared by [handleAddToCart] and [addToCart]: update the
    first match in place, or append. *)
Definition update_first_or_append {A} (p : A -> bool) (g : A -> A) (extra : A)
    (l : list A) : list A :=
  let existingItemIndex := findIndex p l in
  if existingItemIndex >? -1
  then map_index (fun i index => if index =? existingItemIndex then g i else i) l
  else l ++ [extra].

(** [Array.prototype.includes] on an array of strings. *)
Definition includes (l : list string) (s : string) : bool :=
  existsb (String.eqb s) l.



(** [Array.prototype.sort] with a comparator: [x] goes before [y] when
    [compareFn x y] is negative, and elements that compare equal keep their
    order (the sort is stable, which fixes the result whatever the engine's
    algorithm). *)
Fixpoint sort_insert {A} (compareFn : A -> A -> Z) (x : A) (l : list A) : list A :=
  match l with
  | [] => [x]
  | y :: l' =>
      if compareFn x y <=? 0 then x :: y :: l'
      else y :: sort_insert compareFn x l'
  end.

Fixpoint sort {A} (compareFn : A -> A -> Z) (l : list A) : list A :=
  match l with
  | [] => []
  | x :: l' => sort_insert compareFn x (sort compareFn l')
  end.

(** [Array.prototype.map] with a callback that may throw: [None] when it
    does. *)
Fixpoint map_throwing {A B} (f : A -> option B) (l : list A) : option (list B) :=
  match l with
  | [] => Some []
  | x :: l' =>
      match f x with
      | None => None
      | Some y =>
          match map_throwing f l' with
          | None => None
          | Some ys => Some (y :: ys)
          end
      end
  end.

(** [Array.prototype.reduce] with an initial value is [fold_left]. *)
Definition reduce {A B} (f : B -> A -> B) (init : B) (l : list A) : B :=
  fold_left f l init.

(* ------------------------------------------------------------------ *)
(** ** JSON.stringify on an array of strings *)

Module JSON.

Definition dquote : ascii := ascii_of_nat 34.
Definition backslash : ascii := ascii_of_nat 92.

Definition hex_digit (n : nat) : ascii :=
  match n with
  | 0%nat => "0" | 1%nat => "1" | 2%nat => "2" | 3%nat => "3"
  | 4%nat => "4" | 5%nat => "5" | 6%nat => "6" | 7%nat => "7"
  | 8%nat => "8" | 9%nat => "9" | 10%nat => "a" | 11%nat => "b"
  | 12%nat => "c" | 13%nat => "d" | 14%nat => "e" | _ => "f"
  end%char.

(** QuoteJSONString, one character: the two-character escapes, [\u00xx] for
    the other control characters, and the character itself otherwise. *)
Definition escape_char (c : ascii) : string :=
  let n := nat_of_ascii c in
  if (n =? 34)%nat then String backslash (String dquote EmptyString)
  else if (n =? 92)%nat then String backslash (String backslash EmptyString)
  else if (n =? 8)%nat then String backslash "b"
  else if (n =? 9)%nat then String backslash "t"
  else if (n =? 10)%nat then String backslash "n"
  else if (n =? 12)%nat then String backslash "f"
  else if (n =? 13)%nat then String backslash "r"
  else if (n <? 32)%nat then
    String backslash
      (String "u" (String "0" (String "0"
         (String (hex_digit (n / 16)) (String (hex_digit (n mod 16)) EmptyString)))))
  else String c EmptyString.

Fixpoint escape (s : string) : string :=
  match s with
  | EmptyString => EmptyString
  | String c s' => (escape_char c ++ escape s')%string
  end.

Definition quote (s : string) : string :=
  String dquote (escape s ++ String dquote EmptyString).

(** SerializeJSONArray: the elements, separated by commas. *)
Fixpoint elements (l : list string) : string :=
  match l with
  | [] => EmptyString
  | [x] => quote x
  | x :: l' => (quote x ++ String "," (elements l'))%string
  end.

Definition stringify (l : list string) : string :=
  String "[" (elements l ++ "]").

(** Reading a string literal back: the characters up to the closing quote,
    unescaped, and the rest of the input.  It is used to show that
    [stringify] loses nothing. *)
Definition unhex (c : ascii) : option nat :=
  let n := nat_of_ascii c in
  if ((48 <=? n) && (n <=? 57))%nat then Some (n - 48)%nat
  else if ((97 <=? n) && (n <=? 102))%nat then Some (n - 87)%nat
  else None.

Fixpoint read_string (inp : string) : option (string * string) :=
  match inp with
  | EmptyString => None
  | String c inp' =>
      if (nat_of_ascii c =? 34)%nat then Some (EmptyString, inp')
      else if (nat_of_ascii c =? 92)%nat then
        match inp' with
        | EmptyString => None
        | String e inp'' =>
            if (nat_of_ascii e =? 117)%nat then
              match inp'' with
              | String _ (String _ (String h (String l rest))) =>
                  match unhex h, unhex l with
                  | Some a, Some b =>
                      match read_string rest with
                      | Some (s, r) => Some (String (ascii_of_nat (16 * a + b)) s, r)
                      | None => None
                      end
                  | _, _ => None
                  end
              | _ => None
              end
            else if (nat_of_ascii e =? 98)%nat then
              match read_string inp'' with
              | Some (s, r) => Some (String (ascii_of_nat 8) s, r) | None => None end
            else if (nat_of_ascii e =? 116)%nat then
              match read_string inp'' with
              | Some (s, r) => Some (String (ascii_of_nat 9) s, r) | None => None end
            else if (nat_of_ascii e =? 110)%nat then
              match read_string inp'' with
              | Some (s, r) => Some (String (ascii_of_nat 10) s, r) | None => None end
            else if (nat_of_ascii e =? 102)%nat then
              match read_string inp'' with
              | Some (s, r) => Some (String (ascii_of_nat 12) s, r) | None => None end
            else if (nat_of_ascii e =? 114)%nat then
              match read_string inp'' with
              | Some (s, r) => Some (String (ascii_of_nat 13) s, r) | None => None end
            else
              match read_string inp'' with
              | Some (s, r) => Some (String e s, r) | None => None end
        end
      else
        match read_string inp' with
        | Some (s, r) => Some (String c s, r)
        | None => None
        end
  end.

(** What follows the first element in the text of an array. *)
Definition after_first (l : list string) (suffix : string) : string :=
  match l with
  | [] => suffix
  | _ :: _ => String "," (elements l ++ suffix)
  end.

End JSON.

(* ------------------------------------------------------------------ *)
(** ** JuiSipApp: the customisable juice shop *)

Module JuiSipApp.

(** [rawAppId.replace(/[/\\]/g, '-')]: every slash and every backslash of
    the raw application id becomes a dash. *)
Fixpoint sanitizeAppId (rawAppId : string) : string :=
  match rawAppId with
  | EmptyString => EmptyString
  | String c rest =>
      String (if Ascii.eqb c "/" || Ascii.eqb c JSON.backslash then "-"%char else c)
        (sanitizeAppId rest)
  end.

Section App.
Context {T : Type} {NT : Num T}.
Local Open Scope js_scope.

(** An entry of [JUICES]; an image is written by its name. *)
Record Juice : Type := {
  juice_id : string;
  juice_name : string;
  juice_price : T;
  juice_color : string;
  juice_image : string
}.

Definition JUICES : list Juice := [
  {| juice_id := "fresh-orange"; juice_name := "Fresh Orange";
     juice_price := lit 550 100; juice_color := "bg-orange-400"; juice_image := "orange" |};
  {| juice_id := "green-detox"; juice_name := "Green Detox";
     juice_price := lit 680 100; juice_color := "bg-green-400"; juice_image := "broccoli" |};
  {| juice_id := "tropical-punch"; juice_name := "Tropical Punch";
     juice_price := lit 720 100; juice_color := "bg-yellow-400"; juice_image := "pineapple" |};
  {| juice_id := "berry-blast"; juice_name := "Berry Blast";
     juice_price := lit 600 100; juice_color := "bg-red-400"; juice_image := "strawberry" |}
].

(** An entry of [availableAdditions]. *)
Record Addition : Type := {
  addition_name : string;
  addition_price : T
}.

Definition availableAdditions : list Addition := [
  {| addition_name := "Protein Powder"; addition_price := lit 150 100 |};
  {| addition_name := "Chia Seeds"; addition_price := lit 75 100 |};
  {| addition_name := "Ginger Shot"; addition_price := lit 100 100 |};
  {| addition_name := "Spinach Boost"; addition_price := lit 50 100 |}
].

(** A line of the cart, as [handleSubmit] builds it ([item_id] is the
    field [id]). *)
Record CartItem : Type := {
  item_id : string;
  juiceId : string;
  name : string;
  basePrice : T;
  price : T;
  quantity : Z;
  size : string;
  sweetness : string;
  additions : list string;
  color : string;
  image : string
}.

(** [{ ...i, quantity: q }] *)
Definition with_quantity (i : CartItem) (q : Z) : CartItem :=
  {| item_id := item_id i; juiceId := juiceId i; name := name i;
     basePrice := basePrice i; price := price i; quantity := q;
     size := size i; sweetness := sweetness i; additions := additions i;
     color := color i; image := image i |}.

(** The cart object; [lastUpdated] is absent from [initialCartState]. *)
Record Cart : Type := {
  items : list CartItem;
  total : T;
  checkoutId : option string;
  lastUpdated : option string
}.

Definition initialCartState : Cart :=
  {| items := []; total := lit 0 1; checkoutId := None; lastUpdated := None |}.

(** [{ ...cart, items: newItems }] *)
Definition with_items (c : Cart) (newItems : list CartItem) : Cart :=
  {| items := newItems; total := total c; checkoutId := checkoutId c;
     lastUpdated := lastUpdated c |}.

(** *** CustomizationForm *)

(** [handleToggleAddition]: the next value of [selectedAdditions]. *)
Definition handleToggleAddition (prev : list string) (nm : string) : list string :=
  if includes prev nm
  then filter (fun a => negb (String.eqb a nm)) prev
  else prev ++ [nm].

(** The two buttons of the quantity selector,
    [setQuantity(q => Math.max(1, q - 1))] and [setQuantity(q => q + 1)]. *)
Inductive QuantityButton : Type := Minus | Plus.

Definition pressQuantity (q : Z) (b : QuantityButton) : Z :=
  match b with
  | Minus => Z.max 1 (q - 1)
  | Plus => (q + 1)%Z
  end.

(** The quantity of the form after a sequence of presses, from [useState(1)]. *)
Definition selectedQuantity (presses : list QuantityButton) : Z :=
  fold_left pressQuantity presses 1%Z.

Definition calculateItemPrice (juice : Juice) (selectedSize : string)
    (selectedAdditions : list string) : T :=
  let basePrice := juice_price juice in
  let additionCost :=
    reduce (fun sum a => sum + addition_price a) (lit 0 1)
      (filter (fun a => includes selectedAdditions (addition_name a))
         availableAdditions) in
  let additionCost :=
    if String.eqb selectedSize "Large" then additionCost + lit 150 100
    else additionCost in
  let additionCost :=
    if String.eqb selectedSize "Small" then additionCost - lit 50 100
    else additionCost in
  basePrice + additionCost.

(** The item [handleSubmit] hands to [addToCart]; [uuid] is the value of
    [crypto.randomUUID()]. *)
Definition handleSubmit_item (juice : Juice) (selectedSize selectedSweetness : string)
    (selectedAdditions : list string) (qty : Z) (uuid : string) : CartItem :=
  {| item_id := uuid;
     juiceId := juice_id juice;
     name := juice_name juice;
     basePrice := juice_price juice;
     price := calculateItemPrice juice selectedSize selectedAdditions;
     quantity := qty;
     size := selectedSize;
     sweetness := selectedSweetness;
     additions := selectedAdditions;
     color := juice_color juice;
     image := juice_image juice |}.

(** *** The cart actions of App, as transformations of [cart.items] *)

(** The callback of [findIndex] in [handleAddToCart]. *)
Definition sameCustomisation (item i : CartItem) : bool :=
  String.eqb (juiceId i) (juiceId item) &&
  String.eqb (size i) (size item) &&
  String.eqb (sweetness i) (sweetness item) &&
  String.eqb (JSON.stringify (additions i)) (JSON.stringify (additions item)).

(** [newItems] of [handleAddToCart]. *)
Definition handleAddToCart_newItems (cartItems : list CartItem) (item : CartItem)
    : list CartItem :=
  let existingItemIndex := findIndex (sameCustomisation item) cartItems in
  if (existingItemIndex >? -1)%Z then
    map_index
      (fun i index =>
         if (index =? existingItemIndex)%Z
         then with_quantity i (quantity i + quantity item)%Z
         else i)
      cartItems
  else cartItems ++ [item].

(** [newItems] of [updateCartItemQuantity]. *)
Definition updateCartItemQuantity_newItems (cartItems : list CartItem)
    (itemId : string) (newQuantity : Z) : list CartItem :=
  filter (fun item => (quantity item >? 0)%Z)
    (map (fun item =>
            if String.eqb (item_id item) itemId
            then with_quantity item newQuantity
            else item)
       cartItems).

(** [newItems] of [removeItemFromCart]. *)
Definition removeItemFromCart_newItems (cartItems : list CartItem)
    (itemId : string) : list CartItem :=
  filter (fun item => negb (String.eqb (item_id item) itemId)) cartItems.

(** [newTotal] of [updateFirestoreCart]. *)
Definition newTotal (cartItems : list CartItem) : T :=
  reduce (fun sum item => sum + price item * num_of_Z (quantity item))
    (lit 0 1) cartItems.

(** *** Firestore and the React state *)

(** The document [artifacts/{appId}/users/{userId}/juisip_cart/current]. *)
Record Document : Type := {
  doc_userId : string;
  doc_cart : Cart
}.

(** What a listener receives: [docSnap.exists()] and [docSnap.data()]. *)
Inductive Snapshot : Type :=
  | Present (data : Document)
  | Absent.

(** A [set] handed to Firestore. *)
Record WriteRequest : Type := {
  write_path : list string;
  write_data : Document;
  write_merge : bool
}.

(** The state of App, the stored document, and the environment: the writes
    issued so far, whether the next writes are going to be committed (an
    exhausted list means they are), and the value of [new Date()]. *)
Record App : Type := {
  db : bool;
  userId : option string;
  appId : string;
  cart : Cart;
  showModal : bool;
  selectedJuice : option Juice;
  message : option string;
  stored : option Document;
  issued : list WriteRequest;
  outcomes : list bool;
  now : string
}.

Definition setCart (c : Cart) (a : App) : App :=
  {| db := db a; userId := userId a; appId := appId a; cart := c;
     showModal := showModal a; selectedJuice := selectedJuice a;
     message := message a; stored := stored a; issued := issued a;
     outcomes := outcomes a; now := now a |}.

Definition setMessage (m : option string) (a : App) : App :=
  {| db := db a; userId := userId a; appId := appId a; cart := cart a;
     showModal := showModal a; selectedJuice := selectedJuice a;
     message := m; stored := stored a; issued := issued a;
     outcomes := outcomes a; now := now a |}.

Definition setShowModal (b : bool) (a : App) : App :=
  {| db := db a; userId := userId a; appId := appId a; cart := cart a;
     showModal := b; selectedJuice := selectedJuice a;
     message := message a; stored := stored a; issued := issued a;
     outcomes := outcomes a; now := now a |}.

Definition setSelectedJuice (j : option Juice) (a : App) : App :=
  {| db := db a; userId := userId a; appId := appId a; cart := cart a;
     showModal := showModal a; selectedJuice := j;
     message := message a; stored := stored a; issued := issued a;
     outcomes := outcomes a; now := now a |}.

Definition getPrivateDocRef (appId userId collectionName docId : string) : list string :=
  ["artifacts"; appId; "users"; userId; collectionName; docId].

(** A [set] with [{ merge: true }] reaching Firestore.  Every write of this
    application carries both fields of the document and all four fields of
    the cart, so the merge replaces the document.  The result tells whether
    the write was committed. *)
Definition write (w : WriteRequest) (a : App) : bool * App :=
  let ok := hd true (outcomes a) in
  (ok,
   {| db := db a; userId := userId a; appId := appId a; cart := cart a;
      showModal := showModal a; selectedJuice := selectedJuice a;
      message := message a;
      stored := if ok then Some (write_data w) else stored a;
      issued := issued a ++ [w];
      outcomes := tl (outcomes a); now := now a |}).

Definition updateFirestoreCart (newCart : Cart) (a : App) : App :=
  match db a, userId a with
  | true, Some uid =>
      let cartDocRef := getPrivateDocRef (appId a) uid "juisip_cart" "current" in
      let updatedCartState :=
        {| items := items newCart;
           total := newTotal (items newCart);
           checkoutId := checkoutId newCart;
           lastUpdated := Some (now a) |} in
      let (committed, a1) :=
        write {| write_path := cartDocRef;
                 write_data := {| doc_userId := uid; doc_cart := updatedCartState |};
                 write_merge := true |} a in
      if committed
      then setMessage (Some "Cart updated successfully!") a1
      else setMessage (Some "Error: Failed to update cart.") a1
  | _, _ => a
  end.

Definition handleAddToCart (item : CartItem) (a : App) : App :=
  let newItems := handleAddToCart_newItems (items (cart a)) item in
  let newCart := with_items (cart a) newItems in
  let a1 := updateFirestoreCart newCart a in
  setSelectedJuice None (setShowModal false a1).

Definition updateCartItemQuantity (itemId : string) (newQuantity : Z) (a : App) : App :=
  let newItems := updateCartItemQuantity_newItems (items (cart a)) itemId newQuantity in
  updateFirestoreCart (with_items (cart a) newItems) a.

Definition removeItemFromCart (itemId : string) (a : App) : App :=
  let newItems := removeItemFromCart_newItems (items (cart a)) itemId in
  updateFirestoreCart (with_items (cart a) newItems) a.

(** [handleQuantityChange] of CartView, on a line [item] of the cart. *)
Definition handleQuantityChange (item : CartItem) (delta : Z) (a : App) : App :=
  let newQuantity := (quantity item + delta)%Z in
  if (newQuantity >? 0)%Z
  then updateCartItemQuantity (item_id item) newQuantity a
  else removeItemFromCart (item_id item) a.

(** The callback of the cart listener, registered once [db] and [userId]
    are there ([uid] is that [userId]).  The [setDoc] of the absent branch
    is not awaited. *)
Definition onSnapshot_cart (uid : string) (docSnap : Snapshot) (a : App) : App :=
  match docSnap with
  | Present data => setCart (doc_cart data) a
  | Absent =>
      let initialCart :=
        {| items := items initialCartState; total := total initialCartState;
           checkoutId := checkoutId initialCartState;
           lastUpdated := Some (now a) |} in
      let a1 := setCart initialCart a in
      let cartDocRef := getPrivateDocRef (appId a) uid "juisip_cart" "current" in
      snd (write {| write_path := cartDocRef;
                    write_data := {| doc_userId := uid; doc_cart := initialCart |};
                    write_merge := true |} a1)
  end.

(** Firestore delivering the current state of the document to the listener. *)
Definition deliver (a : App) : App :=
  match db a, userId a with
  | true, Some uid =>
      onSnapshot_cart uid
        (match stored a with Some d => Present d | None => Absent end) a
  | _, _ => a
  end.

End App.

Arguments Juice : clear implicits.
Arguments Addition : clear implicits.
Arguments CartItem : clear implicits.
Arguments Cart : clear implicits.
Arguments Document : clear implicits.
Arguments Snapshot : clear implicits.
Arguments WriteRequest : clear implicits.
Arguments App : clear implicits.

(** *** Vocabulary of the statements *)

Section PricerVocabulary.
Context {T : Type} {NT : Num T}.
Local Open Scope js_scope.

(** The size delta of the pricing rule. *)
Definition sizeDelta (selectedSize : string) : T :=
  if String.eqb selectedSize "Small" then lit (-50) 100
  else if String.eqb selectedSize "Large" then lit 150 100
  else lit 0 1.

Definition isKnownAddition (nm : string) : bool :=
  existsb (fun a => String.eqb (addition_name a) nm) (availableAdditions (T:=T)).

(** The price the catalog gives to an addition, zero for a name that is not
    in it. *)
Definition additionPrice (nm : string) : T :=
  match find (fun a => String.eqb (addition_name a) nm) availableAdditions with
  | Some a => addition_price a
  | None => lit 0 1
  end.

(** The total of a cart is the total of its lines. *)
Definition consistentTotal (c : Cart T) : Prop := total c = newTotal (items c).

(** The stored document, when there is one, has a consistent total. *)
Definition storeConsistent (a : App T) : Prop :=
  forall d, stored a = Some d -> consistentTotal (doc_cart d).

(** The additions of the catalog that are selected. *)
Definition selectedOf (selectedAdditions : list string) : list (Addition T) :=
  filter (fun a => includes selectedAdditions (addition_name a)) availableAdditions.

End PricerVocabulary.

Section Vocabulary.
Context {T : Type}.

(** What the merge test of [handleAddToCart] compares: the juice, the size,
    the sweetness and the additions, in the order of the array. *)
Definition customisation (i : CartItem T) : string * string * string * list string :=
  (juiceId i, size i, sweetness i, additions i).

(** No line of the cart passes the merge test of [handleAddToCart] against
    another line. *)
Definition noMergeableLines (cartItems : list (CartItem T)) : Prop :=
  ForallOrdPairs (fun i j => sameCustomisation i j = false) cartItems.

(** Every line has a quantity of at least one. *)
Definition positiveQuantities (cartItems : list (CartItem T)) : Prop :=
  Forall (fun i => 1 <= quantity i) cartItems.

(** The invariant as the merge test sees it. *)
Definition cartInvariant (cartItems : list (CartItem T)) : Prop :=
  noMergeableLines cartItems /\ positiveQuantities cartItems.

(** Equivalence of two lines in the words of the specification: the same
    juice, size and sweetness, and the same set of additions, whatever the
    order in which they are listed. *)
Definition sameAdditionSet (l l' : list string) : bool :=
  forallb (includes l') l && forallb (includes l) l'.

Definition equivalent (i j : CartItem T) : bool :=
  String.eqb (juiceId i) (juiceId j) &&
  String.eqb (size i) (size j) &&
  String.eqb (sweetness i) (sweetness j) &&
  sameAdditionSet (additions i) (additions j).

(** The invariant of the specification: no two lines are equivalent, and
    every line has a quantity of at least one. *)
Definition noEquivalentLines (cartItems : list (CartItem T)) : Prop :=
  ForallOrdPairs (fun i j => equivalent i j = false) cartItems.

Definition specInvariant (cartItems : list (CartItem T)) : Prop :=
  noEquivalentLines cartItems /\ positiveQuantities cartItems.

(** The lines of the cart that pass the merge test against [item]. *)
Definition linesLike (item : CartItem T) (cartItems : list (CartItem T))
    : list (CartItem T) :=
  filter (sameCustomisation item) cartItems.

(** The other lines of the cart. *)
Definition linesUnlike (item : CartItem T) (cartItems : list (CartItem T))
    : list (CartItem T) :=
  filter (fun i => negb (sameCustomisation item i)) cartItems.

Definition totalQuantity (cartItems : list (CartItem T)) : Z :=
  fold_right Z.add 0 (map quantity cartItems).

(** Whether [handleAddToCart] merges [item] into a line of the cart. *)
Definition merges (cartItems : list (CartItem T)) (item : CartItem T) : bool :=
  findIndex (sameCustomisation item) cartItems >? -1.

End Vocabulary.

End JuiSipApp.

(* ------------------------------------------------------------------ *)
(** ** JuiSipApp2: the cloud kitchen *)

Module JuiSipApp2.

Section App.
Context {T : Type} {NT : Num T}.
Local Open Scope js_scope.

(** An entry of [MENU_ITEMS]; an icon is written by its name. *)
Record MenuItem : Type := {
  menu_id : string;
  menu_name : string;
  menu_price : T;
  menu_icon : string;
  menu_category : string
}.

Definition MENU_ITEMS : list MenuItem := [
  {| menu_id := "1"; menu_name := "Zesty Lemonade"; menu_price := lit 599 100;
     menu_icon := "lemon"; menu_category := "Drinks" |};
  {| menu_id := "2"; menu_name := "Classic Green Smoothie"; menu_price := lit 749 100;
     menu_icon := "leafy green"; menu_category := "Drinks" |};
  {| menu_id := "3"; menu_name := "Acai Energy Bowl"; menu_price := lit 1099 100;
     menu_icon := "blueberries"; menu_category := "Bowls" |};
  {| menu_id := "4"; menu_name := "Protein Power Wrap"; menu_price := lit 999 100;
     menu_icon := "burrito"; menu_category := "Wraps" |};
  {| menu_id := "5"; menu_name := "Watermelon Refresher"; menu_price := lit 650 100;
     menu_icon := "watermelon"; menu_category := "Drinks" |};
  {| menu_id := "6"; menu_name := "Mediterranean Salad Wrap"; menu_price := lit 1150 100;
     menu_icon := "green salad"; menu_category := "Wraps" |}
].

(** A line of the cart: a menu item and its quantity ([item_id] is the
    field [id]). *)
Record CartItem : Type := {
  item_id : string;
  name : string;
  price : T;
  icon : string;
  category : string;
  quantity : Z
}.

(** [{ ...item, quantity: q }] for a menu item. *)
Definition line_of (item : MenuItem) (q : Z) : CartItem :=
  {| item_id := menu_id item; name := menu_name item; price := menu_price item;
     icon := menu_icon item; category := menu_category item; quantity := q |}.

(** [{ ...cartItem, quantity: q }] *)
Definition with_quantity (i : CartItem) (q : Z) : CartItem :=
  {| item_id := item_id i; name := name i; price := price i; icon := icon i;
     category := category i; quantity := q |}.

(** *** Calculated values *)

Definition cartTotalItems (cart : list CartItem) : Z :=
  reduce (fun sum item => (sum + quantity item)%Z) 0%Z cart.

Definition cartSubtotal (cart : list CartItem) : T :=
  reduce (fun sum item => sum + price item * num_of_Z (quantity item)) (lit 0 1) cart.

Definition taxRate : T := lit 8 100.

Definition taxAmount (cart : list CartItem) : T := cartSubtotal cart * taxRate.

Definition deliveryFee (cart : list CartItem) : T :=
  if cartSubtotal cart > lit 0 1 then lit 500 100 else lit 0 100.

Definition grandTotal (cart : list CartItem) : T :=
  cartSubtotal cart + taxAmount cart + deliveryFee cart.

(** *** The cart actions, as transformations of [cart] *)

(** [newCart] of [addToCart]. *)
Definition addToCart_newCart (cart : list CartItem) (item : MenuItem) : list CartItem :=
  let existingItemIndex :=
    findIndex (fun cartItem => String.eqb (item_id cartItem) (menu_id item)) cart in
  if (existingItemIndex >? -1)%Z then
    map_index
      (fun cartItem index =>
         if (index =? existingItemIndex)%Z
         then with_quantity cartItem (quantity cartItem + 1)%Z
         else cartItem)
      cart
  else cart ++ [line_of item 1].

(** [newCart] of [updateQuantity]. *)
Definition updateQuantity_newCart (cart : list CartItem) (itemId : string) (change : Z)
    : list CartItem :=
  filter (fun item => (quantity item >? 0)%Z)
    (map (fun item =>
            if String.eqb (item_id item) itemId
            then with_quantity item (quantity item + change)%Z
            else item)
       cart).

(** [newCart] of [removeFromCart]. *)
Definition removeFromCart_newCart (cart : list CartItem) (itemId : string)
    : list CartItem :=
  filter (fun item => negb (String.eqb (item_id item) itemId)) cart.

(** *** Firestore and the React state *)

(** The text [JSON.stringify(cart)] stored in a document, kept as the cart
    it encodes; [Malformed] is a text that [JSON.parse] rejects and
    [Missing] an absent or empty field. *)
Inductive ItemsJson : Type :=
  | Encoded (cart : list CartItem)
  | Malformed
  | Missing.

(** [JSON.parse(itemsJson || '[]')]; [None] when it throws. *)
Definition JSON_parse (j : ItemsJson) : option (list CartItem) :=
  match j with
  | Encoded cart => Some cart
  | Malformed => None
  | Missing => Some []
  end.

(** The document [artifacts/{appId}/users/{userId}/juisip_cart/current]. *)
Record CartDocument : Type := {
  itemsJson : ItemsJson;
  updatedAt : string
}.

Inductive Snapshot : Type :=
  | Present (data : CartDocument)
  | Absent.

(** A document of the collection [juisip_history]. *)
Record OrderData : Type := {
  orderId : Z;
  order_userId : string;
  order_itemsJson : ItemsJson;
  order_grandTotal : T;
  order_subtotal : T;
  order_deliveryFee : T;
  order_taxAmount : T;
  placedAt : string;
  status : string
}.

(** What the application did to the outside, in order. *)
Inductive Effect : Type :=
  | SetDoc (data : CartDocument) (committed : bool)
  | AddDoc (order : OrderData) (committed : bool)
  | Sleep (ms : Z).

(** The state of App, the two stored collections, and the environment: the
    effects performed so far, whether the next writes are going to be
    committed (an exhausted list means they are), and the clock. *)
Record App : Type := {
  db : bool;
  userId : option string;
  cart : list CartItem;
  isLoading : bool;
  error : option string;
  isOrderPlaced : bool;
  orderHistory : list OrderData;
  stored_cart : option CartDocument;
  stored_history : list OrderData;
  effects : list Effect;
  outcomes : list bool;
  now : string
}.

Definition setCart (c : list CartItem) (a : App) : App :=
  {| db := db a; userId := userId a; cart := c; isLoading := isLoading a;
     error := error a; isOrderPlaced := isOrderPlaced a;
     orderHistory := orderHistory a; stored_cart := stored_cart a;
     stored_history := stored_history a; effects := effects a;
     outcomes := outcomes a; now := now a |}.

Definition setIsLoading (b : bool) (a : App) : App :=
  {| db := db a; userId := userId a; cart := cart a; isLoading := b;
     error := error a; isOrderPlaced := isOrderPlaced a;
     orderHistory := orderHistory a; stored_cart := stored_cart a;
     stored_history := stored_history a; effects := effects a;
     outcomes := outcomes a; now := now a |}.

Definition setError (e : option string) (a : App) : App :=
  {| db := db a; userId := userId a; cart := cart a; isLoading := isLoading a;
     error := e; isOrderPlaced := isOrderPlaced a;
     orderHistory := orderHistory a; stored_cart := stored_cart a;
     stored_history := stored_history a; effects := effects a;
     outcomes := outcomes a; now := now a |}.

Definition setIsOrderPlaced (b : bool) (a : App) : App :=
  {| db := db a; userId := userId a; cart := cart a; isLoading := isLoading a;
     error := error a; isOrderPlaced := b;
     orderHistory := orderHistory a; stored_cart := stored_cart a;
     stored_history := stored_history a; effects := effects a;
     outcomes := outcomes a; now := now a |}.

(** [await sleep(ms)] *)
Definition sleep (ms : Z) (a : App) : App :=
  {| db := db a; userId := userId a; cart := cart a; isLoading := isLoading a;
     error := error a; isOrderPlaced := isOrderPlaced a;
     orderHistory := orderHistory a; stored_cart := stored_cart a;
     stored_history := stored_history a; effects := effects a ++ [Sleep ms];
     outcomes := outcomes a; now := now a |}.

Definition next_outcome (a : App) : bool := hd true (outcomes a).

(** [await setDoc(cartRef, data)]: the result tells whether it resolved
    ([true]) or threw. *)
Definition setDoc (data : CartDocument) (a : App) : bool * App :=
  let ok := next_outcome a in
  (ok,
   {| db := db a; userId := userId a; cart := cart a; isLoading := isLoading a;
      error := error a; isOrderPlaced := isOrderPlaced a;
      orderHistory := orderHistory a;
      stored_cart := if ok then Some data else stored_cart a;
      stored_history := stored_history a;
      effects := effects a ++ [SetDoc data ok];
      outcomes := tl (outcomes a); now := now a |}).

(** [await addDoc(historyColRef, orderData)] *)
Definition addDoc (order : OrderData) (a : App) : bool * App :=
  let ok := next_outcome a in
  (ok,
   {| db := db a; userId := userId a; cart := cart a; isLoading := isLoading a;
      error := error a; isOrderPlaced := isOrderPlaced a;
      orderHistory := orderHistory a;
      stored_cart := stored_cart a;
      stored_history := if ok then stored_history a ++ [order] else stored_history a;
      effects := effects a ++ [AddDoc order ok];
      outcomes := tl (outcomes a); now := now a |}).

Definition maxRetries : Z := 3.

(** The [for] loop of [updateCartInDb], from the iteration [attempt] on;
    [remaining] is the number of iterations left, [maxRetries - attempt]. *)
Fixpoint updateCartInDb_from (remaining : nat) (attempt : Z)
    (newCart : list CartItem) (a : App) : App :=
  match remaining with
  | O => a
  | S remaining' =>
      let (committed, a1) :=
        setDoc {| itemsJson := Encoded newCart; updatedAt := now a |} a in
      if committed then a1
      else if (attempt <? maxRetries - 1)%Z then
        updateCartInDb_from remaining' (attempt + 1)%Z newCart
          (sleep (1000 * 2 ^ attempt)%Z a1)
      else
        updateCartInDb_from remaining' (attempt + 1)%Z newCart
          (setError (Some "Failed to save cart. Please check your connection.") a1)
  end.

Definition updateCartInDb (newCart : list CartItem) (a : App) : App :=
  match db a, userId a with
  | true, Some _ => updateCartInDb_from (Z.to_nat maxRetries) 0%Z newCart a
  | _, _ => a
  end.

Definition addToCart (item : MenuItem) (a : App) : App :=
  let newCart := addToCart_newCart (cart a) item in
  updateCartInDb newCart (setCart newCart a).

Definition updateQuantity (itemId : string) (change : Z) (a : App) : App :=
  let newCart := updateQuantity_newCart (cart a) itemId change in
  updateCartInDb newCart (setCart newCart a).

Definition removeFromCart (itemId : string) (a : App) : App :=
  let newCart := removeFromCart_newCart (cart a) itemId in
  updateCartInDb newCart (setCart newCart a).

Definition clearCart (a : App) : App :=
  updateCartInDb [] (setCart [] a).

(** [handlePlaceOrder]; [random] is [Math.floor(Math.random() * 90000)]. *)
Definition handlePlaceOrder (random : Z) (a : App) : App :=
  match userId a with
  | None => a
  | Some uid =>
      if Nat.eqb (List.length (cart a)) 0 || (grandTotal (cart a) === lit 0 1)
         || negb (db a)
      then a
      else
        let a0 := setIsLoading true a in
        let orderData :=
          {| orderId := (random + 10000)%Z;
             order_userId := uid;
             order_itemsJson := Encoded (cart a);
             order_grandTotal := grandTotal (cart a);
             order_subtotal := cartSubtotal (cart a);
             order_deliveryFee := deliveryFee (cart a);
             order_taxAmount := taxAmount (cart a);
             placedAt := now a;
             status := "Preparing" |} in
        let (committed, a1) := addDoc orderData a0 in
        let a2 :=
          if committed
          then setIsOrderPlaced true (updateCartInDb [] (sleep 1000 a1))
          else setError (Some "Failed to place order due to a database error.") a1 in
        setIsLoading false a2
  end.

(** The callbacks of the cart listener. *)
Definition onSnapshot_cart (docSnap : Snapshot) (a : App) : App :=
  match docSnap with
  | Present data =>
      match JSON_parse (itemsJson data) with
      | Some parsedCart => setCart parsedCart a
      | None => setCart [] a
      end
  | Absent => setCart [] a
  end.

Definition onSnapshot_cart_error (a : App) : App :=
  setError (Some "Could not load real-time cart data.") a.

(** Firestore delivering the current state of the cart document to the
    listener, which is registered once [db] and [userId] are there. *)
Definition deliver (a : App) : App :=
  match db a, userId a with
  | true, Some _ =>
      onSnapshot_cart
        (match stored_cart a with Some data => Present data | None => Absent end) a
  | _, _ => a
  end.

(** *** Categories *)



(** *** The history listener *)

(** A document of the snapshot of [juisip_history]: [doc.id] and
    [doc.data()]. *)
Record HistoryDocument : Type := {
  history_id : string;
  history_data : OrderData
}.

(** An element of [historyData]: [{ id, ...data, items, placedAt,
    displayDate }]. *)
Record HistoryEntry : Type := {
  entry_id : string;
  entry_data : OrderData;
  entry_items : list CartItem;
  entry_placedAt : string;
  entry_displayDate : string
}.

Section History.
(** [new Date(s).getTime()] and [new Date(s).toLocaleString()], which belong
    to the platform; the dates are taken to be valid. *)
Variable getTime : string -> Z.
Variable toLocaleString : string -> string.

(** The callback of [snapshot.docs.map]; [None] when [JSON.parse] throws. *)
Definition historyEntry (a : App) (doc : HistoryDocument) : option HistoryEntry :=
  let data := history_data doc in
  match JSON_parse (order_itemsJson data) with
  | None => None
  | Some parsedItems =>
      Some {| entry_id := history_id doc;
              entry_data := data;
              entry_items := parsedItems;
              entry_placedAt :=
                if String.eqb (placedAt data) "" then now a else placedAt data;
              entry_displayDate := toLocaleString (placedAt data) |}
  end.

(** The array the history listener hands to [setOrderHistory], newest
    first; [None] when the callback throws before it gets there. *)
Definition historyData (a : App) (docs : list HistoryDocument)
    : option (list HistoryEntry) :=
  match map_throwing (historyEntry a) docs with
  | None => None
  | Some entries =>
      Some (sort
              (fun x y =>
                 (getTime (entry_placedAt y) - getTime (entry_placedAt x))%Z)
              entries)
  end.

End History.

End App.

Arguments MenuItem : clear implicits.
Arguments CartItem : clear implicits.
Arguments ItemsJson : clear implicits.
Arguments CartDocument : clear implicits.
Arguments Snapshot : clear implicits.
Arguments OrderData : clear implicits.
Arguments Effect : clear implicits.
Arguments App : clear implicits.
Arguments HistoryDocument : clear implicits.
Arguments HistoryEntry : clear implicits.

(** *** Vocabulary of the statements *)

Section Vocabulary.
Context {T : Type}.

(** Two lines are equivalent when they carry the same menu item. *)
Definition cartInvariant (cart : list (CartItem T)) : Prop :=
  NoDup (map item_id cart) /\ Forall (fun i => 1 <= quantity i) cart.

Definition linesLike (itemId : string) (cart : list (CartItem T)) : list (CartItem T) :=
  filter (fun i => String.eqb (item_id i) itemId) cart.

(** The lines of the cart that carry another menu item. *)
Definition linesUnlike (itemId : string) (cart : list (CartItem T)) : list (CartItem T) :=
  filter (fun i => negb (String.eqb (item_id i) itemId)) cart.

Definition totalQuantity (cart : list (CartItem T)) : Z :=
  fold_right Z.add 0 (map quantity cart).

(** The writes of the cart document among the effects, and the delays. *)
Definition attempts (l : list (Effect T)) : list bool :=
  flat_map (fun e => match e with SetDoc _ ok => [ok] | _ => [] end) l.

Definition delays (l : list (Effect T)) : list Z :=
  flat_map (fun e => match e with Sleep ms => [ms] | _ => [] end) l.

(** What a write leaves alone: the cart in memory, the history, the flags. *)
Definition sameMemory (a a' : App T) : Prop :=
  cart a' = cart a /\ orderHistory a' = orderHistory a /\
  stored_history a' = stored_history a /\ isLoading a' = isLoading a /\
  isOrderPlaced a' = isOrderPlaced a /\ db a' = db a /\ userId a' = userId a /\
  now a' = now a.

End Vocabulary.

End JuiSipApp2.

(* ------------------------------------------------------------------ *)
(** ** Concrete carts and applications *)

Module Scenarios.

(** The catalog item with id 1 and base price 5.99, as a juice. *)
Definition lemonade {T} `{Num T} : JuiSipApp.Juice T :=
  {| JuiSipApp.juice_id := "1"; JuiSipApp.juice_name := "Zesty Lemonade";
     JuiSipApp.juice_price := lit 599 100; JuiSipApp.juice_color := "bg-lime-400";
     JuiSipApp.juice_image := "lemon" |}.

(** A degenerate catalog entry: a base price of 0.25. *)
Definition sample {T} `{Num T} : JuiSipApp.Juice T :=
  {| JuiSipApp.juice_id := "sample"; JuiSipApp.juice_name := "Sample Shot";
     JuiSipApp.juice_price := lit 25 100; JuiSipApp.juice_color := "bg-gray-400";
     JuiSipApp.juice_image := "cup" |}.

(** The first juice of the catalog. *)
Definition freshOrange : JuiSipApp.Juice Q :=
  {| JuiSipApp.juice_id := "fresh-orange"; JuiSipApp.juice_name := "Fresh Orange";
     JuiSipApp.juice_price := lit 550 100; JuiSipApp.juice_color := "bg-orange-400";
     JuiSipApp.juice_image := "orange" |}.

(** The second juice of the catalog. *)
Definition greenDetox {T} `{Num T} : JuiSipApp.Juice T :=
  {| JuiSipApp.juice_id := "green-detox"; JuiSipApp.juice_name := "Green Detox";
     JuiSipApp.juice_price := lit 680 100; JuiSipApp.juice_color := "bg-green-400";
     JuiSipApp.juice_image := "broccoli" |}.

(** A medium, regular Fresh Orange without additions, submitted from the
    form with the quantity [q]. *)
Definition plainOrange (q : Z) (uuid : string) : JuiSipApp.CartItem Q :=
  JuiSipApp.handleSubmit_item freshOrange "Medium" "Regular" [] q uuid.

(** The same two additions, ticked in the two possible orders. *)
Definition chiaThenGinger : list string :=
  JuiSipApp.handleToggleAddition
    (JuiSipApp.handleToggleAddition [] "Chia Seeds") "Ginger Shot".

Definition gingerThenChia : list string :=
  JuiSipApp.handleToggleAddition
    (JuiSipApp.handleToggleAddition [] "Ginger Shot") "Chia Seeds".

Definition boostedOrange (selectedAdditions : list string) (uuid : string)
    : JuiSipApp.CartItem Q :=
  JuiSipApp.handleSubmit_item freshOrange "Medium" "Regular" selectedAdditions 1 uuid.

(** The first entry of the menu. *)
Definition zestyLemonade : JuiSipApp2.MenuItem Q :=
  {| JuiSipApp2.menu_id := "1"; JuiSipApp2.menu_name := "Zesty Lemonade";
     JuiSipApp2.menu_price := lit 599 100; JuiSipApp2.menu_icon := "lemon";
     JuiSipApp2.menu_category := "Drinks" |}.

(** A line of ten units of money, once. *)
Definition tenLine {T} `{Num T} : JuiSipApp2.CartItem T :=
  {| JuiSipApp2.item_id := "10"; JuiSipApp2.name := "Family Platter";
     JuiSipApp2.price := lit 1000 100; JuiSipApp2.icon := "platter";
     JuiSipApp2.category := "Bowls"; JuiSipApp2.quantity := 1 |}.

(** The cart after the menu items 1, 2 and 6 are added, in this order. *)
Definition threeLines {T} `{Num T} : list (JuiSipApp2.CartItem T) :=
  fold_left JuiSipApp2.addToCart_newCart
    (filter (fun m => includes ["1"; "2"; "6"] (JuiSipApp2.menu_id m))
       JuiSipApp2.MENU_ITEMS)
    [].

(** A line whose price is negative, as a stored cart document may hold. *)
Definition refundLine : JuiSipApp2.CartItem Q :=
  {| JuiSipApp2.item_id := "refund"; JuiSipApp2.name := "Refund";
     JuiSipApp2.price := lit (-100) 100; JuiSipApp2.icon := "receipt";
     JuiSipApp2.category := "Drinks"; JuiSipApp2.quantity := 1 |}.

(** A connected JuiSipApp2 with the cart [c], nothing stored, no error, and
    writes that are going to end as [outs] says. *)
Definition kitchen (c : list (JuiSipApp2.CartItem Q)) (outs : list bool)
    : JuiSipApp2.App Q :=
  {| JuiSipApp2.db := true; JuiSipApp2.userId := Some "user-1";
     JuiSipApp2.cart := c; JuiSipApp2.isLoading := false;
     JuiSipApp2.error := None; JuiSipApp2.isOrderPlaced := false;
     JuiSipApp2.orderHistory := []; JuiSipApp2.stored_cart := None;
     JuiSipApp2.stored_history := []; JuiSipApp2.effects := [];
     JuiSipApp2.outcomes := outs; JuiSipApp2.now := "2025-01-01T00:00:00.000Z" |}.

(** A connected JuiSipApp with an empty cart and nothing stored. *)
Definition shop : JuiSipApp.App Q :=
  {| JuiSipApp.db := true; JuiSipApp.userId := Some "user-1";
     JuiSipApp.appId := "default-app-id";
     JuiSipApp.cart := JuiSipApp.initialCartState;
     JuiSipApp.showModal := false; JuiSipApp.selectedJuice := None;
     JuiSipApp.message := None; JuiSipApp.stored := None;
     JuiSipApp.issued := []; JuiSipApp.outcomes := [];
     JuiSipApp.now := "2025-01-01T00:00:00.000Z" |}.

(** A JuiSipApp2 without Firestore, as in the local mock mode. *)
Definition offlineKitchen (c : list (JuiSipApp2.CartItem Q)) : JuiSipApp2.App Q :=
  {| JuiSipApp2.db := false; JuiSipApp2.userId := Some "local-user";
     JuiSipApp2.cart := c; JuiSipApp2.isLoading := false;
     JuiSipApp2.error := None; JuiSipApp2.isOrderPlaced := false;
     JuiSipApp2.orderHistory := []; JuiSipApp2.stored_cart := None;
     JuiSipApp2.stored_history := []; JuiSipApp2.effects := [];
     JuiSipApp2.outcomes := []; JuiSipApp2.now := "2025-01-01T00:00:00.000Z" |}.

(** A stored order of one line of ten, placed at [placed]. *)
Definition orderAt (n : Z) (placed : string) : JuiSipApp2.HistoryDocument Q :=
  {| JuiSipApp2.history_id := placed;
     JuiSipApp2.history_data :=
       {| JuiSipApp2.orderId := n; JuiSipApp2.order_userId := "user-1";
          JuiSipApp2.order_itemsJson := JuiSipApp2.Encoded [tenLine];
          JuiSipApp2.order_grandTotal := JuiSipApp2.grandTotal [tenLine];
          JuiSipApp2.order_subtotal := JuiSipApp2.cartSubtotal [tenLine];
          JuiSipApp2.order_deliveryFee := JuiSipApp2.deliveryFee [tenLine];
          JuiSipApp2.order_taxAmount := JuiSipApp2.taxAmount [tenLine];
          JuiSipApp2.placedAt := placed; JuiSipApp2.status := "Preparing" |} |}.

(** A clock for three days of January 2025. *)
Definition dayOf (s : string) : Z :=
  if String.eqb s "2025-01-02T00:00:00.000Z" then 2
  else if String.eqb s "2025-01-03T00:00:00.000Z" then 3
  else 1.

(** A connected JuiSipApp whose cart, stored as it is in memory, holds a
    plain Fresh Orange and one with chia seeds and a ginger shot. *)
Definition stockedCart : JuiSipApp.Cart Q :=
  {| JuiSipApp.items :=
       [plainOrange 1 "line-1"; boostedOrange chiaThenGinger "line-2"];
     JuiSipApp.total :=
       JuiSipApp.newTotal
         [plainOrange 1 "line-1"; boostedOrange chiaThenGinger "line-2"];
     JuiSipApp.checkoutId := None;
     JuiSipApp.lastUpdated := Some "2025-01-01T00:00:00.000Z" |}.

Definition stockedShop : JuiSipApp.App Q :=
  {| JuiSipApp.db := true; JuiSipApp.userId := Some "user-1";
     JuiSipApp.appId := "default-app-id";
     JuiSipApp.cart := stockedCart;
     JuiSipApp.showModal := false; JuiSipApp.selectedJuice := None;
     JuiSipApp.message := None;
     JuiSipApp.stored :=
       Some {| JuiSipApp.doc_userId := "user-1"; JuiSipApp.doc_cart := stockedCart |};
     JuiSipApp.issued := []; JuiSipApp.outcomes := [];
     JuiSipApp.now := "2025-01-02T00:00:00.000Z" |}.

(** A connected JuiSipApp with an empty cart and the form open, whose first
    write is going to fail. *)
Definition failingShop : JuiSipApp.App Q :=
  {| JuiSipApp.db := true; JuiSipApp.userId := Some "user-1";
     JuiSipApp.appId := "default-app-id";
     JuiSipApp.cart := JuiSipApp.initialCartState;
     JuiSipApp.showModal := true; JuiSipApp.selectedJuice := Some freshOrange;
     JuiSipApp.message := None; JuiSipApp.stored := None;
     JuiSipApp.issued := []; JuiSipApp.outcomes := [false];
     JuiSipApp.now := "2025-01-01T00:00:00.000Z" |}.

End Scenarios.

(* ================================================================== *)
(** * Properties *)

(* ------------------------------------------------------------------ *)
(** ** JSON.stringify keeps the array apart *)

Module JSONFacts.
Import JSON.

Lemma read_string_escape_char (c : ascii) (tail : string) :
  read_string (escape_char c ++ tail) =
  match read_string tail with
  | Some (s, r) => Some (String c s, r)
  | None => None
  end.
Proof.
  destruct c as [[] [] [] [] [] [] [] []]; reflexivity.
Qed.

Lemma append_assoc (a b c : string) : ((a ++ b) ++ c = a ++ (b ++ c))%string.
Proof.
  induction a as [| x a IH]; simpl; [reflexivity | now rewrite IH].
Qed.

Lemma read_string_escape (s rest : string) :
  read_string (escape s ++ String dquote rest) = Some (s, rest).
Proof.
  induction s as [| c s IH]; simpl.
  - reflexivity.
  - rewrite append_assoc, read_string_escape_char, IH. reflexivity.
Qed.

Lemma elements_cons (x : string) (l : list string) (suffix : string) :
  (elements (x :: l) ++ suffix)%string =
  String dquote (escape x ++ String dquote (after_first l suffix)).
Proof.
  destruct l as [| y l]; unfold after_first.
  - cbn [elements]. unfold quote. cbn [append].
    rewrite append_assoc. reflexivity.
  - change (elements (x :: y :: l))
      with (quote x ++ String "," (elements (y :: l)))%string.
    unfold quote at 1. cbn [append].
    rewrite !append_assoc. reflexivity.
Qed.

Lemma elements_inj (l1 l2 : list string) :
  (elements l1 ++ "]" = elements l2 ++ "]")%string -> l1 = l2.
Proof.
  revert l2. induction l1 as [| x1 l1 IH]; intros [| x2 l2] E.
  - reflexivity.
  - rewrite elements_cons in E. discriminate E.
  - rewrite elements_cons in E. discriminate E.
  - rewrite !elements_cons in E.
    injection E as E.
    apply (f_equal read_string) in E.
    rewrite !read_string_escape in E.
    injection E as Ex Et. subst x2. f_equal.
    destruct l1 as [| y1 l1], l2 as [| y2 l2]; cbn [after_first] in Et.
    + reflexivity.
    + discriminate Et.
    + discriminate Et.
    + injection Et as Et. apply IH. exact Et.
Qed.

Lemma stringify_inj (l1 l2 : list string) :
  stringify l1 = stringify l2 -> l1 = l2.
Proof.
  unfold stringify. intros E. injection E as E. apply elements_inj. exact E.
Qed.

Lemma stringify_eqb (l1 l2 : list string) :
  String.eqb (stringify l1) (stringify l2) = true <-> l1 = l2.
Proof.
  rewrite String.eqb_eq. split; [apply stringify_inj | intros ->; reflexivity].
Qed.

End JSONFacts.

(* ------------------------------------------------------------------ *)
(** ** findIndex followed by an indexed map *)

Section ArrayFacts.
Context {A : Type}.
Implicit Types (p : A -> bool) (g : A -> A) (l : list A).

Lemma findIndex_from_none p l k :
  Forall (fun y => p y = false) l -> findIndex_from p l k = -1.
Proof.
  intros H. revert k. induction H as [| y l Hy _ IH]; intros k; simpl.
  - reflexivity.
  - rewrite Hy. apply IH.
Qed.

Lemma findIndex_from_first p l1 x l2 k :
  Forall (fun y => p y = false) l1 -> p x = true ->
  findIndex_from p (l1 ++ x :: l2) k = k + Z.of_nat (List.length l1).
Proof.
  intros H Hx. revert k. induction H as [| y l1 Hy _ IH]; intros k; simpl.
  - rewrite Hx. lia.
  - rewrite Hy, IH. lia.
Qed.

(** Either no element satisfies [p], or the array splits at the first one
    that does. *)
Lemma first_match_cases p l :
  Forall (fun y => p y = false) l \/
  exists l1 x l2,
    l = l1 ++ x :: l2 /\ Forall (fun y => p y = false) l1 /\ p x = true.
Proof.
  induction l as [| y l IH].
  - left. constructor.
  - destruct (p y) eqn:Hy.
    + right. exists [], y, l. repeat split; [constructor | exact Hy].
    + destruct IH as [IH | (l1 & x & l2 & -> & H1 & Hx)].
      * left. constructor; assumption.
      * right. exists (y :: l1), x, l2.
        repeat split; [constructor; assumption | exact Hx].
Qed.

Lemma map_index_from_below g l t k :
  t < k ->
  map_index_from (fun i index => if index =? t then g i else i) l k = l.
Proof.
  revert k. induction l as [| y l IH]; intros k Hk; simpl.
  - reflexivity.
  - destruct (Z.eqb_spec k t); [lia |]. rewrite IH by lia. reflexivity.
Qed.

Lemma map_index_from_at g l1 x l2 t k :
  t = k + Z.of_nat (List.length l1) ->
  map_index_from (fun i index => if index =? t then g i else i) (l1 ++ x :: l2) k
  = l1 ++ g x :: l2.
Proof.
  revert k. induction l1 as [| y l1 IH]; intros k Ht; simpl in *.
  - destruct (Z.eqb_spec k t); [| lia].
    rewrite map_index_from_below by lia. reflexivity.
  - destruct (Z.eqb_spec k t); [lia |]. rewrite IH by lia. reflexivity.
Qed.

Lemma update_first_or_append_found p g extra l1 x l2 :
  Forall (fun y => p y = false) l1 -> p x = true ->
  update_first_or_append p g extra (l1 ++ x :: l2) = l1 ++ g x :: l2.
Proof.
  intros H1 Hx. unfold update_first_or_append, findIndex, map_index.
  rewrite (findIndex_from_first p l1 x l2 0 H1 Hx).
  destruct (Z.gtb_spec (0 + Z.of_nat (List.length l1)) (-1)); [| lia].
  apply map_index_from_at. reflexivity.
Qed.

Lemma update_first_or_append_absent p g extra l :
  Forall (fun y => p y = false) l ->
  update_first_or_append p g extra l = l ++ [extra].
Proof.
  intros H. unfold update_first_or_append, findIndex.
  rewrite (findIndex_from_none p l 0 H). reflexivity.
Qed.

Lemma NoDup_snoc (l : list A) (x : A) :
  NoDup l -> ~ In x l -> NoDup (l ++ [x]).
Proof.
  intros Hl Hx. apply NoDup_app.
  - exact Hl.
  - constructor; [intros [] | constructor].
  - intros a Ha [<- | []]. now apply Hx.
Qed.

Lemma NoDup_map_filter {K : Type} (key : A -> K) (keep : A -> bool) (l : list A) :
  NoDup (map key l) -> NoDup (map key (filter keep l)).
Proof.
  induction l as [| x l IH]; simpl; intros H; [constructor |].
  apply NoDup_cons_iff in H as [Hx Hl].
  destruct (keep x); simpl; [| now apply IH].
  constructor; [| now apply IH].
  rewrite in_map_iff. intros (y & Ey & Hy). apply Hx.
  apply filter_In in Hy as [Hy _]. rewrite <- Ey. now apply in_map.
Qed.

Lemma filter_all (keep : A -> bool) (l : list A) :
  Forall (fun x => keep x = true) l -> filter keep l = l.
Proof.
  induction 1 as [| x l Hx _ IH]; simpl; [reflexivity |].
  rewrite Hx, IH. reflexivity.
Qed.

End ArrayFacts.

(* ------------------------------------------------------------------ *)
(** ** Sums of exact decimals *)

Section ExactSums.
Local Open Scope Q_scope.

(** A [reduce] that adds up is the sum. *)
Lemma reduce_sum {A : Type} (f : A -> Q) (l : list A) (acc : Q) :
  reduce (fun sum a => Qplus sum (f a)) acc l == acc + sumOf (map f l).
Proof.
  unfold reduce, sumOf. cbn [num_add lit Num_Q Z.to_pos].
  revert acc. induction l as [| x l IH]; intros acc; cbn [fold_left fold_right map].
  - ring.
  - rewrite IH. ring.
Qed.

End ExactSums.

(** A [reduce] that adds from zero adds in the order of the array, whatever
    the numbers are. *)
Section SumsInOrder.
Context {T : Type} {NT : Num T}.
Local Open Scope js_scope.

Lemma reduce_from {A : Type} (f : A -> T) (l : list A) (acc : T) :
  reduce (fun sum a => sum + f a) acc l = fold_left num_add (map f l) acc.
Proof.
  unfold reduce. revert acc.
  induction l as [| a l IH]; intros acc; cbn [fold_left map]; [reflexivity | apply IH].
Qed.

Lemma reduce_sumInOrder {A : Type} (f : A -> T) (l : list A) :
  reduce (fun sum a => sum + f a) (lit 0 1) l = sumInOrder (map f l).
Proof. apply reduce_from. Qed.

Lemma sumInOrder_snoc (l : list T) (x : T) : sumInOrder (l ++ [x]) = sumInOrder l + x.
Proof. unfold sumInOrder. now rewrite fold_left_app. Qed.

End SumsInOrder.

(** Over exact decimals the order does not matter. *)
Lemma sumInOrder_exact (l : list Q) : (sumInOrder l == sumOf l)%Q.
Proof.
  unfold sumInOrder, sumOf. cbn [num_add lit Num_Q Z.to_pos].
  assert (H : forall acc, (fold_left Qplus l acc == acc + fold_right Qplus (0 # 1) l)%Q).
  { induction l as [| x l IH]; intros acc; cbn [fold_left fold_right].
    - ring.
    - rewrite IH. ring. }
  rewrite H. ring.
Qed.

(** Equal decimals are read as the same binary64. *)
Lemma binary64_of_decimal_Qeq (q q' : Q) :
  (q == q')%Q -> binary64_of_decimal q = binary64_of_decimal q'.
Proof. intros E. unfold binary64_of_decimal. now rewrite (Qred_complete _ _ E). Qed.

(** A binary64 that [===] takes for 0 is not above 0. *)
Lemma float_zero_not_above (x : float) :
  PrimFloat.eqb x 0 = true -> PrimFloat.ltb 0 x = false.
Proof.
  rewrite FloatAxioms.eqb_spec, FloatAxioms.ltb_spec.
  change (Prim2SF 0) with (S754_zero false).
  destruct (Prim2SF x) as [s | s | | s m e]; cbn; try discriminate; try reflexivity.
  all: destruct s; cbn; try discriminate; reflexivity.
Qed.

(** Ordered pairs of a list, through a filter and at its end. *)
Section OrdPairs.
Context {A : Type} (R : A -> A -> Prop).

Lemma ForallOrdPairs_filter (keep : A -> bool) (l : list A) :
  ForallOrdPairs R l -> ForallOrdPairs R (filter keep l).
Proof.
  induction 1 as [| x l Hx Hl IH]; cbn [filter]; [constructor |].
  destruct (keep x); [| exact IH].
  constructor; [| exact IH].
  rewrite Forall_forall in *. intros y Hy. apply filter_In in Hy as [Hy _]. now apply Hx.
Qed.

Lemma ForallOrdPairs_snoc (l : list A) (x : A) :
  ForallOrdPairs R (l ++ [x]) <-> ForallOrdPairs R l /\ Forall (fun i => R i x) l.
Proof.
  induction l as [| y l IH]; cbn [app].
  - split; [intros _; split; constructor | intros _; repeat constructor].
  - split.
    + intros H. inversion H as [| ? ? Hy Hl]; subst.
      apply IH in Hl as [Hl Hx]. apply Forall_app in Hy as [Hy Hyx].
      inversion Hyx; subst. split; constructor; assumption.
    + intros [H Hx]. inversion H as [| ? ? Hy Hl]; subst.
      inversion Hx as [| ? ? Hyx Hx']; subst.
      constructor.
      * apply Forall_app. split; [exact Hy | now constructor].
      * apply IH. now split.
Qed.

End OrdPairs.

(* ------------------------------------------------------------------ *)
(** ** JuiSipApp: the cart as a list of lines *)

Module JuiSipAppFacts.
Import JuiSipApp.

Section Lines.
Context {T : Type}.
Implicit Types (i j item : CartItem T) (cartItems : list (CartItem T)).

(** The callback of [findIndex] compares the customisations. *)
Lemma sameCustomisation_spec item i :
  sameCustomisation item i = true <-> customisation i = customisation item.
Proof.
  unfold sameCustomisation, customisation.
  rewrite !andb_true_iff, JSONFacts.stringify_eqb, !String.eqb_eq.
  split.
  - intros [[[-> ->] ->] ->]. reflexivity.
  - intros E. injection E as -> -> -> ->. auto.
Qed.

Lemma sameCustomisation_false item i :
  sameCustomisation item i = false <-> customisation i <> customisation item.
Proof.
  rewrite <- sameCustomisation_spec. destruct (sameCustomisation item i); split;
    congruence.
Qed.


Lemma sameCustomisation_key item item' i :
  customisation item = customisation item' ->
  sameCustomisation item i = sameCustomisation item' i.
Proof.
  intros E. destruct (sameCustomisation item' i) eqn:E'.
  - apply sameCustomisation_spec. apply sameCustomisation_spec in E'. congruence.
  - apply sameCustomisation_false. apply sameCustomisation_false in E'. congruence.
Qed.

Lemma customisation_with_quantity i q :
  customisation (with_quantity i q) = customisation i.
Proof. reflexivity. Qed.

Lemma noMergeableLines_NoDup cartItems :
  noMergeableLines cartItems <-> NoDup (map customisation cartItems).
Proof.
  unfold noMergeableLines. induction cartItems as [| x l IH]; simpl.
  - split; constructor.
  - split.
    + intros H. inversion H as [| ? ? Hx Hl]; subst. constructor.
      * rewrite in_map_iff. intros (y & Ey & Hy).
        rewrite Forall_forall in Hx. specialize (Hx y Hy).
        apply sameCustomisation_false in Hx. congruence.
      * apply IH. exact Hl.
    + intros H. inversion H as [| ? ? Hx Hl]; subst. constructor.
      * rewrite Forall_forall. intros y Hy. apply sameCustomisation_false.
        intros E. apply Hx. rewrite <- E. now apply in_map.
      * apply IH. exact Hl.
Qed.

(** [handleAddToCart] is the shared pattern. *)
Lemma handleAddToCart_newItems_pattern cartItems item :
  handleAddToCart_newItems cartItems item =
  update_first_or_append (sameCustomisation item)
    (fun i => with_quantity i (quantity i + quantity item)) item cartItems.
Proof. reflexivity. Qed.

Lemma add_absent cartItems item :
  Forall (fun i => sameCustomisation item i = false) cartItems ->
  handleAddToCart_newItems cartItems item = cartItems ++ [item].
Proof.
  intros H. rewrite handleAddToCart_newItems_pattern.
  now apply update_first_or_append_absent.
Qed.

Lemma add_found l1 x l2 item :
  Forall (fun i => sameCustomisation item i = false) l1 ->
  sameCustomisation item x = true ->
  handleAddToCart_newItems (l1 ++ x :: l2) item =
  l1 ++ with_quantity x (quantity x + quantity item) :: l2.
Proof.
  intros H1 Hx. rewrite handleAddToCart_newItems_pattern.
  exact (update_first_or_append_found _
           (fun i => with_quantity i (quantity i + quantity item)) _ _ _ _ H1 Hx).
Qed.

(** The customisations in the cart after an add. *)
Lemma add_customisations cartItems item :
  map customisation (handleAddToCart_newItems cartItems item) =
  if existsb (sameCustomisation item) cartItems
  then map customisation cartItems
  else map customisation cartItems ++ [customisation item].
Proof.
  destruct (first_match_cases (sameCustomisation item) cartItems)
    as [H | (l1 & x & l2 & -> & H1 & Hx)].
  - rewrite add_absent by exact H.
    replace (existsb (sameCustomisation item) cartItems) with false.
    + apply map_app.
    + symmetry. apply not_true_is_false. rewrite existsb_exists.
      intros (y & Hy & E). rewrite Forall_forall in H. rewrite (H y Hy) in E.
      discriminate.
  - rewrite add_found by assumption.
    replace (existsb (sameCustomisation item) (l1 ++ x :: l2)) with true.
    + rewrite !map_app. reflexivity.
    + symmetry. apply existsb_exists. exists x. split; [| exact Hx].
      apply in_or_app. right. now left.
Qed.

Lemma add_preserves_noMergeableLines cartItems item :
  noMergeableLines cartItems ->
  noMergeableLines (handleAddToCart_newItems cartItems item).
Proof.
  rewrite !noMergeableLines_NoDup, add_customisations. intros H.
  destruct (existsb (sameCustomisation item) cartItems) eqn:E; [exact H |].
  apply NoDup_snoc; [exact H |].
  rewrite in_map_iff. intros (y & Ey & Hy).
  assert (existsb (sameCustomisation item) cartItems = true); [| congruence].
  apply existsb_exists. exists y. split; [exact Hy |].
  now apply sameCustomisation_spec.
Qed.











Lemma add_preserves_positiveQuantities cartItems item :
  positiveQuantities cartItems -> 1 <= quantity item ->
  positiveQuantities (handleAddToCart_newItems cartItems item).
Proof.
  unfold positiveQuantities. intros H Hq.
  destruct (first_match_cases (sameCustomisation item) cartItems)
    as [Hn | (l1 & x & l2 & -> & H1 & Hx)].
  - rewrite add_absent by exact Hn. apply Forall_app. split; [exact H |].
    constructor; [exact Hq | constructor].
  - rewrite add_found by assumption.
    apply Forall_app in H as [Hl1 Hl2]. inversion Hl2 as [| ? ? Hqx Hl2']; subst.
    apply Forall_app. split; [exact Hl1 |].
    constructor; [simpl; lia | exact Hl2'].
Qed.

(** *** Setting a quantity and removing a line *)

Lemma updateCartItemQuantity_customisations cartItems itemId q :
  map customisation
    (map (fun item =>
            if String.eqb (item_id item) itemId then with_quantity item q else item)
       cartItems)
  = map customisation cartItems.
Proof.
  rewrite map_map. apply map_ext. intros i.
  destruct (String.eqb (item_id i) itemId); reflexivity.
Qed.

Lemma updateCartItemQuantity_preserves cartItems itemId q :
  cartInvariant cartItems ->
  cartInvariant (updateCartItemQuantity_newItems cartItems itemId q).
Proof.
  unfold cartInvariant, updateCartItemQuantity_newItems. intros [Hn Hp]. split.
  - apply noMergeableLines_NoDup. apply NoDup_map_filter.
    rewrite updateCartItemQuantity_customisations.
    now apply noMergeableLines_NoDup.
  - unfold positiveQuantities. apply Forall_forall. intros i Hi.
    apply filter_In in Hi as [_ Hi]. lia.
Qed.

Lemma removeItemFromCart_preserves cartItems itemId :
  cartInvariant cartItems ->
  cartInvariant (removeItemFromCart_newItems cartItems itemId).
Proof.
  unfold cartInvariant, removeItemFromCart_newItems. intros [Hn Hp]. split.
  - apply noMergeableLines_NoDup. apply NoDup_map_filter.
    now apply noMergeableLines_NoDup.
  - unfold positiveQuantities in *. rewrite Forall_forall in *. intros i Hi.
    apply filter_In in Hi as [Hi _]. now apply Hp.
Qed.

Lemma setQuantity_nonpositive_removes cartItems itemId q :
  positiveQuantities cartItems -> q <= 0 ->
  updateCartItemQuantity_newItems cartItems itemId q =
  removeItemFromCart_newItems cartItems itemId.
Proof.
  unfold positiveQuantities, updateCartItemQuantity_newItems,
    removeItemFromCart_newItems.
  intros H Hq. induction H as [| i l Hi _ IH]; simpl; [reflexivity |].
  destruct (String.eqb (item_id i) itemId); simpl.
  - destruct (Z.gtb_spec q 0); [lia | exact IH].
  - destruct (Z.gtb_spec (quantity i) 0); [| lia]. now rewrite IH.
Qed.

Lemma setQuantity_positive_sets cartItems itemId q :
  positiveQuantities cartItems -> 0 < q ->
  updateCartItemQuantity_newItems cartItems itemId q =
  map (fun item =>
         if String.eqb (item_id item) itemId then with_quantity item q else item)
    cartItems.
Proof.
  unfold positiveQuantities, updateCartItemQuantity_newItems. intros H Hq.
  apply filter_all. apply Forall_map. apply Forall_forall. intros i Hi.
  rewrite Forall_forall in H. specialize (H i Hi).
  destruct (String.eqb (item_id i) itemId); simpl; lia.
Qed.

Lemma removeItemFromCart_absent cartItems itemId :
  Forall (fun i => item_id i <> itemId) cartItems ->
  removeItemFromCart_newItems cartItems itemId = cartItems.
Proof.
  intros H. unfold removeItemFromCart_newItems. apply filter_all.
  apply Forall_forall. intros i Hi. rewrite Forall_forall in H.
  apply negb_true_iff. apply String.eqb_neq. now apply H.
Qed.

Lemma updateCartItemQuantity_absent cartItems itemId q :
  positiveQuantities cartItems ->
  Forall (fun i => item_id i <> itemId) cartItems ->
  updateCartItemQuantity_newItems cartItems itemId q = cartItems.
Proof.
  unfold positiveQuantities, updateCartItemQuantity_newItems. intros Hp H.
  rewrite filter_all.
  - rewrite <- (map_id cartItems) at 2. apply map_ext_in. intros i Hi.
    rewrite Forall_forall in H. specialize (H i Hi).
    apply String.eqb_neq in H. now rewrite H.
  - apply Forall_map. apply Forall_forall. intros i Hi.
    rewrite Forall_forall in H, Hp. specialize (H i Hi). specialize (Hp i Hi).
    apply String.eqb_neq in H. rewrite H. lia.
Qed.

End Lines.

(** The handlers at work on small carts. *)
Example add_merges_into_first_line :
  map (fun i => (item_id i, quantity i))
    (handleAddToCart_newItems
       [Scenarios.plainOrange 3 "line-1";
        Scenarios.boostedOrange Scenarios.chiaThenGinger "line-2"]
       (Scenarios.plainOrange 2 "line-3"))
  = [("line-1", 5); ("line-2", 1)].
Proof. reflexivity. Qed.

Example add_in_other_order_appends :
  map (fun i => (item_id i, quantity i))
    (handleAddToCart_newItems
       [Scenarios.boostedOrange Scenarios.chiaThenGinger "line-1"]
       (Scenarios.boostedOrange Scenarios.gingerThenChia "line-2"))
  = [("line-1", 1); ("line-2", 1)].
Proof. reflexivity. Qed.

Example set_to_zero_drops_the_line :
  map (fun i => (item_id i, quantity i))
    (updateCartItemQuantity_newItems
       [Scenarios.plainOrange 3 "line-1";
        Scenarios.boostedOrange Scenarios.chiaThenGinger "line-2"] "line-1" 0)
  = [("line-2", 1)].
Proof. reflexivity. Qed.

(** *** The handlers, Firestore and the listener *)

Section Handlers.
Context {T : Type} {NT : Num T}.
Implicit Types (a : App T) (item : CartItem T).

(** No handler touches the cart of the React state: only the listener does. *)
Lemma updateFirestoreCart_cart (newCart : Cart T) a :
  cart (updateFirestoreCart newCart a) = cart a.
Proof.
  unfold updateFirestoreCart.
  destruct (db a); [| reflexivity]. destruct (userId a); [| reflexivity].
  cbn. destruct (hd true (outcomes a)); reflexivity.
Qed.

Lemma handleAddToCart_cart item a : cart (handleAddToCart item a) = cart a.
Proof. unfold handleAddToCart. cbn. apply updateFirestoreCart_cart. Qed.

(** A committed write comes back through the listener with the new items. *)
Lemma updateFirestoreCart_delivered (newCart : Cart T) a uid :
  db a = true -> userId a = Some uid -> hd true (outcomes a) = true ->
  items (cart (deliver (updateFirestoreCart newCart a))) = items newCart.
Proof.
  intros Hdb Huid Hok. unfold updateFirestoreCart. rewrite Hdb, Huid.
  cbn. rewrite Hok. unfold deliver. cbn. rewrite Hdb, Huid. reflexivity.
Qed.

Lemma handleAddToCart_delivered item a uid :
  db a = true -> userId a = Some uid -> hd true (outcomes a) = true ->
  items (cart (deliver (handleAddToCart item a))) =
  handleAddToCart_newItems (items (cart a)) item.
Proof.
  intros Hdb Huid Hok. unfold handleAddToCart.
  pose proof (updateFirestoreCart_delivered
                (with_items (cart a) (handleAddToCart_newItems (items (cart a)) item))
                a uid Hdb Huid Hok) as E.
  unfold deliver in *. cbn in *.
  destruct (db (updateFirestoreCart _ a)); [| exact E].
  destruct (userId (updateFirestoreCart _ a)); [| exact E].
  destruct (stored (updateFirestoreCart _ a)); exact E.
Qed.

(** On a healthy store, a sequence of adds, each delivered back by the
    listener, leaves in memory the items the adds compute one after the
    other. *)
Lemma handleAddToCart_healthy item a uid :
  db a = true -> userId a = Some uid -> outcomes a = [] ->
  let a' := deliver (handleAddToCart item a) in
  db a' = true /\ userId a' = Some uid /\ outcomes a' = [] /\
  items (cart a') = handleAddToCart_newItems (items (cart a)) item.
Proof.
  intros Hdb Huid Hout.
  destruct a as [d u ap c sm sj m st iss out nw]. cbn in *. subst. cbn.
  repeat split.
Qed.

Lemma handleAddToCart_sequence_delivered (adds : list (CartItem T)) a uid :
  db a = true -> userId a = Some uid -> outcomes a = [] ->
  items (cart (fold_left (fun a item => deliver (handleAddToCart item a)) adds a)) =
  fold_left handleAddToCart_newItems adds (items (cart a)).
Proof.
  revert a. induction adds as [| item adds IH]; intros a Hdb Huid Hout.
  - reflexivity.
  - destruct (handleAddToCart_healthy item a uid Hdb Huid Hout) as (D & U & O & E).
    cbn [fold_left]. rewrite IH by assumption. now rewrite E.
Qed.

(** With no database, or when the write fails, the cart stays as it was. *)
Lemma updateFirestoreCart_failed (newCart : Cart T) a :
  hd true (outcomes a) = false ->
  stored (updateFirestoreCart newCart a) = stored a /\
  cart (updateFirestoreCart newCart a) = cart a.
Proof.
  intros Hok. split; [| apply updateFirestoreCart_cart].
  unfold updateFirestoreCart.
  destruct (db a); [| reflexivity]. destruct (userId a); [| reflexivity].
  cbn. rewrite Hok. reflexivity.
Qed.

(** The absent branch of the listener. *)
Lemma onSnapshot_cart_absent uid a :
  let a' := onSnapshot_cart uid Absent a in
  let initialCart :=
    {| items := []; total := lit 0 1; checkoutId := None;
       lastUpdated := Some (now a) |} in
  let request :=
    {| write_path := ["artifacts"; appId a; "users"; uid; "juisip_cart"; "current"];
       write_data := {| doc_userId := uid; doc_cart := initialCart |};
       write_merge := true |} in
  cart a' = initialCart /\
  issued a' = issued a ++ [request] /\
  message a' = message a /\
  (hd true (outcomes a) = true ->
   stored a' = Some {| doc_userId := uid; doc_cart := initialCart |}).
Proof.
  cbn. repeat split. intros ->. reflexivity.
Qed.

End Handlers.

(** *** The pricer *)

Section PricerAnyNumber.
Context {T : Type} {NT : Num T}.

Lemma includes_cons_unknown (nm : string) (sel : list string) (a : Addition T) :
  isKnownAddition (T:=T) nm = false -> In a availableAdditions ->
  includes (nm :: sel) (addition_name a) = includes sel (addition_name a).
Proof.
  intros Hnm Ha. unfold includes. simpl.
  destruct (String.eqb_spec (addition_name a) nm) as [E | E]; [| reflexivity].
  exfalso. unfold isKnownAddition in Hnm.
  assert (existsb (fun a => String.eqb (addition_name a) nm) (availableAdditions (T:=T))
          = true); [| congruence].
  apply existsb_exists. exists a. split; [exact Ha |]. now apply String.eqb_eq.
Qed.

Lemma includes_filter_known (sel : list string) (a : Addition T) :
  In a availableAdditions ->
  includes (filter (isKnownAddition (T:=T)) sel) (addition_name a) =
  includes sel (addition_name a).
Proof.
  intros Ha. unfold includes. induction sel as [| nm sel IH]; simpl; [reflexivity |].
  destruct (isKnownAddition (T:=T) nm) eqn:K; simpl.
  - now rewrite IH.
  - rewrite IH. pose proof (includes_cons_unknown nm sel a K Ha) as E.
    unfold includes in E. simpl in E. symmetry. exact E.
Qed.

Lemma selectedOf_cons_unknown (nm : string) (sel : list string) :
  isKnownAddition (T:=T) nm = false -> selectedOf (T:=T) (nm :: sel) = selectedOf sel.
Proof.
  intros H. unfold selectedOf. apply filter_ext_in. intros a Ha.
  now apply includes_cons_unknown.
Qed.

Lemma selectedOf_filter_known (sel : list string) :
  selectedOf (T:=T) (filter (isKnownAddition (T:=T)) sel) = selectedOf sel.
Proof.
  unfold selectedOf. apply filter_ext_in. intros a Ha.
  now apply includes_filter_known.
Qed.

Lemma calculateItemPrice_selectedOf (juice : Juice T) (sz : string) (sel sel' : list string) :
  selectedOf (T:=T) sel = selectedOf sel' ->
  calculateItemPrice juice sz sel = calculateItemPrice juice sz sel'.
Proof.
  unfold calculateItemPrice, selectedOf. intros ->. reflexivity.
Qed.

(** The price, in the order in which the code adds: the additions of the
    catalog that are selected, from zero and in the order of the catalog,
    then the adjustment of the size, then the base price in front. *)
Lemma calculateItemPrice_in_order (juice : Juice T) (sz : string) (sel : list string) :
  let additionCost := sumInOrder (map addition_price (selectedOf sel)) in
  (sz = "Large" ->
   calculateItemPrice juice sz sel =
   num_add (juice_price juice) (num_add additionCost (lit 150 100))) /\
  (sz = "Small" ->
   calculateItemPrice juice sz sel =
   num_add (juice_price juice) (num_sub additionCost (lit 50 100))) /\
  (sz <> "Large" -> sz <> "Small" ->
   calculateItemPrice juice sz sel = num_add (juice_price juice) additionCost).
Proof.
  cbv zeta. unfold calculateItemPrice. rewrite reduce_sumInOrder.
  fold (selectedOf (T:=T) sel).
  split; [| split].
  - intros ->. reflexivity.
  - intros ->. reflexivity.
  - intros HL HS. apply String.eqb_neq in HL, HS. now rewrite HL, HS.
Qed.

End PricerAnyNumber.

(** On the juices of the catalog, whatever the size and the selection, the
    binary64 price is the binary64 of the exact price: the roundings of the
    sum leave no trace. *)
Lemma binary64_price_is_rounded (jf : Juice float) (jq : Juice Q) (sz : string)
    (sel : list string) :
  In (jf, jq) (combine JUICES JUICES) ->
  calculateItemPrice jf sz sel = binary64_of_decimal (calculateItemPrice jq sz sel).
Proof.
  intros H. unfold calculateItemPrice, availableAdditions.
  cbn [filter addition_name].
  destruct (includes sel "Protein Powder"), (includes sel "Chia Seeds"),
    (includes sel "Ginger Shot"), (includes sel "Spinach Boost");
  (destruct (String.eqb sz "Large") eqn:EL; destruct (String.eqb sz "Small") eqn:ES;
    [ apply String.eqb_eq in EL, ES; exfalso; congruence | | | ]);
  cbn [combine JUICES In] in H;
  repeat (destruct H as [H | H]; [injection H as <- <-; vm_compute; reflexivity |]);
  destruct H.
Qed.

Section PricerExact.
Local Open Scope Q_scope.

(** The price is the base price, plus the selected additions of the catalog,
    plus the size delta. *)
Lemma calculateItemPrice_rule (juice : Juice Q) (sz : string) (sel : list string) :
  calculateItemPrice juice sz sel ==
  juice_price juice + sumOf (map addition_price (selectedOf sel)) + sizeDelta sz.
Proof.
  unfold calculateItemPrice, sizeDelta, selectedOf.
  pose proof (reduce_sum (addition_price (T:=Q))
                (filter (fun a => includes sel (addition_name a)) availableAdditions)
                (lit 0 1)) as E.
  cbn [num_add num_sub lit Num_Q Z.to_pos] in *.
  destruct (String.eqb sz "Large") eqn:EL; destruct (String.eqb sz "Small") eqn:ES;
    [ apply String.eqb_eq in EL, ES; congruence | | | ];
    rewrite E; unfold sumOf; cbn [num_add lit Num_Q Z.to_pos]; ring.
Qed.

Lemma includes_In (l : list string) (nm : string) : includes l nm = true <-> In nm l.
Proof.
  unfold includes. rewrite existsb_exists. split.
  - intros (y & Hy & E). apply String.eqb_eq in E. now subst.
  - intros H. exists nm. split; [exact H | apply String.eqb_refl].
Qed.

(** Ticking and unticking additions never repeats a name. *)
Lemma handleToggleAddition_NoDup (prev : list string) (nm : string) :
  NoDup prev -> NoDup (handleToggleAddition prev nm).
Proof.
  intros H. unfold handleToggleAddition.
  destruct (includes prev nm) eqn:E.
  - now apply NoDup_filter.
  - apply NoDup_snoc; [exact H |]. intros Hin. apply includes_In in Hin. congruence.
Qed.

Lemma toggled_in_both_orders :
  Scenarios.chiaThenGinger = ["Chia Seeds"; "Ginger Shot"] /\
  Scenarios.gingerThenChia = ["Ginger Shot"; "Chia Seeds"].
Proof. split; reflexivity. Qed.

Lemma sumOf_filter {A : Type} (f : A -> Q) (keep : A -> bool) (l : list A) :
  sumOf (map f (filter keep l)) == sumOf (map (fun a => if keep a then f a else 0) l).
Proof.
  unfold sumOf. cbn [num_add lit Num_Q Z.to_pos].
  induction l as [| x l IH]; simpl; [reflexivity |].
  destruct (keep x); simpl; rewrite IH; ring.
Qed.

Lemma sumOf_split {A : Type} (f g h : A -> Q) (l : list A) :
  (forall a, In a l -> f a == g a + h a) ->
  sumOf (map f l) == sumOf (map g l) + sumOf (map h l).
Proof.
  unfold sumOf. cbn [num_add lit Num_Q Z.to_pos].
  induction l as [| x l IH]; intros H; simpl.
  - ring.
  - rewrite IH by (intros a Ha; apply H; now right).
    rewrite (H x) by now left. ring.
Qed.

(** The catalog entries named [nm] add up to the price of [nm]. *)
Lemma sumOf_named (nm : string) :
  sumOf (map (fun a : Addition Q =>
                if String.eqb (addition_name a) nm then addition_price a else 0)
           availableAdditions)
  == additionPrice nm.
Proof.
  unfold additionPrice, availableAdditions, sumOf.
  cbn [map fold_right find addition_name addition_price num_add lit Num_Q Z.to_pos].
  destruct (String.eqb_spec "Protein Powder" nm) as [<- | _]; [reflexivity |].
  destruct (String.eqb_spec "Chia Seeds" nm) as [<- | _]; [reflexivity |].
  destruct (String.eqb_spec "Ginger Shot" nm) as [<- | _]; [reflexivity |].
  destruct (String.eqb_spec "Spinach Boost" nm) as [<- | _]; reflexivity.
Qed.

(** On a selection without repetition the selected entries of the catalog
    add up to the prices of the selected names. *)
Lemma sumOf_selected (sel : list string) :
  NoDup sel ->
  sumOf (map addition_price (selectedOf (T:=Q) sel)) == sumOf (map additionPrice sel).
Proof.
  unfold selectedOf. rewrite sumOf_filter.
  induction 1 as [| nm sel Hnm Hsel IH].
  - unfold sumOf, includes. cbn [num_add lit Num_Q Z.to_pos existsb].
    induction (availableAdditions (T:=Q)) as [| a l IHl]; cbn [map fold_right].
    + reflexivity.
    + rewrite IHl. cbn [map fold_right]. ring.
  - rewrite (sumOf_split _
               (fun a : Addition Q =>
                  if String.eqb (addition_name a) nm then addition_price a else 0)
               (fun a : Addition Q =>
                  if includes sel (addition_name a) then addition_price a else 0)).
    + rewrite IH, sumOf_named. unfold sumOf. cbn [num_add lit Num_Q Z.to_pos map fold_right].
      reflexivity.
    + intros a _. unfold includes at 1. cbn [existsb]. fold (includes sel (addition_name a)).
      destruct (String.eqb_spec (addition_name a) nm) as [E | _];
        destruct (includes sel (addition_name a)) eqn:I; cbn [orb]; try ring.
      exfalso. apply Hnm. rewrite <- E. now apply includes_In.
Qed.

Lemma additionPrice_unknown (nm : string) :
  isKnownAddition (T:=Q) nm = false -> additionPrice (T:=Q) nm = 0.
Proof.
  unfold isKnownAddition, additionPrice.
  induction (availableAdditions (T:=Q)) as [| a l IH]; simpl; [reflexivity |].
  destruct (String.eqb (addition_name a) nm); simpl; [discriminate | exact IH].
Qed.

End PricerExact.

(** *** Equivalence in the words of the specification *)

Section SpecLines.
Context {T : Type}.
Implicit Types (i j item : CartItem T) (cartItems : list (CartItem T)).

Lemma equivalent_customisation i i' j j' :
  customisation i = customisation i' -> customisation j = customisation j' ->
  equivalent i j = equivalent i' j'.
Proof.
  unfold customisation, equivalent. intros E E'.
  injection E as -> -> -> ->. injection E' as -> -> -> ->. reflexivity.
Qed.


Lemma sameAdditionSet_spec (l l' : list string) :
  sameAdditionSet l l' = true <-> (forall nm, In nm l <-> In nm l').
Proof.
  unfold sameAdditionSet. rewrite andb_true_iff, !forallb_forall. split.
  - intros [H H'] nm. split; intros Hin.
    + apply includes_In. now apply H.
    + apply includes_In. now apply H'.
  - intros H. split; intros x Hx; apply includes_In; now apply H.
Qed.


Lemma equivalent_spec i j :
  equivalent i j = true <->
  juiceId i = juiceId j /\ size i = size j /\ sweetness i = sweetness j /\
  (forall nm, In nm (additions i) <-> In nm (additions j)).
Proof.
  unfold equivalent. rewrite !andb_true_iff, !String.eqb_eq, sameAdditionSet_spec. tauto.
Qed.

Lemma Forall_same_customisations (i i' : CartItem T) (l l' : list (CartItem T)) :
  customisation i = customisation i' ->
  map customisation l = map customisation l' ->
  Forall (fun j => equivalent i j = false) l ->
  Forall (fun j => equivalent i' j = false) l'.
Proof.
  intros Ei. revert l'. induction l as [| x l IH]; intros [| x' l'] E H;
    try discriminate E; [constructor |].
  cbn [map] in E.
  pose proof (f_equal (hd (customisation x)) E) as Ex.
  pose proof (f_equal (@tl _) E) as El. cbn [hd tl] in Ex, El.
  inversion H as [| ? ? Hx Hl]; subst.
  constructor; [| now apply IH].
  now rewrite <- (equivalent_customisation i i' x x' Ei Ex).
Qed.

Lemma noEquivalentLines_same_customisations (l l' : list (CartItem T)) :
  map customisation l = map customisation l' ->
  noEquivalentLines l -> noEquivalentLines l'.
Proof.
  unfold noEquivalentLines. revert l'.
  induction l as [| x l IH]; intros [| x' l'] E H; try discriminate E; [constructor |].
  cbn [map] in E.
  pose proof (f_equal (hd (customisation x)) E) as Ex.
  pose proof (f_equal (@tl _) E) as El. cbn [hd tl] in Ex, El.
  inversion H as [| ? ? Hx Hl]; subst.
  constructor; [| now apply IH].
  now apply (Forall_same_customisations x x' l l').
Qed.


Lemma merges_spec cartItems item :
  merges cartItems item = true <->
  exists i, In i cartItems /\ customisation i = customisation item.
Proof.
  unfold merges.
  destruct (first_match_cases (sameCustomisation item) cartItems)
    as [H | (l1 & x & l2 & -> & H1 & Hx)].
  - unfold findIndex. rewrite (findIndex_from_none _ _ 0 H). split.
    + discriminate.
    + intros (i & Hi & E). rewrite Forall_forall in H. specialize (H i Hi).
      apply sameCustomisation_false in H. contradiction.
  - unfold findIndex. rewrite (findIndex_from_first _ _ _ _ 0 H1 Hx). split.
    + intros _. exists x. split; [apply in_or_app; right; now left |].
      now apply sameCustomisation_spec.
    + intros _. apply Z.gtb_lt. lia.
Qed.

Lemma merges_existsb cartItems item :
  merges cartItems item = existsb (sameCustomisation item) cartItems.
Proof.
  destruct (existsb (sameCustomisation item) cartItems) eqn:E.
  - apply merges_spec. apply existsb_exists in E as (i & Hi & E). exists i.
    split; [exact Hi | now apply sameCustomisation_spec].
  - apply not_true_is_false. rewrite merges_spec. intros (i & Hi & Ei).
    assert (existsb (sameCustomisation item) cartItems = true); [| congruence].
    apply existsb_exists. exists i. split; [exact Hi | now apply sameCustomisation_spec].
Qed.

(** When an add keeps the invariant of the specification. *)
Lemma add_noEquivalentLines cartItems item :
  noEquivalentLines cartItems ->
  (noEquivalentLines (handleAddToCart_newItems cartItems item) <->
   merges cartItems item = true \/
   forall i, In i cartItems -> equivalent i item = false).
Proof.
  intros Hn. rewrite merges_existsb.
  pose proof (add_customisations cartItems item) as C.
  destruct (existsb (sameCustomisation item) cartItems) eqn:E.
  - split; [now left |]. intros _.
    now apply (noEquivalentLines_same_customisations cartItems).
  - assert (F : Forall (fun i => sameCustomisation item i = false) cartItems).
    { apply Forall_forall. intros i Hi. apply not_true_is_false. intros Ei.
      assert (existsb (sameCustomisation item) cartItems = true); [| congruence].
      apply existsb_exists. now exists i. }
    rewrite (add_absent _ _ F). unfold noEquivalentLines.
    rewrite ForallOrdPairs_snoc, Forall_forall. split.
    + intros [_ H]. now right.
    + intros [H | H]; [discriminate H | now split].
Qed.

Lemma updateCartItemQuantity_noEquivalentLines cartItems itemId q :
  noEquivalentLines cartItems ->
  noEquivalentLines (updateCartItemQuantity_newItems cartItems itemId q).
Proof.
  intros H. unfold updateCartItemQuantity_newItems, noEquivalentLines.
  apply ForallOrdPairs_filter.
  apply (noEquivalentLines_same_customisations cartItems); [| exact H].
  symmetry. apply updateCartItemQuantity_customisations.
Qed.

Lemma removeItemFromCart_noEquivalentLines cartItems itemId :
  noEquivalentLines cartItems ->
  noEquivalentLines (removeItemFromCart_newItems cartItems itemId).
Proof. apply ForallOrdPairs_filter. Qed.

Lemma updateCartItemQuantity_positive cartItems itemId q :
  positiveQuantities (updateCartItemQuantity_newItems cartItems itemId q).
Proof.
  unfold positiveQuantities, updateCartItemQuantity_newItems.
  apply Forall_forall. intros i Hi. apply filter_In in Hi as [_ Hi]. lia.
Qed.

End SpecLines.

End JuiSipAppFacts.

(* ------------------------------------------------------------------ *)
(** ** JuiSipApp2: the cart as a list of lines *)

Module JuiSipApp2Facts.
Import JuiSipApp2.

Section Lines.
Context {T : Type}.
Implicit Types (item : MenuItem T) (cart : list (CartItem T)).

Lemma addToCart_newCart_pattern cart item :
  addToCart_newCart cart item =
  update_first_or_append
    (fun cartItem => String.eqb (item_id cartItem) (menu_id item))
    (fun cartItem => with_quantity cartItem (quantity cartItem + 1))
    (line_of item 1) cart.
Proof. reflexivity. Qed.

Lemma addToCart_absent cart item :
  Forall (fun i => String.eqb (item_id i) (menu_id item) = false) cart ->
  addToCart_newCart cart item = cart ++ [line_of item 1].
Proof.
  intros H. rewrite addToCart_newCart_pattern.
  now apply update_first_or_append_absent.
Qed.

Lemma addToCart_found l1 x l2 item :
  Forall (fun i => String.eqb (item_id i) (menu_id item) = false) l1 ->
  String.eqb (item_id x) (menu_id item) = true ->
  addToCart_newCart (l1 ++ x :: l2) item =
  l1 ++ with_quantity x (quantity x + 1) :: l2.
Proof.
  intros H1 Hx. rewrite addToCart_newCart_pattern.
  exact (update_first_or_append_found _
           (fun cartItem => with_quantity cartItem (quantity cartItem + 1))
           _ _ _ _ H1 Hx).
Qed.

(** The menu items in the cart after an add. *)
Lemma addToCart_ids cart item :
  map item_id (addToCart_newCart cart item) =
  if existsb (fun i => String.eqb (item_id i) (menu_id item)) cart
  then map item_id cart
  else map item_id cart ++ [menu_id item].
Proof.
  destruct (first_match_cases (fun i => String.eqb (item_id i) (menu_id item)) cart)
    as [H | (l1 & x & l2 & -> & H1 & Hx)].
  - rewrite addToCart_absent by exact H.
    replace (existsb _ cart) with false.
    + apply map_app.
    + symmetry. apply not_true_is_false. rewrite existsb_exists.
      intros (y & Hy & E). rewrite Forall_forall in H. rewrite (H y Hy) in E.
      discriminate.
  - rewrite addToCart_found by assumption.
    replace (existsb _ (l1 ++ x :: l2)) with true.
    + rewrite !map_app. reflexivity.
    + symmetry. apply existsb_exists. exists x. split; [| exact Hx].
      apply in_or_app. right. now left.
Qed.

Lemma addToCart_preserves_NoDup cart item :
  NoDup (map item_id cart) -> NoDup (map item_id (addToCart_newCart cart item)).
Proof.
  intros Hn. rewrite addToCart_ids.
  destruct (existsb _ cart) eqn:E; [exact Hn |].
  apply NoDup_snoc; [exact Hn |].
  rewrite in_map_iff. intros (y & Ey & Hy).
  assert (existsb (fun i => String.eqb (item_id i) (menu_id item)) cart = true);
    [| congruence].
  apply existsb_exists. exists y. split; [exact Hy |]. now apply String.eqb_eq.
Qed.

Lemma addToCart_preserves cart item :
  cartInvariant cart -> cartInvariant (addToCart_newCart cart item).
Proof.
  unfold cartInvariant. intros [Hn Hp]. split.
  - now apply addToCart_preserves_NoDup.
  - destruct (first_match_cases (fun i => String.eqb (item_id i) (menu_id item)) cart)
      as [H | (l1 & x & l2 & -> & H1 & Hx)].
    + rewrite addToCart_absent by exact H. apply Forall_app. split; [exact Hp |].
      constructor; [simpl; lia | constructor].
    + rewrite addToCart_found by assumption.
      apply Forall_app in Hp as [Hl1 Hl2]. inversion Hl2 as [| ? ? Hqx Hl2']; subst.
      apply Forall_app. split; [exact Hl1 |].
      constructor; [simpl; lia | exact Hl2'].
Qed.

Lemma menu_totalQuantity_app (l1 l2 : list (CartItem T)) :
  totalQuantity (l1 ++ l2) = totalQuantity l1 + totalQuantity l2.
Proof.
  unfold totalQuantity. induction l1 as [| x l1 IH]; simpl; [reflexivity | lia].
Qed.








(** *** Changing a quantity, removing a line, clearing *)

Lemma updateQuantity_preserves cart itemId change :
  cartInvariant cart -> cartInvariant (updateQuantity_newCart cart itemId change).
Proof.
  unfold cartInvariant, updateQuantity_newCart. intros [Hn Hp]. split.
  - apply NoDup_map_filter.
    replace (map item_id (map _ cart)) with (map item_id cart); [exact Hn |].
    rewrite map_map. apply map_ext. intros i.
    destruct (String.eqb (item_id i) itemId); reflexivity.
  - apply Forall_forall. intros i Hi. apply filter_In in Hi as [_ Hi]. lia.
Qed.

Lemma removeFromCart_preserves cart itemId :
  cartInvariant cart -> cartInvariant (removeFromCart_newCart cart itemId).
Proof.
  unfold cartInvariant, removeFromCart_newCart. intros [Hn Hp]. split.
  - now apply NoDup_map_filter.
  - rewrite Forall_forall in *. intros i Hi.
    apply filter_In in Hi as [Hi _]. now apply Hp.
Qed.

Lemma empty_cart_invariant : cartInvariant (T:=T) [].
Proof. split; constructor. Qed.

End Lines.

(** *** Writing the cart *)

Section Writing.
Context {T : Type} {NT : Num T}.
Implicit Types (a : App T) (newCart : list (CartItem T)).

Lemma sameMemory_refl a : sameMemory a a.
Proof. repeat split. Qed.

Lemma sameMemory_trans a1 a2 a3 :
  sameMemory a1 a2 -> sameMemory a2 a3 -> sameMemory a1 a3.
Proof.
  unfold sameMemory. intros (?&?&?&?&?&?&?&?) (?&?&?&?&?&?&?&?).
  repeat split; congruence.
Qed.

Lemma updateCartInDb_from_memory (remaining : nat) (attempt : Z) newCart a :
  sameMemory a (updateCartInDb_from remaining attempt newCart a).
Proof.
  revert attempt a. induction remaining as [| n IH]; intros attempt a.
  - apply sameMemory_refl.
  - cbn -[Z.pow Z.mul Z.ltb Z.sub]. destruct (next_outcome a).
    + repeat split.
    + destruct (attempt <? maxRetries - 1);
        (eapply sameMemory_trans; [| apply IH]); repeat split.
Qed.

Lemma updateCartInDb_memory newCart a : sameMemory a (updateCartInDb newCart a).
Proof.
  unfold updateCartInDb. destruct (db a); [| apply sameMemory_refl].
  destruct (userId a); [| apply sameMemory_refl].
  apply updateCartInDb_from_memory.
Qed.

Lemma updateCartInDb_cart newCart a : cart (updateCartInDb newCart a) = cart a.
Proof. apply updateCartInDb_memory. Qed.

(** The four runs of [updateCartInDb] on a connected application. *)
Lemma updateCartInDb_runs newCart a uid :
  db a = true -> userId a = Some uid ->
  let data := {| itemsJson := Encoded newCart; updatedAt := now a |} in
  let a' := updateCartInDb newCart a in
  (effects a' = effects a ++ [SetDoc data true] /\
   stored_cart a' = Some data /\ error a' = error a) \/
  (effects a' = effects a ++ [SetDoc data false; Sleep 1000; SetDoc data true] /\
   stored_cart a' = Some data /\ error a' = error a) \/
  (effects a' = effects a ++ [SetDoc data false; Sleep 1000; SetDoc data false;
                              Sleep 2000; SetDoc data true] /\
   stored_cart a' = Some data /\ error a' = error a) \/
  (effects a' = effects a ++ [SetDoc data false; Sleep 1000; SetDoc data false;
                              Sleep 2000; SetDoc data false] /\
   stored_cart a' = stored_cart a /\
   error a' = Some "Failed to save cart. Please check your connection.").
Proof.
  intros Hdb Huid. unfold updateCartInDb. rewrite Hdb, Huid.
  change (Z.to_nat maxRetries) with 3%nat.
  destruct a as [d u c il e io oh sc sh ef out nw]. cbn in *.
  destruct out as [| [] [| [] [| [] out]]]; cbn;
    rewrite <- ?app_assoc; cbn; tauto.
Qed.

(** Three failures in a row. *)
Lemma updateCartInDb_exhausted newCart a uid rest :
  db a = true -> userId a = Some uid ->
  outcomes a = false :: false :: false :: rest ->
  let data := {| itemsJson := Encoded newCart; updatedAt := now a |} in
  let a' := updateCartInDb newCart a in
  effects a' = effects a ++ [SetDoc data false; Sleep 1000; SetDoc data false;
                             Sleep 2000; SetDoc data false] /\
  error a' = Some "Failed to save cart. Please check your connection." /\
  stored_cart a' = stored_cart a /\
  cart a' = cart a /\
  outcomes a' = rest.
Proof.
  intros Hdb Huid Hout. unfold updateCartInDb. rewrite Hdb, Huid.
  change (Z.to_nat maxRetries) with 3%nat.
  destruct a as [d u c il e io oh sc sh ef out nw]. cbn in *. subst out. cbn.
  rewrite <- !app_assoc. cbn. tauto.
Qed.

Example two_adds_of_the_first_menu_item :
  map (fun i => (item_id i, quantity i))
    (cart (addToCart Scenarios.zestyLemonade
             (addToCart Scenarios.zestyLemonade (Scenarios.kitchen [] []))))
  = [("1", 2)].
Proof. reflexivity. Qed.

Example second_write_succeeds :
  delays (effects (updateCartInDb [Scenarios.tenLine]
                     (Scenarios.kitchen [Scenarios.tenLine] [false; true]))) = [1000] /\
  attempts (effects (updateCartInDb [Scenarios.tenLine]
                       (Scenarios.kitchen [Scenarios.tenLine] [false; true])))
    = [false; true] /\
  error (updateCartInDb [Scenarios.tenLine]
           (Scenarios.kitchen [Scenarios.tenLine] [false; true])) = None.
Proof. repeat split. Qed.

(** The cart actions set the cart in memory before they write it. *)
Lemma addToCart_cart (item : MenuItem T) a :
  cart (addToCart item a) = addToCart_newCart (cart a) item.
Proof. unfold addToCart. now rewrite updateCartInDb_cart. Qed.

Lemma updateQuantity_cart (itemId : string) (change : Z) a :
  cart (updateQuantity itemId change a) = updateQuantity_newCart (cart a) itemId change.
Proof. unfold updateQuantity. now rewrite updateCartInDb_cart. Qed.

Lemma removeFromCart_cart (itemId : string) a :
  cart (removeFromCart itemId a) = removeFromCart_newCart (cart a) itemId.
Proof. unfold removeFromCart. now rewrite updateCartInDb_cart. Qed.

Lemma clearCart_cart a : cart (clearCart a) = [].
Proof. unfold clearCart. now rewrite updateCartInDb_cart. Qed.

(** The absent branch of the listener sets the cart and nothing else. *)
Lemma listener_absent_sets_cart a :
  onSnapshot_cart Absent a = setCart [] a.
Proof. reflexivity. Qed.

End Writing.

(** *** The derived totals, over exact decimals *)

Section Totals.
Local Open Scope Q_scope.
Implicit Types (cart : list (CartItem Q)).

Lemma cartSubtotal_sum cart :
  cartSubtotal cart == sumOf (map (fun i => price i * inject_Z (quantity i)) cart).
Proof.
  unfold cartSubtotal.
  pose proof (reduce_sum (fun i : CartItem Q => price i * inject_Z (quantity i))
                cart 0) as E.
  rewrite <- (Qplus_0_l (sumOf _)). exact E.
Qed.

Lemma taxAmount_rate cart : taxAmount cart == cartSubtotal cart * (8 # 100).
Proof. reflexivity. Qed.

Lemma deliveryFee_schedule cart :
  (cartSubtotal cart == 0 -> deliveryFee cart == 0) /\
  (0 < cartSubtotal cart -> deliveryFee cart == 5) /\
  (cartSubtotal cart < 0 -> deliveryFee cart == 0).
Proof.
  unfold deliveryFee. cbn [num_gt lit Num_Q Z.to_pos].
  destruct (Qle_bool (cartSubtotal cart) 0) eqn:E; cbn [negb].
  - apply Qle_bool_iff in E. repeat split; intros H; try reflexivity.
    exfalso. apply (Qlt_irrefl 0). eapply Qlt_le_trans; eassumption.
  - assert (H0 : ~ cartSubtotal cart <= 0).
    { intros H. apply Qle_bool_iff in H. congruence. }
    repeat split; intros H; try reflexivity; exfalso; apply H0.
    + rewrite H. apply Qle_refl.
    + now apply Qlt_le_weak.
Qed.

Lemma grandTotal_sum cart :
  grandTotal cart == cartSubtotal cart + taxAmount cart + deliveryFee cart.
Proof. reflexivity. Qed.

Lemma totals_of_ten cart :
  cartSubtotal cart == 10 ->
  taxAmount cart == 8 # 10 /\ deliveryFee cart == 5 /\ grandTotal cart == 158 # 10.
Proof.
  intros H.
  assert (Ht : taxAmount cart == 8 # 10).
  { rewrite taxAmount_rate, H. reflexivity. }
  assert (Hf : deliveryFee cart == 5).
  { apply deliveryFee_schedule. rewrite H. reflexivity. }
  repeat split; [exact Ht | exact Hf |].
  rewrite grandTotal_sum, H, Ht, Hf. reflexivity.
Qed.

End Totals.

(** *** Checkout *)

Section Checkout.
Local Open Scope Q_scope.
Implicit Types (a : App Q).

(** The guard of [handlePlaceOrder]: nothing at all happens. *)
Lemma handlePlaceOrder_guard (random : Z) a :
  cart a = [] \/ grandTotal (cart a) == 0 \/ db a = false \/ userId a = None ->
  handlePlaceOrder random a = a.
Proof.
  unfold handlePlaceOrder. intros H.
  destruct (userId a) as [uid |]; [| reflexivity].
  destruct H as [H | [H | [H | H]]].
  - rewrite H. reflexivity.
  - cbn [num_eq lit Num_Q Z.to_pos]. apply Qeq_bool_iff in H. rewrite H.
    now rewrite orb_true_r.
  - rewrite H. cbn [negb]. now rewrite orb_true_r.
  - discriminate H.
Qed.

(** Past the guard, on a store that commits the order: the order joins the
    history and the cart document is emptied. *)
Lemma handlePlaceOrder_places (random : Z) a uid :
  db a = true -> userId a = Some uid -> cart a <> [] ->
  ~ grandTotal (cart a) == 0 -> outcomes a = [] ->
  let a' := handlePlaceOrder random a in
  stored_history a' =
    stored_history a ++
      [{| orderId := random + 10000; order_userId := uid;
          order_itemsJson := Encoded (cart a);
          order_grandTotal := grandTotal (cart a);
          order_subtotal := cartSubtotal (cart a);
          order_deliveryFee := deliveryFee (cart a);
          order_taxAmount := taxAmount (cart a);
          placedAt := now a; status := "Preparing" |}] /\
  stored_cart a' = Some {| itemsJson := Encoded []; updatedAt := now a |} /\
  isOrderPlaced a' = true /\ isLoading a' = false /\ error a' = error a.
Proof.
  intros Hdb Huid Hc Hg Hout. unfold handlePlaceOrder. rewrite Huid, Hdb.
  destruct (cart a) as [| i l] eqn:Ec; [congruence |].
  assert (Hq : (grandTotal (i :: l) === lit 0 1)%js = false).
  { apply not_true_is_false. intros E. apply Hg. now apply Qeq_bool_iff. }
  rewrite Hq. cbn [List.length Nat.eqb orb negb].
  unfold updateCartInDb. change (Z.to_nat maxRetries) with 3%nat.
  destruct a as [d u c il e io oh sc sh ef out nw]. cbn in *. subst.
  cbn. repeat split.
Qed.

(** The guard compares the grand total with 0 only: a negative one passes. *)
Lemma negative_total_is_placed :
  let a := Scenarios.kitchen [Scenarios.refundLine] [] in
  (grandTotal (cart a) < 0) /\
  List.length (stored_history (handlePlaceOrder 4242 a)) = 1%nat /\
  isOrderPlaced (handlePlaceOrder 4242 a) = true.
Proof. cbv zeta. repeat split. Qed.

End Checkout.

End JuiSipApp2Facts.

(* ================================================================== *)
(** * The statements of the specification *)

(** The binary64 instance reads the decimal literals as a JavaScript engine
    does. *)
Lemma binary64_literals :
  (lit 599 100 : float) = 5.99%float /\
  (lit 150 100 : float) = 1.5%float /\
  (lit 50 100 : float) = 0.5%float /\
  (lit 75 100 : float) = 0.75%float /\
  (lit 8 100 : float) = 0.08%float /\
  (lit 749 100 : float) = 7.49%float /\
  (lit 1498 100 : float) = 14.98%float /\
  (lit 80 100 : float) = 0.8%float /\
  (lit 1580 100 : float) = 15.8%float.
Proof. repeat split; reflexivity. Qed.

(* ------------------------------------------------------------------ *)
(** ** Merge on add *)




(* ------------------------------------------------------------------ *)
(** ** The pricer *)

(** C2.  The unit price is the base price, plus the prices of the selected
    additions, plus the size delta: -0.50 for Small, 0 for Medium, +1.50 for
    Large.  The code adds in this order, whatever the numbers are: the
    selected additions of the catalog from zero, in the order of the catalog;
    then 1.50 more for Large, or 0.50 less for Small; then the base price in
    front.  On the juices of the catalog the binary64 price is, for every size
    and every selection, the binary64 of that decimal; over exact decimals the
    price is that decimal for every base price.  Nothing clamps it: a base
    price of 0.25 in size Small gives -0.25.  A base price of 5.99 in size
    Large without additions gives 7.49, and two of them bring 14.98 to the
    total of the cart. *)
Theorem calculateItemPrice_formula :
  (forall (T : Type) (NT : Num T) (juice : JuiSipApp.Juice T) (selectedSize : string)
          (selectedAdditions : list string),
      let additionCost :=
        sumInOrder (map JuiSipApp.addition_price (JuiSipApp.selectedOf selectedAdditions)) in
      (selectedSize = "Large" ->
       JuiSipApp.calculateItemPrice juice selectedSize selectedAdditions =
       num_add (JuiSipApp.juice_price juice) (num_add additionCost (lit 150 100))) /\
      (selectedSize = "Small" ->
       JuiSipApp.calculateItemPrice juice selectedSize selectedAdditions =
       num_add (JuiSipApp.juice_price juice) (num_sub additionCost (lit 50 100))) /\
      (selectedSize <> "Large" -> selectedSize <> "Small" ->
       JuiSipApp.calculateItemPrice juice selectedSize selectedAdditions =
       num_add (JuiSipApp.juice_price juice) additionCost)) /\
  (forall (jf : JuiSipApp.Juice float) (jq : JuiSipApp.Juice Q) (selectedSize : string)
          (selectedAdditions : list string),
      In (jf, jq) (combine JuiSipApp.JUICES JuiSipApp.JUICES) ->
      JuiSipApp.calculateItemPrice jf selectedSize selectedAdditions =
      binary64_of_decimal
        (JuiSipApp.juice_price jq +
         sumOf (map JuiSipApp.addition_price (JuiSipApp.selectedOf selectedAdditions)) +
         JuiSipApp.sizeDelta selectedSize)%Q) /\
  (forall (juice : JuiSipApp.Juice Q) (selectedSize : string)
          (selectedAdditions : list string),
      JuiSipApp.calculateItemPrice juice selectedSize selectedAdditions ==
      JuiSipApp.juice_price juice +
      sumOf (map JuiSipApp.addition_price (JuiSipApp.selectedOf selectedAdditions)) +
      JuiSipApp.sizeDelta selectedSize)%Q /\
  (JuiSipApp.sizeDelta (T:=Q) "Small" == - (50 # 100) /\
   JuiSipApp.sizeDelta (T:=Q) "Medium" == 0 /\
   JuiSipApp.sizeDelta (T:=Q) "Large" == 150 # 100)%Q /\
  (JuiSipApp.juice_price (T:=float) Scenarios.sample = 0.25%float /\
   JuiSipApp.calculateItemPrice (T:=float) Scenarios.sample "Small" [] = (-0.25)%float /\
   (0 <= JuiSipApp.juice_price (T:=Q) Scenarios.sample /\
    JuiSipApp.calculateItemPrice (T:=Q) Scenarios.sample "Small" [] < 0)%Q) /\
  (JuiSipApp.calculateItemPrice (T:=float) Scenarios.lemonade "Large" [] = 7.49%float /\
   forall selectedSweetness uuid,
     JuiSipApp.newTotal
       [JuiSipApp.handleSubmit_item (T:=float) Scenarios.lemonade "Large"
          selectedSweetness [] 2 uuid] = 14.98%float) /\
  (JuiSipApp.calculateItemPrice (T:=Q) Scenarios.lemonade "Large" [] == 749 # 100 /\
   forall selectedSweetness uuid,
     JuiSipApp.newTotal
       [JuiSipApp.handleSubmit_item (T:=Q) Scenarios.lemonade "Large"
          selectedSweetness [] 2 uuid] == 1498 # 100)%Q.
Proof.
  split; [| split; [| split; [| split; [| split; [| split]]]]].
  - intros T NT juice sz sel. apply JuiSipAppFacts.calculateItemPrice_in_order.
  - intros jf jq sz sel H.
    rewrite (JuiSipAppFacts.binary64_price_is_rounded jf jq sz sel H).
    apply binary64_of_decimal_Qeq. apply JuiSipAppFacts.calculateItemPrice_rule.
  - apply JuiSipAppFacts.calculateItemPrice_rule.
  - repeat split; reflexivity.
  - split; [reflexivity |]. split; [reflexivity |].
    split; vm_compute; [discriminate | reflexivity].
  - split; [reflexivity | intros; reflexivity].
  - split; [reflexivity | intros; reflexivity].
Qed.

(** A small Green Detox with protein powder: 6.80 + 1.50 - 0.50, the binary64
    of 7.80. *)
Lemma calculateItemPrice_formula_witness :
  JuiSipApp.calculateItemPrice (T:=float) Scenarios.greenDetox "Small" ["Protein Powder"] =
  binary64_of_decimal
    (JuiSipApp.juice_price (T:=Q) Scenarios.greenDetox +
     sumOf (map JuiSipApp.addition_price (JuiSipApp.selectedOf ["Protein Powder"])) +
     JuiSipApp.sizeDelta "Small")%Q.
Proof.
  apply (proj1 (proj2 calculateItemPrice_formula)
           Scenarios.greenDetox Scenarios.greenDetox "Small" ["Protein Powder"]).
  right. left. reflexivity.
Defined.

(** C10.  Only the names of the catalog count: the price of a selection is
    the price of its known names, a name outside the catalog changes nothing,
    and on a selection without repetition the price is the base price, plus
    the catalog price of every selected name (1.50, 0.75, 1.00 and 0.50 for
    the four known ones, zero for any other), plus the size delta. *)
Theorem unknown_additions_cost_nothing :
  (forall (T : Type) (NT : Num T) (juice : JuiSipApp.Juice T)
          (selectedSize : string) (selectedAdditions : list string),
      JuiSipApp.calculateItemPrice juice selectedSize selectedAdditions =
      JuiSipApp.calculateItemPrice juice selectedSize
        (filter (JuiSipApp.isKnownAddition (T:=T)) selectedAdditions)) /\
  (forall (T : Type) (NT : Num T) (juice : JuiSipApp.Juice T)
          (selectedSize : string) (selectedAdditions : list string) (nm : string),
      JuiSipApp.isKnownAddition (T:=T) nm = false ->
      JuiSipApp.calculateItemPrice juice selectedSize (nm :: selectedAdditions) =
      JuiSipApp.calculateItemPrice juice selectedSize selectedAdditions) /\
  (forall (juice : JuiSipApp.Juice Q) (selectedSize : string)
          (selectedAdditions : list string),
      NoDup selectedAdditions ->
      JuiSipApp.calculateItemPrice juice selectedSize selectedAdditions ==
      JuiSipApp.juice_price juice +
      sumOf (map JuiSipApp.additionPrice selectedAdditions) +
      JuiSipApp.sizeDelta selectedSize)%Q /\
  (JuiSipApp.additionPrice (T:=Q) "Protein Powder" == 150 # 100 /\
   JuiSipApp.additionPrice (T:=Q) "Chia Seeds" == 75 # 100 /\
   JuiSipApp.additionPrice (T:=Q) "Ginger Shot" == 100 # 100 /\
   JuiSipApp.additionPrice (T:=Q) "Spinach Boost" == 50 # 100)%Q /\
  (forall nm : string,
      JuiSipApp.isKnownAddition (T:=Q) nm = false ->
      JuiSipApp.additionPrice (T:=Q) nm = 0%Q).
Proof.
  split; [| split; [| split; [| split]]].
  - intros T NT juice sz sel. apply JuiSipAppFacts.calculateItemPrice_selectedOf.
    symmetry. apply JuiSipAppFacts.selectedOf_filter_known.
  - intros T NT juice sz sel nm H. apply JuiSipAppFacts.calculateItemPrice_selectedOf.
    now apply JuiSipAppFacts.selectedOf_cons_unknown.
  - intros juice sz sel H.
    rewrite JuiSipAppFacts.calculateItemPrice_rule.
    rewrite (JuiSipAppFacts.sumOf_selected sel H). reflexivity.
  - repeat split; reflexivity.
  - apply JuiSipAppFacts.additionPrice_unknown.
Qed.

(** A Large lemonade with chia seeds, an addition the catalog does not know,
    and protein powder. *)
Lemma unknown_additions_cost_nothing_witness :
  (JuiSipApp.calculateItemPrice (T:=Q) Scenarios.lemonade "Large"
     ["Chia Seeds"; "Oat Milk"; "Protein Powder"] ==
   JuiSipApp.juice_price (T:=Q) Scenarios.lemonade +
   sumOf (map JuiSipApp.additionPrice ["Chia Seeds"; "Oat Milk"; "Protein Powder"]) +
   JuiSipApp.sizeDelta "Large")%Q.
Proof.
  apply (proj1 (proj2 (proj2 unknown_additions_cost_nothing))).
  repeat constructor; simpl; intuition discriminate.
Defined.

(* ------------------------------------------------------------------ *)
(** ** The derived totals *)

(** C3.  The subtotal is the sum of the prices times the quantities, taken
    from zero in the order of the lines; the tax is the subtotal times 0.08;
    the delivery fee is 5.00 when the subtotal is above 0 and 0 otherwise; and
    the grand total is the subtotal plus the tax plus the fee: so for every
    kind of number.  In binary64 a subtotal that is 0 gives a fee of 0, one
    above 0 a fee of 5, and a subtotal of 10 a tax of 0.8 and a grand total
    of 15.8; the cart of one line of 10.00 has the subtotal 10, and the menu
    items 1, 2 and 6 the subtotal 24.98.  Over exact decimals the same
    equations hold, with the sum in any order. *)
Theorem totals_derivation :
  (forall (T : Type) (NT : Num T) (cart : list (JuiSipApp2.CartItem T)),
      JuiSipApp2.cartSubtotal cart =
        sumInOrder
          (map (fun i => num_mul (JuiSipApp2.price i) (num_of_Z (JuiSipApp2.quantity i)))
             cart) /\
      JuiSipApp2.taxAmount cart = num_mul (JuiSipApp2.cartSubtotal cart) (lit 8 100) /\
      (num_gt (JuiSipApp2.cartSubtotal cart) (lit 0 1) = false ->
       JuiSipApp2.deliveryFee cart = lit 0 100) /\
      (num_gt (JuiSipApp2.cartSubtotal cart) (lit 0 1) = true ->
       JuiSipApp2.deliveryFee cart = lit 500 100) /\
      JuiSipApp2.grandTotal cart =
        num_add (num_add (JuiSipApp2.cartSubtotal cart) (JuiSipApp2.taxAmount cart))
          (JuiSipApp2.deliveryFee cart)) /\
  (forall cart : list (JuiSipApp2.CartItem float),
      (PrimFloat.eqb (JuiSipApp2.cartSubtotal cart) 0 = true ->
       JuiSipApp2.deliveryFee cart = 0%float) /\
      (PrimFloat.ltb 0 (JuiSipApp2.cartSubtotal cart) = true ->
       JuiSipApp2.deliveryFee cart = 5%float) /\
      (JuiSipApp2.cartSubtotal cart = 10%float ->
       JuiSipApp2.taxAmount cart = 0.8%float /\
       JuiSipApp2.grandTotal cart = 15.8%float)) /\
  (JuiSipApp2.cartSubtotal (T:=float) [Scenarios.tenLine] = 10%float /\
   JuiSipApp2.taxAmount (T:=float) [Scenarios.tenLine] = 0.8%float /\
   JuiSipApp2.deliveryFee (T:=float) [Scenarios.tenLine] = 5%float /\
   JuiSipApp2.grandTotal (T:=float) [Scenarios.tenLine] = 15.8%float /\
   JuiSipApp2.cartSubtotal (T:=float) Scenarios.threeLines = 24.98%float) /\
  (forall cart : list (JuiSipApp2.CartItem Q),
      JuiSipApp2.cartSubtotal cart ==
        sumOf (map (fun i => JuiSipApp2.price i * inject_Z (JuiSipApp2.quantity i)) cart) /\
      JuiSipApp2.taxAmount cart == JuiSipApp2.cartSubtotal cart * (8 # 100) /\
      (JuiSipApp2.cartSubtotal cart == 0 -> JuiSipApp2.deliveryFee cart == 0) /\
      (0 < JuiSipApp2.cartSubtotal cart -> JuiSipApp2.deliveryFee cart == 5) /\
      JuiSipApp2.grandTotal cart ==
        JuiSipApp2.cartSubtotal cart + JuiSipApp2.taxAmount cart +
        JuiSipApp2.deliveryFee cart /\
      (JuiSipApp2.cartSubtotal cart == 10 ->
       JuiSipApp2.taxAmount cart == 80 # 100 /\
       JuiSipApp2.grandTotal cart == 1580 # 100))%Q.
Proof.
  split; [| split; [| split]].
  - intros T NT cart. split; [apply reduce_sumInOrder |].
    split; [reflexivity |].
    unfold JuiSipApp2.deliveryFee.
    split; [intros -> ; reflexivity |]. split; [intros ->; reflexivity | reflexivity].
  - intros cart. unfold JuiSipApp2.grandTotal, JuiSipApp2.taxAmount, JuiSipApp2.deliveryFee.
    change (lit (T:=float) 0 1) with 0%float.
    change (lit (T:=float) 0 100) with 0%float.
    change (lit (T:=float) 500 100) with 5%float.
    cbn [num_gt num_mul num_add Num_float].
    split; [| split].
    + intros H. now rewrite (float_zero_not_above _ H).
    + intros H. now rewrite H.
    + intros ->. split; reflexivity.
  - repeat split; reflexivity.
  - intros cart. split; [apply JuiSipApp2Facts.cartSubtotal_sum |].
    split; [apply JuiSipApp2Facts.taxAmount_rate |].
    split; [apply JuiSipApp2Facts.deliveryFee_schedule |].
    split; [apply JuiSipApp2Facts.deliveryFee_schedule |].
    split; [apply JuiSipApp2Facts.grandTotal_sum |].
    intros H. destruct (JuiSipApp2Facts.totals_of_ten cart H) as (Ht & _ & Hg).
    split; [rewrite Ht | rewrite Hg]; reflexivity.
Qed.

(** The cart of one line of 10.00, in binary64. *)
Lemma totals_derivation_witness :
  JuiSipApp2.taxAmount (T:=float) [Scenarios.tenLine] = 0.8%float /\
  JuiSipApp2.grandTotal (T:=float) [Scenarios.tenLine] = 15.8%float.
Proof.
  apply (proj2 (proj2 (proj1 (proj2 totals_derivation) [Scenarios.tenLine]))).
  reflexivity.
Defined.

(* ------------------------------------------------------------------ *)
(** ** Checkout *)

(** C4, as stated, fails: on an empty cart [handlePlaceOrder] reports no
    failure at all. *)
Lemma empty_checkout_is_silent :
  ~ (forall (random : Z) (a : JuiSipApp2.App Q),
        JuiSipApp2.cart a = [] ->
        exists failure,
          JuiSipApp2.error (JuiSipApp2.handlePlaceOrder random a) = Some failure).
Proof.
  intros H. destruct (H 0 (Scenarios.kitchen [] []) eq_refl) as (failure & E).
  discriminate E.
Qed.

(** C4 (amended).  Checkout on a cart that is empty, or whose grand total is
    0, returns at once and silently: the whole state is as before, so no
    error is reported, no order is created, and the cart and the order
    history are unchanged. *)
Theorem empty_checkout_does_nothing (random : Z) (a : JuiSipApp2.App Q) :
  JuiSipApp2.cart a = [] \/ (JuiSipApp2.grandTotal (JuiSipApp2.cart a) == 0)%Q ->
  JuiSipApp2.handlePlaceOrder random a = a.
Proof.
  intros H. apply JuiSipApp2Facts.handlePlaceOrder_guard. tauto.
Qed.

Lemma empty_checkout_does_nothing_witness :
  JuiSipApp2.handlePlaceOrder 4242 (Scenarios.kitchen [] []) = Scenarios.kitchen [] [].
Proof.
  apply (empty_checkout_does_nothing 4242 (Scenarios.kitchen [] [])).
  left. reflexivity.
Defined.

(* ------------------------------------------------------------------ *)
(** ** Writing the cart, with retries *)

(** C5, as stated, fails: when the three attempts fail, the delays are 1s and
    2s; no delay of 4s is ever awaited. *)
Lemma no_four_second_delay :
  ~ (forall (newCart : list (JuiSipApp2.CartItem Q)) (a : JuiSipApp2.App Q)
            (uid : string) (rest : list bool),
        JuiSipApp2.db a = true -> JuiSipApp2.userId a = Some uid ->
        JuiSipApp2.outcomes a = false :: false :: false :: rest ->
        JuiSipApp2.delays (JuiSipApp2.effects (JuiSipApp2.updateCartInDb newCart a)) =
        JuiSipApp2.delays (JuiSipApp2.effects a) ++ [1000; 2000; 4000]).
Proof.
  intros H.
  specialize (H [Scenarios.tenLine] (Scenarios.kitchen [] [false; false; false])
                "user-1" [] eq_refl eq_refl eq_refl).
  vm_compute in H. discriminate H.
Qed.

(** C5 (amended).  A write of the cart is attempted at most 3 times, with a
    delay of 1s after the first failure and of 2s after the second; the third
    failure is followed by no delay: the failure is reported in the error
    state.  Whatever the outcome, the cart in memory is left as it is, so
    after a cart action it keeps the value the action gave it. *)
Theorem updateCartInDb_retry_policy
    (newCart : list (JuiSipApp2.CartItem Q)) (a : JuiSipApp2.App Q) (uid : string) :
  JuiSipApp2.db a = true -> JuiSipApp2.userId a = Some uid ->
  let data := {| JuiSipApp2.itemsJson := JuiSipApp2.Encoded newCart;
                 JuiSipApp2.updatedAt := JuiSipApp2.now a |} in
  let a' := JuiSipApp2.updateCartInDb newCart a in
  JuiSipApp2.cart a' = JuiSipApp2.cart a /\
  ((JuiSipApp2.effects a' =
      JuiSipApp2.effects a ++ [JuiSipApp2.SetDoc data true] /\
    JuiSipApp2.stored_cart a' = Some data /\
    JuiSipApp2.error a' = JuiSipApp2.error a) \/
   (JuiSipApp2.effects a' =
      JuiSipApp2.effects a ++
        [JuiSipApp2.SetDoc data false; JuiSipApp2.Sleep 1000;
         JuiSipApp2.SetDoc data true] /\
    JuiSipApp2.stored_cart a' = Some data /\
    JuiSipApp2.error a' = JuiSipApp2.error a) \/
   (JuiSipApp2.effects a' =
      JuiSipApp2.effects a ++
        [JuiSipApp2.SetDoc data false; JuiSipApp2.Sleep 1000;
         JuiSipApp2.SetDoc data false; JuiSipApp2.Sleep 2000;
         JuiSipApp2.SetDoc data true] /\
    JuiSipApp2.stored_cart a' = Some data /\
    JuiSipApp2.error a' = JuiSipApp2.error a) \/
   (JuiSipApp2.effects a' =
      JuiSipApp2.effects a ++
        [JuiSipApp2.SetDoc data false; JuiSipApp2.Sleep 1000;
         JuiSipApp2.SetDoc data false; JuiSipApp2.Sleep 2000;
         JuiSipApp2.SetDoc data false] /\
    JuiSipApp2.stored_cart a' = JuiSipApp2.stored_cart a /\
    JuiSipApp2.error a' =
      Some "Failed to save cart. Please check your connection.")) /\
  (forall rest, JuiSipApp2.outcomes a = false :: false :: false :: rest ->
     JuiSipApp2.effects a' =
       JuiSipApp2.effects a ++
         [JuiSipApp2.SetDoc data false; JuiSipApp2.Sleep 1000;
          JuiSipApp2.SetDoc data false; JuiSipApp2.Sleep 2000;
          JuiSipApp2.SetDoc data false] /\
     JuiSipApp2.error a' =
       Some "Failed to save cart. Please check your connection.") /\
  (forall item : JuiSipApp2.MenuItem Q,
     JuiSipApp2.cart (JuiSipApp2.addToCart item a) =
     JuiSipApp2.addToCart_newCart (JuiSipApp2.cart a) item).
Proof.
  intros Hdb Huid. cbv zeta.
  split; [apply JuiSipApp2Facts.updateCartInDb_cart |].
  split; [exact (JuiSipApp2Facts.updateCartInDb_runs newCart a uid Hdb Huid) |].
  split.
  - intros rest Hout.
    destruct (JuiSipApp2Facts.updateCartInDb_exhausted newCart a uid rest Hdb Huid Hout)
      as (E & Er & _).
    split; assumption.
  - intros item. apply JuiSipApp2Facts.addToCart_cart.
Qed.

(** Three failed writes of a cart of one line, from a connected application. *)
Lemma updateCartInDb_retry_policy_witness :
  JuiSipApp2.effects
    (JuiSipApp2.updateCartInDb [Scenarios.tenLine]
       (Scenarios.kitchen [Scenarios.tenLine] [false; false; false])) =
  [JuiSipApp2.SetDoc
     {| JuiSipApp2.itemsJson := JuiSipApp2.Encoded [Scenarios.tenLine];
        JuiSipApp2.updatedAt := "2025-01-01T00:00:00.000Z" |} false;
   JuiSipApp2.Sleep 1000;
   JuiSipApp2.SetDoc
     {| JuiSipApp2.itemsJson := JuiSipApp2.Encoded [Scenarios.tenLine];
        JuiSipApp2.updatedAt := "2025-01-01T00:00:00.000Z" |} false;
   JuiSipApp2.Sleep 2000;
   JuiSipApp2.SetDoc
     {| JuiSipApp2.itemsJson := JuiSipApp2.Encoded [Scenarios.tenLine];
        JuiSipApp2.updatedAt := "2025-01-01T00:00:00.000Z" |} false] /\
  JuiSipApp2.error
    (JuiSipApp2.updateCartInDb [Scenarios.tenLine]
       (Scenarios.kitchen [Scenarios.tenLine] [false; false; false])) =
  Some "Failed to save cart. Please check your connection.".
Proof.
  exact (proj1 (proj2 (proj2
           (updateCartInDb_retry_policy [Scenarios.tenLine]
              (Scenarios.kitchen [Scenarios.tenLine] [false; false; false])
              "user-1" eq_refl eq_refl)))
           [] eq_refl).
Defined.

(* ------------------------------------------------------------------ *)
(** ** Setting a quantity and removing a line *)

(** C6.  On a cart whose lines have a quantity of at least one, setting the
    quantity of a line to 0 gives the cart that removing the line gives; so
    does any quantity that is zero or negative; and both leave the cart as it
    is when no line has that id.  The two handlers then end in the same
    state. *)
Theorem setQuantity_zero_is_remove (T : Type)
    (cartItems : list (JuiSipApp.CartItem T)) (itemId : string) :
  JuiSipApp.positiveQuantities cartItems ->
  JuiSipApp.updateCartItemQuantity_newItems cartItems itemId 0 =
    JuiSipApp.removeItemFromCart_newItems cartItems itemId /\
  (forall newQuantity, newQuantity <= 0 ->
     JuiSipApp.updateCartItemQuantity_newItems cartItems itemId newQuantity =
     JuiSipApp.removeItemFromCart_newItems cartItems itemId) /\
  ((forall i, In i cartItems -> JuiSipApp.item_id i <> itemId) ->
   (forall newQuantity,
      JuiSipApp.updateCartItemQuantity_newItems cartItems itemId newQuantity = cartItems) /\
   JuiSipApp.removeItemFromCart_newItems cartItems itemId = cartItems) /\
  (forall (NT : Num T) (a : JuiSipApp.App T),
     JuiSipApp.items (JuiSipApp.cart a) = cartItems ->
     JuiSipApp.updateCartItemQuantity itemId 0 a = JuiSipApp.removeItemFromCart itemId a).
Proof.
  intros Hp. split; [| split; [| split]].
  - apply JuiSipAppFacts.setQuantity_nonpositive_removes; [exact Hp | lia].
  - intros q Hq. now apply JuiSipAppFacts.setQuantity_nonpositive_removes.
  - intros H. apply Forall_forall in H. split.
    + intros q. now apply JuiSipAppFacts.updateCartItemQuantity_absent.
    + now apply JuiSipAppFacts.removeItemFromCart_absent.
  - intros NT a E. unfold JuiSipApp.updateCartItemQuantity, JuiSipApp.removeItemFromCart.
    rewrite E.
    rewrite (JuiSipAppFacts.setQuantity_nonpositive_removes cartItems itemId 0 Hp);
      [reflexivity | lia].
Qed.

(** A cart of two lines, the second of which is set to 0 or removed. *)
Lemma setQuantity_zero_is_remove_witness :
  JuiSipApp.updateCartItemQuantity_newItems
    [Scenarios.plainOrange 3 "line-1";
     Scenarios.boostedOrange Scenarios.chiaThenGinger "line-2"] "line-2" 0 =
  JuiSipApp.removeItemFromCart_newItems
    [Scenarios.plainOrange 3 "line-1";
     Scenarios.boostedOrange Scenarios.chiaThenGinger "line-2"] "line-2".
Proof.
  refine (proj1 (setQuantity_zero_is_remove Q
           [Scenarios.plainOrange 3 "line-1";
            Scenarios.boostedOrange Scenarios.chiaThenGinger "line-2"] "line-2" _)).
  unfold JuiSipApp.positiveQuantities.
  constructor; [simpl; lia |]. constructor; [simpl; lia |]. constructor.
Defined.

(* ------------------------------------------------------------------ *)
(** ** What makes two lines equivalent *)

(** C7, as stated, fails on the code: chia seeds then ginger shot, and ginger
    shot then chia seeds, are the same additions in another order, and the
    second is not merged into a line that holds the first. *)
Lemma additions_order_matters :
  ~ (forall (cartItems : list (JuiSipApp.CartItem Q)) (item item' : JuiSipApp.CartItem Q),
        JuiSipApp.juiceId item = JuiSipApp.juiceId item' ->
        JuiSipApp.size item = JuiSipApp.size item' ->
        JuiSipApp.sweetness item = JuiSipApp.sweetness item' ->
        Permutation (JuiSipApp.additions item) (JuiSipApp.additions item') ->
        JuiSipApp.merges cartItems item = JuiSipApp.merges cartItems item').
Proof.
  intros H.
  specialize (H [Scenarios.boostedOrange Scenarios.chiaThenGinger "line-1"]
                (Scenarios.boostedOrange Scenarios.chiaThenGinger "line-2")
                (Scenarios.boostedOrange Scenarios.gingerThenChia "line-3")
                eq_refl eq_refl eq_refl (perm_swap _ _ _)).
  vm_compute in H. discriminate H.
Qed.

(** C7.  The merge test of [handleAddToCart] does not treat the additions as
    a set.  Ticking chia seeds then a ginger shot, and a ginger shot then chia
    seeds, gives two selections of the same names; the two items are
    equivalent and have the same price, yet the second is not merged into a
    cart that holds the first: it is appended, and the cart holds two lines
    of one product.  The same selection ticked in the same order is merged.
    In general an add merges exactly when a line has the juice, the size, the
    sweetness and the very list of additions of the item, while two lines are
    equivalent when they have the juice, the size, the sweetness and the set
    of additions in common. *)
Theorem additions_order_splits_the_line :
  Scenarios.chiaThenGinger = ["Chia Seeds"; "Ginger Shot"] /\
  Scenarios.gingerThenChia = ["Ginger Shot"; "Chia Seeds"] /\
  (let line := Scenarios.boostedOrange Scenarios.chiaThenGinger "line-1" in
   let item := Scenarios.boostedOrange Scenarios.gingerThenChia "line-2" in
   JuiSipApp.equivalent line item = true /\
   JuiSipApp.price line = JuiSipApp.price item /\
   JuiSipApp.merges [line] item = false /\
   JuiSipApp.handleAddToCart_newItems [line] item = [line; item]) /\
  (let line := Scenarios.boostedOrange Scenarios.chiaThenGinger "line-1" in
   let item := Scenarios.boostedOrange Scenarios.chiaThenGinger "line-2" in
   JuiSipApp.merges [line] item = true /\
   JuiSipApp.handleAddToCart_newItems [line] item = [JuiSipApp.with_quantity line 2]) /\
  (forall (T : Type) (cartItems : list (JuiSipApp.CartItem T))
          (item : JuiSipApp.CartItem T),
      JuiSipApp.merges cartItems item = true <->
      exists i, In i cartItems /\
        JuiSipApp.juiceId i = JuiSipApp.juiceId item /\
        JuiSipApp.size i = JuiSipApp.size item /\
        JuiSipApp.sweetness i = JuiSipApp.sweetness item /\
        JuiSipApp.additions i = JuiSipApp.additions item) /\
  (forall (T : Type) (i j : JuiSipApp.CartItem T),
      JuiSipApp.equivalent i j = true <->
      JuiSipApp.juiceId i = JuiSipApp.juiceId j /\
      JuiSipApp.size i = JuiSipApp.size j /\
      JuiSipApp.sweetness i = JuiSipApp.sweetness j /\
      (forall nm, In nm (JuiSipApp.additions i) <-> In nm (JuiSipApp.additions j))).
Proof.
  split; [reflexivity |]. split; [reflexivity |].
  split; [cbv zeta; repeat split; reflexivity |].
  split; [cbv zeta; split; reflexivity |].
  split; [| intros T i j; apply JuiSipAppFacts.equivalent_spec].
  intros T cartItems item. rewrite JuiSipAppFacts.merges_spec.
  unfold JuiSipApp.customisation. split.
  - intros (i & Hi & E). exists i. injection E as -> -> -> ->. auto.
  - intros (i & Hi & Ej & Es & Ew & Ea). exists i. split; [exact Hi |].
    now rewrite Ej, Es, Ew, Ea.
Qed.

(* ------------------------------------------------------------------ *)
(** ** The invariant of the cart *)

(** C8.  The invariant of the cart, no two equivalent lines and every
    quantity at least one, is not kept by [handleAddToCart]: a cart that holds
    a Fresh Orange with chia seeds and a ginger shot, to which the same juice
    with a ginger shot and chia seeds is added, ends with two equivalent
    lines.  An add keeps the invariant exactly when the item is merged or is
    equivalent to no line.  Setting a quantity (a line set to zero or less is
    dropped) and removing a line keep it; every add keeps the weaker invariant
    that no line would merge with another; and in JuiSipApp2, where a line is
    known by its menu item, adding, changing a quantity, removing and clearing
    keep the invariant. *)
Theorem add_breaks_the_cart_invariant :
  (let cartItems := [Scenarios.boostedOrange Scenarios.chiaThenGinger "line-1"] in
   let item := Scenarios.boostedOrange Scenarios.gingerThenChia "line-2" in
   JuiSipApp.specInvariant cartItems /\
   1 <= JuiSipApp.quantity item /\
   JuiSipApp.handleAddToCart_newItems cartItems item = cartItems ++ [item] /\
   ~ JuiSipApp.noEquivalentLines (JuiSipApp.handleAddToCart_newItems cartItems item) /\
   ~ JuiSipApp.specInvariant (JuiSipApp.handleAddToCart_newItems cartItems item)) /\
  (forall (T : Type) (cartItems : list (JuiSipApp.CartItem T))
          (item : JuiSipApp.CartItem T),
      JuiSipApp.specInvariant cartItems -> 1 <= JuiSipApp.quantity item ->
      (JuiSipApp.specInvariant (JuiSipApp.handleAddToCart_newItems cartItems item) <->
       JuiSipApp.merges cartItems item = true \/
       forall i, In i cartItems -> JuiSipApp.equivalent i item = false)) /\
  (forall (T : Type) (cartItems : list (JuiSipApp.CartItem T)),
      JuiSipApp.specInvariant cartItems ->
      (forall itemId newQuantity,
         JuiSipApp.specInvariant
           (JuiSipApp.updateCartItemQuantity_newItems cartItems itemId newQuantity)) /\
      (forall itemId,
         JuiSipApp.specInvariant
           (JuiSipApp.removeItemFromCart_newItems cartItems itemId))) /\
  (forall (T : Type) (cartItems : list (JuiSipApp.CartItem T)),
      JuiSipApp.cartInvariant cartItems ->
      (forall item, 1 <= JuiSipApp.quantity item ->
         JuiSipApp.cartInvariant (JuiSipApp.handleAddToCart_newItems cartItems item))) /\
  (forall (T : Type) (NT : Num T) (a : JuiSipApp2.App T),
      JuiSipApp2.cartInvariant (JuiSipApp2.cart a) ->
      (forall item,
         JuiSipApp2.cartInvariant (JuiSipApp2.cart (JuiSipApp2.addToCart item a))) /\
      (forall itemId change,
         JuiSipApp2.cartInvariant
           (JuiSipApp2.cart (JuiSipApp2.updateQuantity itemId change a))) /\
      (forall itemId,
         JuiSipApp2.cartInvariant (JuiSipApp2.cart (JuiSipApp2.removeFromCart itemId a))) /\
      JuiSipApp2.cartInvariant (JuiSipApp2.cart (JuiSipApp2.clearCart a))).
Proof.
  split; [| split; [| split; [| split]]].
  - cbv zeta.
    assert (N : ~ JuiSipApp.noEquivalentLines
                  (JuiSipApp.handleAddToCart_newItems
                     [Scenarios.boostedOrange Scenarios.chiaThenGinger "line-1"]
                     (Scenarios.boostedOrange Scenarios.gingerThenChia "line-2"))).
    { intros H. inversion H as [| ? ? Hx _]; subst.
      inversion Hx as [| ? ? E _]; subst. discriminate E. }
    split; [| split; [| split; [| split]]].
    + split; [constructor; constructor | constructor; [vm_compute; discriminate | constructor]].
    + vm_compute. discriminate.
    + reflexivity.
    + exact N.
    + intros [H _]. now apply N.
  - intros T cartItems item [Hn Hp] Hq. unfold JuiSipApp.specInvariant.
    rewrite <- (JuiSipAppFacts.add_noEquivalentLines cartItems item Hn).
    split; [tauto |]. intros H. split; [exact H |].
    now apply JuiSipAppFacts.add_preserves_positiveQuantities.
  - intros T cartItems [Hn Hp]. split.
    + intros itemId q. split.
      * now apply JuiSipAppFacts.updateCartItemQuantity_noEquivalentLines.
      * apply JuiSipAppFacts.updateCartItemQuantity_positive.
    + intros itemId. split.
      * now apply JuiSipAppFacts.removeItemFromCart_noEquivalentLines.
      * unfold JuiSipApp.positiveQuantities, JuiSipApp.removeItemFromCart_newItems in *.
        rewrite Forall_forall in *. intros i Hi.
        apply filter_In in Hi as [Hi _]. now apply Hp.
  - intros T cartItems [Hn Hp] item Hq. split.
    + now apply JuiSipAppFacts.add_preserves_noMergeableLines.
    + now apply JuiSipAppFacts.add_preserves_positiveQuantities.
  - intros T NT a H. split; [| split; [| split]].
    + intros item. rewrite JuiSipApp2Facts.addToCart_cart.
      now apply JuiSipApp2Facts.addToCart_preserves.
    + intros itemId change. rewrite JuiSipApp2Facts.updateQuantity_cart.
      now apply JuiSipApp2Facts.updateQuantity_preserves.
    + intros itemId. rewrite JuiSipApp2Facts.removeFromCart_cart.
      now apply JuiSipApp2Facts.removeFromCart_preserves.
    + rewrite JuiSipApp2Facts.clearCart_cart.
      apply JuiSipApp2Facts.empty_cart_invariant.
Qed.

(** The first line of a cart of two lines is set to 0. *)
Lemma add_breaks_the_cart_invariant_witness :
  JuiSipApp.specInvariant
    (JuiSipApp.updateCartItemQuantity_newItems
       (JuiSipApp.items Scenarios.stockedCart) "line-1" 0).
Proof.
  refine (proj1 (proj1 (proj2 (proj2 add_breaks_the_cart_invariant)) Q
                   (JuiSipApp.items Scenarios.stockedCart) _) "line-1" 0).
  split.
  - constructor; [constructor; [reflexivity | constructor] | constructor; constructor].
  - constructor; [simpl; lia |]. constructor; [simpl; lia | constructor].
Defined.

(* ------------------------------------------------------------------ *)
(** ** The first snapshot *)

(** C9, as stated, fails in JuiSipApp2: on an absent cart document its
    listener issues no write. *)
Lemma kitchen_absent_cart_issues_no_write :
  ~ (forall a : JuiSipApp2.App Q,
        exists data committed,
          In (JuiSipApp2.SetDoc data committed)
             (JuiSipApp2.effects (JuiSipApp2.onSnapshot_cart JuiSipApp2.Absent a))).
Proof.
  intros H. destruct (H (Scenarios.kitchen [] [])) as (data & committed & []).
Qed.

(** C9 (amended).  On an absent cart document the listener of JuiSipApp sets
    a fresh empty cart and issues a write of it, with merge, under the cart
    key of the user; a committed write leaves that document stored.  The
    listener of JuiSipApp2 sets the cart in memory to the empty cart and
    issues no write.  Neither reports an error. *)
Theorem absent_snapshot_bootstrap :
  (forall (T : Type) (NT : Num T) (uid : string) (a : JuiSipApp.App T),
      let a' := JuiSipApp.onSnapshot_cart uid JuiSipApp.Absent a in
      let initialCart :=
        {| JuiSipApp.items := []; JuiSipApp.total := lit 0 1;
           JuiSipApp.checkoutId := None;
           JuiSipApp.lastUpdated := Some (JuiSipApp.now a) |} in
      let request :=
        {| JuiSipApp.write_path :=
             ["artifacts"; JuiSipApp.appId a; "users"; uid; "juisip_cart"; "current"];
           JuiSipApp.write_data :=
             {| JuiSipApp.doc_userId := uid; JuiSipApp.doc_cart := initialCart |};
           JuiSipApp.write_merge := true |} in
      JuiSipApp.cart a' = initialCart /\
      JuiSipApp.issued a' = JuiSipApp.issued a ++ [request] /\
      JuiSipApp.message a' = JuiSipApp.message a /\
      (hd true (JuiSipApp.outcomes a) = true ->
       JuiSipApp.stored a' =
         Some {| JuiSipApp.doc_userId := uid; JuiSipApp.doc_cart := initialCart |})) /\
  (forall (T : Type) (a : JuiSipApp2.App T),
      let a' := JuiSipApp2.onSnapshot_cart JuiSipApp2.Absent a in
      JuiSipApp2.cart a' = [] /\
      JuiSipApp2.effects a' = JuiSipApp2.effects a /\
      JuiSipApp2.stored_cart a' = JuiSipApp2.stored_cart a /\
      JuiSipApp2.error a' = JuiSipApp2.error a).
Proof.
  split.
  - intros T NT uid a. apply JuiSipAppFacts.onSnapshot_cart_absent.
  - intros T a. repeat split.
Qed.

(** The first snapshot of a new user of JuiSipApp. *)
Lemma absent_snapshot_bootstrap_witness :
  JuiSipApp.stored (JuiSipApp.onSnapshot_cart "user-1" JuiSipApp.Absent Scenarios.shop) =
  Some {| JuiSipApp.doc_userId := "user-1";
          JuiSipApp.doc_cart :=
            {| JuiSipApp.items := []; JuiSipApp.total := lit 0 1;
               JuiSipApp.checkoutId := None;
               JuiSipApp.lastUpdated := Some "2025-01-01T00:00:00.000Z" |} |}.
Proof.
  refine (proj2 (proj2 (proj2 (proj1 absent_snapshot_bootstrap Q _ "user-1"
                                 Scenarios.shop))) _).
  reflexivity.
Defined.

(* ================================================================== *)
(** * Further properties of the code *)

(* ------------------------------------------------------------------ *)
(** ** JuiSipApp: the form *)

Module JuiSipAppForm.
Import JuiSipApp JuiSipAppFacts.

(** X1.  The sanitised application id holds no slash and no backslash, is as
    long as the raw one, is left alone by a second sanitisation, and is the
    raw id itself when that holds no separator. *)
Theorem sanitizeAppId_separators (rawAppId : string) :
  (forall c, In c (list_ascii_of_string (sanitizeAppId rawAppId)) ->
     c <> "/"%char /\ c <> JSON.backslash) /\
  String.length (sanitizeAppId rawAppId) = String.length rawAppId /\
  sanitizeAppId (sanitizeAppId rawAppId) = sanitizeAppId rawAppId /\
  ((forall c, In c (list_ascii_of_string rawAppId) ->
      c <> "/"%char /\ c <> JSON.backslash) ->
   sanitizeAppId rawAppId = rawAppId).
Proof.
  induction rawAppId as [| c s (IH1 & IH2 & IH3 & IH4)]; cbn [sanitizeAppId].
  - split; [intros c [] | split; [reflexivity | split; [reflexivity | reflexivity]]].
  - split; [| split; [| split]].
    + intros x [<- | Hx]; [| now apply IH1].
      destruct (Ascii.eqb_spec c "/") as [-> | N1]; cbn [orb].
      * split; discriminate.
      * destruct (Ascii.eqb_spec c JSON.backslash) as [-> | N2];
          [split; discriminate | split; assumption].
    + cbn [String.length]. now rewrite IH2.
    + cbn [sanitizeAppId]. rewrite IH3. f_equal.
      destruct (Ascii.eqb_spec c "/") as [-> | N1]; cbn [orb]; [reflexivity |].
      destruct (Ascii.eqb_spec c JSON.backslash) as [-> | N2]; [reflexivity |].
      apply Ascii.eqb_neq in N1, N2. now rewrite N1, N2.
    + intros H. rewrite IH4 by (intros x Hx; apply H; now right).
      destruct (H c (or_introl eq_refl)) as [N1 N2].
      apply Ascii.eqb_neq in N1, N2. now rewrite N1, N2.
Qed.

Lemma sanitizeAppId_separators_witness :
  JuiSipApp.sanitizeAppId "default-app-id" = "default-app-id".
Proof.
  apply (proj2 (proj2 (proj2 (sanitizeAppId_separators "default-app-id")))).
  intros c H. cbn in H. split; intros ->; intuition discriminate.
Defined.

(** X2.  Ticking an addition flips whether its name is selected and leaves
    the other names as they are; a selection without repetition stays so;
    and ticking twice a name that was not selected gives the selection
    back. *)
Theorem handleToggleAddition_flips (prev : list string) (nm : string) :
  (forall x, In x (handleToggleAddition prev nm) <->
     (x = nm /\ ~ In nm prev) \/ (x <> nm /\ In x prev)) /\
  (NoDup prev -> NoDup (handleToggleAddition prev nm)) /\
  (~ In nm prev -> handleToggleAddition (handleToggleAddition prev nm) nm = prev).
Proof.
  split; [| split].
  - intros x. unfold handleToggleAddition.
    destruct (includes prev nm) eqn:E.
    + apply includes_In in E. rewrite filter_In, negb_true_iff, String.eqb_neq.
      split; [intros [H N]; right; tauto | intros [[_ N] | [N H]]; tauto].
    + assert (N : ~ In nm prev) by (rewrite <- includes_In; congruence).
      rewrite in_app_iff. cbn [In]. split.
      * intros [H | [<- | []]]; [| left; tauto].
        right. split; [intros ->; contradiction | exact H].
      * intros [[-> _] | [_ H]]; tauto.
  - apply handleToggleAddition_NoDup.
  - intros N. unfold handleToggleAddition at 2.
    assert (E : includes prev nm = false).
    { apply not_true_is_false. now rewrite includes_In. }
    rewrite E. unfold handleToggleAddition.
    assert (E' : includes (prev ++ [nm]) nm = true).
    { apply includes_In. apply in_or_app. right. now left. }
    rewrite E', filter_app. cbn [filter]. rewrite String.eqb_refl. cbn [negb].
    rewrite app_nil_r. apply filter_all. apply Forall_forall. intros x Hx.
    apply negb_true_iff, String.eqb_neq. intros ->. contradiction.
Qed.

Lemma handleToggleAddition_flips_witness :
  handleToggleAddition (handleToggleAddition ["Chia Seeds"] "Ginger Shot") "Ginger Shot"
  = ["Chia Seeds"].
Proof.
  apply (proj2 (proj2 (handleToggleAddition_flips ["Chia Seeds"] "Ginger Shot"))).
  intros [E | []]. discriminate E.
Defined.

Section ExactPrices.
Local Open Scope Q_scope.

Lemma sumOf_app (l1 l2 : list Q) : sumOf (l1 ++ l2) == sumOf l1 + sumOf l2.
Proof.
  unfold sumOf. cbn [num_add lit Num_Q Z.to_pos].
  induction l1 as [| x l1 IH]; cbn [app fold_right]; [ring | rewrite IH; ring].
Qed.

Lemma sumOf_without (f : string -> Q) (sel : list string) (nm : string) :
  NoDup sel -> In nm sel ->
  sumOf (map f (filter (fun a => negb (String.eqb a nm)) sel)) ==
  sumOf (map f sel) - f nm.
Proof.
  unfold sumOf. cbn [num_add lit Num_Q Z.to_pos].
  induction 1 as [| x sel Hx Hsel IH]; intros Hin; [destruct Hin |].
  cbn [filter map fold_right].
  destruct (String.eqb_spec x nm) as [-> | N]; cbn [negb map fold_right].
  - rewrite filter_all; [ring |].
    apply Forall_forall. intros y Hy. apply negb_true_iff, String.eqb_neq.
    intros ->. contradiction.
  - destruct Hin as [E | Hin]; [contradiction |]. rewrite (IH Hin). ring.
Qed.

(** Over exact decimals, ticking adds the catalog price of the addition and
    unticking takes it away. *)
Lemma toggle_changes_exact_price (juice : Juice Q) (selectedSize : string)
    (selectedAdditions : list string) (nm : string) :
  NoDup selectedAdditions ->
  (~ In nm selectedAdditions ->
   calculateItemPrice juice selectedSize (handleToggleAddition selectedAdditions nm) ==
   calculateItemPrice juice selectedSize selectedAdditions + additionPrice nm) /\
  (In nm selectedAdditions ->
   calculateItemPrice juice selectedSize (handleToggleAddition selectedAdditions nm) ==
   calculateItemPrice juice selectedSize selectedAdditions - additionPrice nm).
Proof.
  intros Hnd.
  pose proof (handleToggleAddition_NoDup selectedAdditions nm Hnd) as Hnd'.
  rewrite !calculateItemPrice_rule.
  rewrite (sumOf_selected _ Hnd'), (sumOf_selected _ Hnd).
  unfold handleToggleAddition. split; intros H.
  - assert (E : includes selectedAdditions nm = false).
    { apply not_true_is_false. now rewrite includes_In. }
    rewrite E, map_app, sumOf_app. unfold sumOf at 2.
    cbn [map fold_right num_add lit Num_Q Z.to_pos]. ring.
  - assert (E : includes selectedAdditions nm = true) by now apply includes_In.
    rewrite E, (sumOf_without _ _ _ Hnd H). ring.
Qed.

(** X3.  On a juice of the catalog and a selection without repetition, the
    binary64 price after an addition is ticked is the binary64 of the exact
    price before plus the catalog price of the addition (plus nothing for a
    name the catalog does not know); after a selected one is unticked, of the
    exact price before minus its catalog price; and the price before is the
    binary64 of its exact value. *)
Theorem toggle_changes_price (jf : Juice float) (jq : Juice Q) (selectedSize : string)
    (selectedAdditions : list string) (nm : string) :
  In (jf, jq) (combine JUICES JUICES) ->
  NoDup selectedAdditions ->
  (~ In nm selectedAdditions ->
   calculateItemPrice jf selectedSize (handleToggleAddition selectedAdditions nm) =
   binary64_of_decimal
     (calculateItemPrice jq selectedSize selectedAdditions + additionPrice nm)) /\
  (In nm selectedAdditions ->
   calculateItemPrice jf selectedSize (handleToggleAddition selectedAdditions nm) =
   binary64_of_decimal
     (calculateItemPrice jq selectedSize selectedAdditions - additionPrice nm)) /\
  calculateItemPrice jf selectedSize selectedAdditions =
  binary64_of_decimal (calculateItemPrice jq selectedSize selectedAdditions).
Proof.
  intros Hj Hnd.
  destruct (toggle_changes_exact_price jq selectedSize selectedAdditions nm Hnd)
    as [Hup Hdown].
  split; [| split].
  - intros H. rewrite (binary64_price_is_rounded jf jq _ _ Hj).
    apply binary64_of_decimal_Qeq. now apply Hup.
  - intros H. rewrite (binary64_price_is_rounded jf jq _ _ Hj).
    apply binary64_of_decimal_Qeq. now apply Hdown.
  - now apply binary64_price_is_rounded.
Qed.

(** A small Green Detox with chia seeds and a ginger shot, 8.05, from which
    the chia seeds are unticked. *)
Lemma toggle_changes_price_witness :
  calculateItemPrice (T:=float) Scenarios.greenDetox "Small"
    (handleToggleAddition ["Chia Seeds"; "Ginger Shot"] "Chia Seeds") =
  binary64_of_decimal
    (calculateItemPrice (T:=Q) Scenarios.greenDetox "Small" ["Chia Seeds"; "Ginger Shot"] -
     additionPrice "Chia Seeds")%Q.
Proof.
  refine (proj1 (proj2 (toggle_changes_price Scenarios.greenDetox Scenarios.greenDetox
                          "Small" ["Chia Seeds"; "Ginger Shot"] "Chia Seeds" _ _)) _).
  - right. left. reflexivity.
  - constructor; [intros [E | []]; discriminate E |].
    constructor; [intros [] | constructor].
  - left. reflexivity.
Defined.

End ExactPrices.

(** X4.  The price depends on which names are selected only: two selections
    that hold the same names, in whatever order and however often, have the
    same price. *)
Theorem price_ignores_order (T : Type) (NT : Num T) (juice : Juice T)
    (selectedSize : string) (sel sel' : list string) :
  (forall nm, In nm sel <-> In nm sel') ->
  calculateItemPrice juice selectedSize sel = calculateItemPrice juice selectedSize sel'.
Proof.
  intros H. apply calculateItemPrice_selectedOf. unfold selectedOf.
  apply filter_ext. intros a.
  destruct (includes sel' (addition_name a)) eqn:E.
  - apply includes_In. apply H. now apply includes_In.
  - apply not_true_is_false. rewrite includes_In, H, <- includes_In. congruence.
Qed.

Lemma price_ignores_order_witness :
  calculateItemPrice (T:=Q) Scenarios.lemonade "Small" Scenarios.chiaThenGinger =
  calculateItemPrice (T:=Q) Scenarios.lemonade "Small" Scenarios.gingerThenChia.
Proof.
  apply (price_ignores_order Q _ Scenarios.lemonade "Small").
  intros nm. cbn. tauto.
Defined.

(** X5.  Whatever buttons are pressed, the quantity of the form is at least
    one, so the item the form submits keeps the invariant of the cart it is
    added to, as the merge test sees it. *)
Theorem form_quantity_at_least_one (T : Type) (NT : Num T)
    (presses : list QuantityButton) :
  1 <= selectedQuantity presses /\
  forall (juice : Juice T) (selectedSize selectedSweetness : string)
         (selectedAdditions : list string) (uuid : string)
         (cartItems : list (CartItem T)),
    cartInvariant cartItems ->
    cartInvariant
      (handleAddToCart_newItems cartItems
         (handleSubmit_item juice selectedSize selectedSweetness selectedAdditions
            (selectedQuantity presses) uuid)).
Proof.
  assert (H : forall q, 1 <= q -> 1 <= fold_left pressQuantity presses q).
  { induction presses as [| b l IH]; intros q Hq; [exact Hq |].
    cbn [fold_left]. apply IH. destruct b; cbn [pressQuantity]; lia. }
  assert (H1 : 1 <= selectedQuantity presses) by (apply H; lia).
  split; [exact H1 |].
  intros juice sz sw sel uuid cartItems [Hn Hp]. split.
  - now apply add_preserves_noMergeableLines.
  - apply add_preserves_positiveQuantities; [exact Hp | exact H1].
Qed.

Lemma form_quantity_at_least_one_witness :
  cartInvariant
    (handleAddToCart_newItems [Scenarios.plainOrange 3 "line-1"]
       (handleSubmit_item Scenarios.freshOrange "Medium" "Regular" []
          (selectedQuantity [Minus; Plus; Plus; Minus; Minus; Minus]) "line-2")).
Proof.
  refine (proj2 (form_quantity_at_least_one Q _ [Minus; Plus; Plus; Minus; Minus; Minus])
            Scenarios.freshOrange "Medium" "Regular" [] "line-2"
            [Scenarios.plainOrange 3 "line-1"] _).
  split.
  - constructor; constructor.
  - constructor; [simpl; lia | constructor].
Defined.

End JuiSipAppForm.

(* ------------------------------------------------------------------ *)
(** ** JuiSipApp: the cart view, the total and the listener *)

Module JuiSipAppCart.
Import JuiSipApp JuiSipAppFacts.

Section AnyNumber.
Context {T : Type} {NT : Num T}.
Implicit Types (a : App T) (item i : CartItem T) (cartItems : list (CartItem T)).

Lemma with_quantity_same i : with_quantity i (quantity i) = i.
Proof. destruct i. reflexivity. Qed.

Lemma with_quantity_twice i q q' :
  with_quantity (with_quantity i q) q' = with_quantity i q'.
Proof. reflexivity. Qed.

(** In a cart whose ids are distinct, a line is known by its id. *)
Lemma line_by_id cartItems item i :
  NoDup (map item_id cartItems) -> In item cartItems -> In i cartItems ->
  item_id i = item_id item -> i = item.
Proof.
  induction cartItems as [| x l IH]; intros Hn Hitem Hi E; [destruct Hitem |].
  cbn [map] in Hn. apply NoDup_cons_iff in Hn as [Hx Hl].
  destruct Hitem as [-> | Hitem], Hi as [-> | Hi].
  - reflexivity.
  - exfalso. apply Hx. rewrite <- E. now apply in_map.
  - exfalso. apply Hx. rewrite E. now apply in_map.
  - now apply IH.
Qed.

(** X6.  On a cart whose lines have a quantity of at least one, the two
    branches of [handleQuantityChange] do what [updateCartItemQuantity] alone
    does with the new quantity; so pressing minus on a line of quantity one
    removes it. *)
Theorem handleQuantityChange_sets_quantity item (delta : Z) a :
  positiveQuantities (items (cart a)) ->
  handleQuantityChange item delta a =
    updateCartItemQuantity (item_id item) (quantity item + delta) a /\
  (quantity item = 1 ->
   handleQuantityChange item (-1) a = removeItemFromCart (item_id item) a).
Proof.
  intros Hp. unfold handleQuantityChange. split.
  - destruct (Z.gtb_spec (quantity item + delta) 0) as [_ | Hq]; [reflexivity |].
    unfold updateCartItemQuantity, removeItemFromCart.
    now rewrite (setQuantity_nonpositive_removes _ _ _ Hp Hq).
  - intros ->. reflexivity.
Qed.

(** X7.  In a cart whose ids are distinct and whose quantities are at least
    one, raising the quantity of a line by one and then lowering it by one
    gives the cart back. *)
Theorem plus_then_minus_restores cartItems item :
  NoDup (map item_id cartItems) -> positiveQuantities cartItems ->
  In item cartItems ->
  updateCartItemQuantity_newItems
    (updateCartItemQuantity_newItems cartItems (item_id item) (quantity item + 1))
    (item_id item) (quantity item + 1 + -1)
  = cartItems.
Proof.
  intros Hn Hp Hin.
  assert (Hq : 1 <= quantity item).
  { unfold positiveQuantities in Hp. rewrite Forall_forall in Hp. now apply Hp. }
  rewrite (setQuantity_positive_sets cartItems _ _ Hp) by lia.
  rewrite setQuantity_positive_sets; [| | lia].
  - rewrite map_map. rewrite <- (map_id cartItems) at 2.
    apply map_ext_in. intros i Hi.
    destruct (String.eqb_spec (item_id i) (item_id item)) as [E | N].
    + cbn [item_id with_quantity]. rewrite E, String.eqb_refl.
      rewrite (line_by_id cartItems item i Hn Hin Hi E).
      rewrite with_quantity_twice.
      replace (quantity item + 1 + -1) with (quantity item) by lia.
      apply with_quantity_same.
    + apply String.eqb_neq in N. now rewrite N.
  - unfold positiveQuantities in *. apply Forall_map. rewrite Forall_forall in *.
    intros i Hi. specialize (Hp i Hi).
    destruct (String.eqb (item_id i) (item_id item)); cbn [quantity with_quantity]; lia.
Qed.

(** What a write of the cart stores. *)
Lemma updateFirestoreCart_storeConsistent (newCart : Cart T) a :
  storeConsistent a -> storeConsistent (updateFirestoreCart newCart a).
Proof.
  unfold storeConsistent, updateFirestoreCart. intros H d.
  destruct (db a); [| apply H]. destruct (userId a) as [uid |]; [| apply H].
  cbn. destruct (hd true (outcomes a)); cbn.
  - intros E. injection E as <-. reflexivity.
  - apply H.
Qed.

(** X8.  The total Firestore holds for the cart is always the total of the
    lines it holds: every handler keeps it so, the first write of the
    listener too, and the cart the listener puts in memory has the total of
    its lines. *)
Theorem stored_total_is_consistent a :
  storeConsistent a ->
  (forall item, storeConsistent (handleAddToCart item a)) /\
  (forall itemId newQuantity,
     storeConsistent (updateCartItemQuantity itemId newQuantity a)) /\
  (forall itemId, storeConsistent (removeItemFromCart itemId a)) /\
  (forall item delta, storeConsistent (handleQuantityChange item delta a)) /\
  storeConsistent (deliver a) /\
  (forall uid, db a = true -> userId a = Some uid ->
     consistentTotal (cart (deliver a))).
Proof.
  intros H.
  assert (Hadd : forall item, storeConsistent (handleAddToCart item a)).
  { intros item. unfold handleAddToCart.
    pose proof (updateFirestoreCart_storeConsistent
                  (with_items (cart a) (handleAddToCart_newItems (items (cart a)) item))
                  a H) as H'.
    exact H'. }
  split; [exact Hadd |].
  split; [intros; now apply updateFirestoreCart_storeConsistent |].
  split; [intros; now apply updateFirestoreCart_storeConsistent |].
  split.
  { intros item delta. unfold handleQuantityChange.
    destruct (quantity item + delta >? 0);
      now apply updateFirestoreCart_storeConsistent. }
  split.
  - unfold deliver. destruct (db a); [| exact H].
    destruct (userId a) as [uid |]; [| exact H].
    destruct (stored a) as [d |] eqn:E.
    + cbn. intros d' E'. apply H. cbn in E'. congruence.
    + cbn. unfold storeConsistent. cbn. rewrite E.
      destruct (hd true (outcomes a)); intros d' E'; [| discriminate E'].
      injection E' as <-. reflexivity.
  - intros uid Hdb Huid. unfold deliver. rewrite Hdb, Huid.
    destruct (stored a) as [d |] eqn:E; cbn.
    + now apply H.
    + reflexivity.
Qed.

(** X10.  When the write of an add fails, nothing is added: the stored
    document and the cart in memory are as before, the message reports the
    error, and the form is closed all the same. *)
Theorem failed_add_is_lost item a uid :
  db a = true -> userId a = Some uid -> hd true (outcomes a) = false ->
  let a' := handleAddToCart item a in
  stored a' = stored a /\ cart a' = cart a /\
  cart (deliver a') = cart (deliver a) /\
  message a' = Some "Error: Failed to update cart." /\
  showModal a' = false /\ selectedJuice a' = None.
Proof.
  intros Hdb Huid Hout.
  destruct a as [d u ap c sm sj m st iss out nw]. cbn in *. subst.
  destruct out as [| [] out]; try discriminate Hout.
  unfold handleAddToCart, updateFirestoreCart, deliver. cbn.
  repeat split. destruct st; reflexivity.
Qed.

(** X11.  Once the cart document exists, or once the first write of the
    listener is committed, a snapshot delivered again changes nothing: the
    cart is set up once. *)
Theorem deliver_twice a :
  stored a <> None \/ hd true (outcomes a) = true ->
  deliver (deliver a) = deliver a.
Proof.
  intros H. destruct a as [d u ap c sm sj m st iss out nw]. cbn in H.
  unfold deliver. cbn.
  destruct d; [| reflexivity]. destruct u as [uid |]; [| reflexivity].
  destruct st as [doc |]; cbn.
  - reflexivity.
  - destruct H as [H | H]; [congruence |].
    destruct out as [| [] out]; try discriminate H; reflexivity.
Qed.

End AnyNumber.

(** Minus is pressed on the first line, of quantity one, of a cart of two
    lines. *)
Lemma handleQuantityChange_sets_quantity_witness :
  handleQuantityChange (Scenarios.plainOrange 1 "line-1") (-1) Scenarios.stockedShop =
    updateCartItemQuantity "line-1" (1 + -1) Scenarios.stockedShop /\
  handleQuantityChange (Scenarios.plainOrange 1 "line-1") (-1) Scenarios.stockedShop =
    removeItemFromCart "line-1" Scenarios.stockedShop.
Proof.
  refine (let H := handleQuantityChange_sets_quantity
                     (Scenarios.plainOrange 1 "line-1") (-1) Scenarios.stockedShop _ in
          conj (proj1 H) (proj2 H eq_refl)).
  constructor; [simpl; lia |]. constructor; [simpl; lia | constructor].
Defined.

Lemma plus_then_minus_restores_witness :
  updateCartItemQuantity_newItems
    (updateCartItemQuantity_newItems
       [Scenarios.plainOrange 3 "line-1";
        Scenarios.boostedOrange Scenarios.chiaThenGinger "line-2"] "line-1" (3 + 1))
    "line-1" (3 + 1 + -1)
  = [Scenarios.plainOrange 3 "line-1";
     Scenarios.boostedOrange Scenarios.chiaThenGinger "line-2"].
Proof.
  apply (plus_then_minus_restores
           [Scenarios.plainOrange 3 "line-1";
            Scenarios.boostedOrange Scenarios.chiaThenGinger "line-2"]
           (Scenarios.plainOrange 3 "line-1")).
  - constructor; [intros [E | []]; discriminate E |].
    constructor; [intros [] | constructor].
  - unfold positiveQuantities.
    constructor; [simpl; lia |]. constructor; [simpl; lia |]. constructor.
  - now left.
Defined.

Lemma stored_total_is_consistent_witness :
  consistentTotal (cart (deliver Scenarios.shop)).
Proof.
  refine (proj2 (proj2 (proj2 (proj2 (proj2
            (stored_total_is_consistent Scenarios.shop _))))) "user-1" eq_refl eq_refl).
  intros d E. discriminate E.
Defined.

Lemma deliver_twice_witness :
  deliver (deliver Scenarios.shop) = deliver Scenarios.shop.
Proof.
  apply (deliver_twice Scenarios.shop). right. reflexivity.
Defined.

Lemma failed_add_is_lost_witness :
  message (handleAddToCart (Scenarios.plainOrange 1 "line-1") Scenarios.failingShop)
  = Some "Error: Failed to update cart.".
Proof.
  exact (proj1 (proj2 (proj2 (proj2
           (failed_add_is_lost (Scenarios.plainOrange 1 "line-1") Scenarios.failingShop
              "user-1" eq_refl eq_refl eq_refl))))).
Defined.

Section Undo.
Context {T : Type}.
Implicit Types (item i : CartItem T) (cartItems : list (CartItem T)).

(** X12.  Removing the id of an item that was just added undoes the add
    only when the add made a new line: when the item was merged, its id never
    entered the cart, and the removal leaves the merged cart as it is. *)
Theorem add_then_remove cartItems item :
  (forall i, In i cartItems -> item_id i <> item_id item) ->
  removeItemFromCart_newItems (handleAddToCart_newItems cartItems item) (item_id item)
  = if merges cartItems item
    then handleAddToCart_newItems cartItems item
    else cartItems.
Proof.
  intros Hfresh. unfold merges, findIndex.
  destruct (first_match_cases (sameCustomisation item) cartItems)
    as [H | (l1 & x & l2 & -> & H1 & Hx)].
  - rewrite (findIndex_from_none _ _ 0 H). cbn [Z.gtb Z.compare].
    rewrite add_absent by exact H.
    unfold removeItemFromCart_newItems. rewrite filter_app. cbn [filter].
    rewrite String.eqb_refl. cbn [negb]. rewrite app_nil_r.
    apply removeItemFromCart_absent. now apply Forall_forall.
  - rewrite (findIndex_from_first _ _ _ _ 0 H1 Hx).
    destruct (Z.gtb_spec (0 + Z.of_nat (List.length l1)) (-1)); [| lia].
    rewrite add_found by assumption.
    apply removeItemFromCart_absent. apply Forall_forall. intros i Hi.
    apply in_app_or in Hi as [Hi | [<- | Hi]].
    + apply Hfresh. apply in_or_app. now left.
    + cbn [item_id with_quantity]. apply Hfresh. apply in_or_app. right. now left.
    + apply Hfresh. apply in_or_app. right. now right.
Qed.

End Undo.

Lemma add_then_remove_witness :
  removeItemFromCart_newItems
    (handleAddToCart_newItems [Scenarios.plainOrange 3 "line-1"]
       (Scenarios.plainOrange 1 "line-2")) "line-2"
  = if merges [Scenarios.plainOrange 3 "line-1"] (Scenarios.plainOrange 1 "line-2")
    then handleAddToCart_newItems [Scenarios.plainOrange 3 "line-1"]
           (Scenarios.plainOrange 1 "line-2")
    else [Scenarios.plainOrange 3 "line-1"].
Proof.
  apply (add_then_remove [Scenarios.plainOrange 3 "line-1"]
           (Scenarios.plainOrange 1 "line-2")).
  intros i [<- | []]. discriminate.
Defined.

Section ExactTotal.
Local Open Scope Q_scope.

Lemma sumOf_cons (x : Q) (l : list Q) : sumOf (x :: l) == x + sumOf l.
Proof. reflexivity. Qed.

Lemma sumOf_nil : sumOf (T:=Q) [] == 0.
Proof. reflexivity. Qed.

End ExactTotal.

Section TotalInOrder.
Context {T : Type} {NT : Num T}.
Implicit Types (item i : CartItem T) (cartItems : list (CartItem T)).
Local Open Scope js_scope.

Lemma newTotal_in_order cartItems :
  newTotal cartItems =
  sumInOrder (map (fun i => price i * num_of_Z (quantity i)) cartItems).
Proof. apply reduce_sumInOrder. Qed.

(** X9.  An add that makes a new line raises the total by the price of the
    item times its quantity, in the arithmetic of the code.  An add that is
    merged leaves the price of every line as it was, and the cart it gives
    depends on the item through its customisation and its quantity only: not
    on its price. *)
Theorem add_and_the_total cartItems item :
  (merges cartItems item = false ->
   newTotal (handleAddToCart_newItems cartItems item) =
   newTotal cartItems + price item * num_of_Z (quantity item)) /\
  (merges cartItems item = true ->
   map price (handleAddToCart_newItems cartItems item) = map price cartItems /\
   forall item',
     customisation item' = customisation item -> quantity item' = quantity item ->
     handleAddToCart_newItems cartItems item' = handleAddToCart_newItems cartItems item).
Proof.
  rewrite merges_existsb.
  destruct (first_match_cases (sameCustomisation item) cartItems)
    as [H | (l1 & x & l2 & -> & H1 & Hx)].
  - split.
    + intros _. rewrite (add_absent _ _ H), !newTotal_in_order, map_app.
      apply sumInOrder_snoc.
    + intros E. exfalso. apply existsb_exists in E as (i & Hi & E).
      rewrite Forall_forall in H. rewrite (H i Hi) in E. discriminate E.
  - split.
    + intros E. exfalso.
      assert (existsb (sameCustomisation item) (l1 ++ x :: l2) = true); [| congruence].
      apply existsb_exists. exists x. split; [apply in_or_app; right; now left | exact Hx].
    + intros _. rewrite (add_found _ _ _ _ H1 Hx). split.
      * rewrite !map_app. reflexivity.
      * intros item' Ec Eq. rewrite add_found.
        -- now rewrite Eq.
        -- rewrite Forall_forall in *. intros i Hi.
           rewrite (sameCustomisation_key item' item i Ec). now apply H1.
        -- now rewrite (sameCustomisation_key item' item x Ec).
Qed.

End TotalInOrder.

(** A Fresh Orange with additions is added to a cart that holds a plain
    one. *)
Lemma add_and_the_total_witness :
  newTotal (handleAddToCart_newItems [Scenarios.plainOrange 3 "line-1"]
              (Scenarios.boostedOrange Scenarios.chiaThenGinger "line-2")) =
  num_add (newTotal [Scenarios.plainOrange 3 "line-1"])
    (num_mul (price (Scenarios.boostedOrange Scenarios.chiaThenGinger "line-2"))
       (num_of_Z (quantity (Scenarios.boostedOrange Scenarios.chiaThenGinger "line-2")))).
Proof.
  apply (proj1 (add_and_the_total [Scenarios.plainOrange 3 "line-1"]
                  (Scenarios.boostedOrange Scenarios.chiaThenGinger "line-2"))).
  reflexivity.
Defined.

(** X13.  On a store that commits every write, a sequence of adds, each
    followed by the snapshot it causes, leaves in memory the items that the
    adds compute one after the other from the starting cart. *)
Theorem adds_through_the_listener (T : Type) (NT : Num T)
    (adds : list (CartItem T)) (a : App T) (uid : string) :
  db a = true -> userId a = Some uid -> outcomes a = [] ->
  items (cart (fold_left (fun a item => deliver (handleAddToCart item a)) adds a)) =
  fold_left handleAddToCart_newItems adds (items (cart a)).
Proof. apply handleAddToCart_sequence_delivered. Qed.

Lemma adds_through_the_listener_witness :
  items (cart (fold_left (fun a item => deliver (handleAddToCart item a))
                 [Scenarios.plainOrange 1 "line-1"; Scenarios.plainOrange 2 "line-2"]
                 Scenarios.shop)) =
  fold_left handleAddToCart_newItems
    [Scenarios.plainOrange 1 "line-1"; Scenarios.plainOrange 2 "line-2"]
    (items (cart Scenarios.shop)).
Proof.
  apply (adds_through_the_listener Q _
           [Scenarios.plainOrange 1 "line-1"; Scenarios.plainOrange 2 "line-2"]
           Scenarios.shop "user-1"); reflexivity.
Defined.

End JuiSipAppCart.

(* ------------------------------------------------------------------ *)
(** ** JuiSipApp2: counts, quantities and totals *)

Module JuiSipApp2Cart.
Import JuiSipApp2 JuiSipApp2Facts.

Section AnyNumber.
Context {T : Type}.
Implicit Types (item : MenuItem T) (line i : CartItem T) (cart : list (CartItem T)).

Lemma cartTotalItems_from cart (acc : Z) :
  fold_left (fun sum i => sum + quantity i) cart acc = acc + totalQuantity cart.
Proof.
  unfold totalQuantity. revert acc.
  induction cart as [| x l IH]; intros acc; cbn [fold_left map fold_right].
  - lia.
  - rewrite IH. lia.
Qed.

Lemma cartTotalItems_sum cart : cartTotalItems cart = totalQuantity cart.
Proof. unfold cartTotalItems, reduce. now rewrite cartTotalItems_from. Qed.

Lemma same_quantity line : with_quantity line (quantity line) = line.
Proof. destruct line. reflexivity. Qed.

(** X14.  The number shown on the cart button is the sum of the quantities:
    an add raises it by one, and on a cart whose quantities are at least one
    it is not less than the number of lines, so it is zero on the empty cart
    only. *)
Theorem cartTotalItems_counts cart :
  (forall item,
     cartTotalItems (addToCart_newCart cart item) = cartTotalItems cart + 1) /\
  (Forall (fun i => 1 <= quantity i) cart ->
   Z.of_nat (List.length cart) <= cartTotalItems cart /\
   (cartTotalItems cart = 0 <-> cart = [])).
Proof.
  split.
  - intros item. rewrite !cartTotalItems_sum.
    destruct (first_match_cases (fun i => String.eqb (item_id i) (menu_id item)) cart)
      as [H | (l1 & x & l2 & -> & H1 & Hx)].
    + rewrite addToCart_absent by exact H. rewrite menu_totalQuantity_app.
      unfold totalQuantity. cbn. lia.
    + rewrite addToCart_found by assumption. rewrite !menu_totalQuantity_app.
      unfold totalQuantity. cbn. lia.
  - intros H. rewrite cartTotalItems_sum.
    assert (L : Z.of_nat (List.length cart) <= totalQuantity cart).
    { unfold totalQuantity. induction H as [| x l Hx _ IH]; cbn [List.length map fold_right];
        lia. }
    split; [exact L |]. split.
    + intros E. destruct cart; [reflexivity |]. cbn [List.length] in L. lia.
    + intros ->. reflexivity.
Qed.

Lemma updateQuantity_keeps_all cart (itemId : string) (change : Z) :
  Forall (fun i => 1 <= quantity i) cart -> 0 <= change ->
  updateQuantity_newCart cart itemId change =
  map (fun i => if String.eqb (item_id i) itemId
                then with_quantity i (quantity i + change) else i) cart.
Proof.
  intros H Hc. unfold updateQuantity_newCart. apply filter_all.
  apply Forall_map. rewrite Forall_forall in *. intros i Hi. specialize (H i Hi).
  destruct (String.eqb (item_id i) itemId); cbn [quantity with_quantity]; lia.
Qed.

(** X15.  On a cart that satisfies the invariant: a change of plus one
    followed by a change of minus one on the same line gives the cart back;
    a change of minus one on a line of quantity one is the removal of the
    line; and a change on an id that no line carries changes nothing. *)
Theorem updateQuantity_steps cart (itemId : string) :
  cartInvariant cart ->
  updateQuantity_newCart (updateQuantity_newCart cart itemId 1) itemId (-1) = cart /\
  (forall line, In line cart -> item_id line = itemId -> quantity line = 1 ->
     updateQuantity_newCart cart itemId (-1) = removeFromCart_newCart cart itemId) /\
  ((forall i, In i cart -> item_id i <> itemId) ->
   forall change, updateQuantity_newCart cart itemId change = cart).
Proof.
  intros [Hn Hp]. split; [| split].
  - rewrite (updateQuantity_keeps_all cart itemId 1 Hp) by lia.
    unfold updateQuantity_newCart. rewrite map_map. rewrite filter_all.
    + rewrite <- (map_id cart) at 2. apply map_ext. intros i.
      destruct (String.eqb (item_id i) itemId) eqn:E; cbn [item_id with_quantity].
      * rewrite E. cbn [quantity with_quantity].
        replace (quantity i + 1 + -1) with (quantity i) by lia.
        destruct i. reflexivity.
      * now rewrite E.
    + apply Forall_map. rewrite Forall_forall in *. intros i Hi. specialize (Hp i Hi).
      destruct (String.eqb (item_id i) itemId) eqn:E; cbn [item_id with_quantity];
        rewrite E; cbn [quantity with_quantity]; lia.
  - intros line Hin Hid Hq. unfold updateQuantity_newCart, removeFromCart_newCart.
    revert Hn Hp Hin.
    induction cart as [| x l IH]; intros Hn Hp Hin; [destruct Hin |].
    cbn [map filter]. cbn [map] in Hn. apply NoDup_cons_iff in Hn as [Hx Hl].
    inversion Hp as [| ? ? Hqx Hpl]; subst.
    destruct (String.eqb_spec (item_id x) (item_id line)) as [E | N]; cbn [negb].
    + assert (x = line).
      { destruct Hin as [-> | Hin]; [reflexivity |].
        exfalso. apply Hx. rewrite E. now apply in_map. }
      subst x. cbn [quantity with_quantity]. rewrite Hq. cbn.
      transitivity l.
      * rewrite filter_all.
        -- rewrite <- (map_id l) at 2. apply map_ext_in. intros i Hi.
           destruct (String.eqb_spec (item_id i) (item_id line)) as [E' | _];
             [| reflexivity].
           exfalso. apply Hx. rewrite <- E'. now apply in_map.
        -- apply Forall_map. rewrite Forall_forall in *. intros i Hi.
           specialize (Hpl i Hi).
           destruct (String.eqb_spec (item_id i) (item_id line)) as [E' | _]; [| lia].
           exfalso. apply Hx. rewrite <- E'. now apply in_map.
      * symmetry. apply filter_all. apply Forall_forall. intros i Hi.
        apply negb_true_iff, String.eqb_neq. intros E'. apply Hx.
        rewrite <- E'. now apply in_map.
    + destruct Hin as [-> | Hin]; [contradiction |].
      destruct (Z.gtb_spec (quantity x) 0); [| lia].
      f_equal. now apply IH.
  - intros H change. unfold updateQuantity_newCart. rewrite filter_all.
    + rewrite <- (map_id cart) at 2. apply map_ext_in. intros i Hi.
      specialize (H i Hi). apply String.eqb_neq in H. now rewrite H.
    + apply Forall_map. rewrite Forall_forall in *. intros i Hi.
      specialize (H i Hi). specialize (Hp i Hi).
      apply String.eqb_neq in H. rewrite H. lia.
Qed.

End AnyNumber.

Lemma cartTotalItems_counts_witness :
  Z.of_nat (List.length [Scenarios.tenLine (T:=Q)]) <= cartTotalItems [Scenarios.tenLine (T:=Q)].
Proof.
  refine (proj1 (proj2 (cartTotalItems_counts [Scenarios.tenLine (T:=Q)]) _)).
  constructor; [simpl; lia | constructor].
Defined.

Lemma updateQuantity_steps_witness :
  updateQuantity_newCart (updateQuantity_newCart [Scenarios.tenLine (T:=Q)] "10" 1)
    "10" (-1) = [Scenarios.tenLine].
Proof.
  refine (proj1 (updateQuantity_steps [Scenarios.tenLine (T:=Q)] "10" _)).
  split.
  - constructor; [intros [] | constructor].
  - constructor; [simpl; lia | constructor].
Defined.

Section ExactTotals.
Local Open Scope Q_scope.
Implicit Types (item : MenuItem Q) (line i : CartItem Q) (cart : list (CartItem Q)).


Lemma sumOf_positive (l : list Q) :
  Forall (fun x => 0 < x) l -> l <> [] -> 0 < sumOf l.
Proof.
  intros H. induction H as [| x l Hx Hl IH]; intros N; [congruence |].
  rewrite JuiSipAppCart.sumOf_cons. destruct l as [| y l].
  - rewrite JuiSipAppCart.sumOf_nil, Qplus_0_r. exact Hx.
  - rewrite <- (Qplus_0_r 0). apply Qplus_lt_le_compat; [exact Hx |].
    apply Qlt_le_weak. apply IH. discriminate.
Qed.

(** X17.  On a cart whose lines have a positive price and a quantity of at
    least one, the grand total is 0 on the empty cart only, and on any other
    cart it is above the delivery fee of 5.00: the test of the grand total in
    the guard of checkout then says no more than the test of the empty
    cart. *)
Theorem grandTotal_of_priced_cart cart :
  Forall (fun i => 0 < price i /\ (1 <= quantity i)%Z) cart ->
  (grandTotal cart == 0 <-> cart = []) /\
  (cart <> [] -> 5 < grandTotal cart).
Proof.
  intros H.
  assert (P : cart <> [] -> 5 < grandTotal cart).
  { intros N.
    assert (S : 0 < cartSubtotal cart).
    { rewrite cartSubtotal_sum. apply sumOf_positive.
      - apply Forall_map. rewrite Forall_forall in *. intros i Hi.
        destruct (H i Hi) as [Hp Hq].
        apply Qmult_lt_0_compat; [exact Hp |].
        rewrite <- (Zlt_Qlt 0). lia.
      - destruct cart; [congruence | discriminate]. }
    rewrite grandTotal_sum, taxAmount_rate.
    rewrite (proj1 (proj2 (deliveryFee_schedule cart)) S).
    rewrite <- (Qplus_0_l 5) at 1. apply Qplus_lt_le_compat; [| apply Qle_refl].
    rewrite <- (Qplus_0_r 0). apply Qplus_lt_le_compat; [exact S |].
    apply Qlt_le_weak. apply Qmult_lt_0_compat; [exact S | reflexivity]. }
  split; [| exact P]. split.
  - intros E. destruct cart as [| i l]; [reflexivity |]. exfalso.
    assert (L : 5 < grandTotal (i :: l)) by (apply P; discriminate).
    rewrite E in L. discriminate L.
  - intros ->. reflexivity.
Qed.

Lemma grandTotal_of_priced_cart_witness :
  5 < grandTotal [Scenarios.tenLine (T:=Q)].
Proof.
  refine (proj2 (grandTotal_of_priced_cart [Scenarios.tenLine] _) _).
  - constructor; [split; [reflexivity | simpl; lia] | constructor].
  - discriminate.
Defined.

End ExactTotals.

Section SubtotalInOrder.
Context {T : Type} {NT : Num T}.
Implicit Types (item : MenuItem T) (line i : CartItem T) (cart : list (CartItem T)).
Local Open Scope js_scope.

Lemma cartSubtotal_in_order cart :
  cartSubtotal cart = sumInOrder (map (fun i => price i * num_of_Z (quantity i)) cart).
Proof. apply reduce_sumInOrder. Qed.

(** X16.  An add that makes a new line raises the subtotal by the price of
    the menu item, once, in the arithmetic of the code.  An add of a menu
    item the cart already has leaves the price of every line as it was, and
    the cart it gives depends on the menu item through its id only. *)
Theorem addToCart_and_the_subtotal cart item :
  ((forall i, In i cart -> item_id i <> menu_id item) ->
   cartSubtotal (addToCart_newCart cart item) =
   cartSubtotal cart + menu_price item * num_of_Z 1) /\
  ((exists i, In i cart /\ item_id i = menu_id item) ->
   map price (addToCart_newCart cart item) = map price cart /\
   forall item', menu_id item' = menu_id item ->
     addToCart_newCart cart item' = addToCart_newCart cart item).
Proof.
  destruct (first_match_cases (fun i => String.eqb (item_id i) (menu_id item)) cart)
    as [H | (l1 & x & l2 & -> & H1 & Hx)].
  - split.
    + intros _. rewrite (addToCart_absent _ _ H), !cartSubtotal_in_order, map_app.
      apply sumInOrder_snoc.
    + intros (i & Hi & E). exfalso. rewrite Forall_forall in H.
      specialize (H i Hi). apply String.eqb_neq in H. contradiction.
  - split.
    + intros N. exfalso. apply String.eqb_eq in Hx. apply (N x); [| exact Hx].
      apply in_or_app. right. now left.
    + intros _. rewrite (addToCart_found _ _ _ _ H1 Hx). split.
      * rewrite !map_app. reflexivity.
      * intros item' E. rewrite addToCart_found; [reflexivity | | ]; now rewrite E.
Qed.

End SubtotalInOrder.

(** The first entry of the menu is added to a cart that does not have it. *)
Lemma addToCart_and_the_subtotal_witness :
  cartSubtotal (addToCart_newCart [Scenarios.tenLine] Scenarios.zestyLemonade) =
  num_add (cartSubtotal [Scenarios.tenLine (T:=Q)])
    (num_mul (menu_price Scenarios.zestyLemonade) (num_of_Z 1)).
Proof.
  apply (proj1 (addToCart_and_the_subtotal [Scenarios.tenLine] Scenarios.zestyLemonade)).
  intros i [<- | []]. discriminate.
Defined.

End JuiSipApp2Cart.

(* ------------------------------------------------------------------ *)
(** ** JuiSipApp2: checkout, the mock mode and the echo of a write *)

Module JuiSipApp2Checkout.
Import JuiSipApp2 JuiSipApp2Facts.

Section Orders.
Local Open Scope Q_scope.
Implicit Types (a : App Q).

(** The order [handlePlaceOrder] builds from the state [a]. *)
Lemma past_the_guard (random : Z) a uid :
  db a = true -> userId a = Some uid -> cart a <> [] ->
  ~ grandTotal (cart a) == 0 ->
  handlePlaceOrder random a =
  let orderData :=
    {| orderId := random + 10000; order_userId := uid;
       order_itemsJson := Encoded (cart a);
       order_grandTotal := grandTotal (cart a);
       order_subtotal := cartSubtotal (cart a);
       order_deliveryFee := deliveryFee (cart a);
       order_taxAmount := taxAmount (cart a);
       placedAt := now a; status := "Preparing" |} in
  setIsLoading false
    (if next_outcome a
     then setIsOrderPlaced true
            (updateCartInDb [] (sleep 1000 (snd (addDoc orderData (setIsLoading true a)))))
     else setError (Some "Failed to place order due to a database error.")
            (snd (addDoc orderData (setIsLoading true a)))).
Proof.
  intros Hdb Huid Hc Hg. unfold handlePlaceOrder. rewrite Huid, Hdb.
  destruct (cart a) as [| i l] eqn:Ec; [congruence |].
  assert (Hq : (grandTotal (i :: l) === lit 0 1)%js = false).
  { apply not_true_is_false. intros E. apply Hg. now apply Qeq_bool_iff. }
  rewrite Hq. reflexivity.
Qed.

Lemma addDoc_history (order : OrderData Q) a :
  stored_history (snd (addDoc order a)) =
  if next_outcome a then stored_history a ++ [order] else stored_history a.
Proof. reflexivity. Qed.

(** X18.  Past the guard, when the order is committed: the history gains
    exactly one order, with a five-digit id, the items of the cart, totals
    that add up, and the status Preparing; the confirmation is shown and the
    loading flag is down; the cart in memory is not touched by the handler. *)
Theorem committed_order (random : Z) a uid :
  db a = true -> userId a = Some uid -> cart a <> [] ->
  ~ grandTotal (cart a) == 0 -> next_outcome a = true ->
  (0 <= random < 90000)%Z ->
  let a' := handlePlaceOrder random a in
  exists order,
    stored_history a' = stored_history a ++ [order] /\
    (10000 <= orderId order <= 99999)%Z /\
    order_itemsJson order = Encoded (cart a) /\
    order_grandTotal order ==
      order_subtotal order + order_taxAmount order + order_deliveryFee order /\
    status order = "Preparing" /\
    isOrderPlaced a' = true /\ isLoading a' = false /\ cart a' = cart a.
Proof.
  intros Hdb Huid Hc Hg Hok Hr. cbv zeta.
  rewrite (past_the_guard random a uid Hdb Huid Hc Hg). cbv zeta. rewrite Hok.
  eexists. split; [| split; [| split; [| split; [| split; [| split; [| split]]]]]].
  - cbn [stored_history setIsLoading setIsOrderPlaced].
    match goal with |- context [updateCartInDb ?c ?s] =>
      destruct (updateCartInDb_memory c s) as (_ & _ & -> & _) end.
    cbn [stored_history sleep]. rewrite addDoc_history.
    change (next_outcome (setIsLoading true a)) with (next_outcome a).
    rewrite Hok. reflexivity.
  - cbn [orderId]. lia.
  - reflexivity.
  - cbn [order_grandTotal order_subtotal order_taxAmount order_deliveryFee].
    rewrite grandTotal_sum. reflexivity.
  - reflexivity.
  - reflexivity.
  - reflexivity.
  - cbn [cart setIsLoading setIsOrderPlaced].
    match goal with |- context [updateCartInDb ?c ?s] =>
      destruct (updateCartInDb_memory c s) as (-> & _) end.
    reflexivity.
Qed.

(** X19.  Past the guard, when the order is not committed: the failure is
    reported, the history and the cart document are as before, the cart is
    not written, no confirmation is shown and the loading flag is down. *)
Theorem refused_order (random : Z) a uid :
  db a = true -> userId a = Some uid -> cart a <> [] ->
  ~ grandTotal (cart a) == 0 -> next_outcome a = false ->
  let a' := handlePlaceOrder random a in
  error a' = Some "Failed to place order due to a database error." /\
  stored_history a' = stored_history a /\ stored_cart a' = stored_cart a /\
  attempts (effects a') = attempts (effects a) /\
  delays (effects a') = delays (effects a) /\
  isOrderPlaced a' = isOrderPlaced a /\ isLoading a' = false /\ cart a' = cart a.
Proof.
  intros Hdb Huid Hc Hg Hok. cbv zeta.
  rewrite (past_the_guard random a uid Hdb Huid Hc Hg). cbv zeta. rewrite Hok.
  destruct a as [d u c il e io oh sc sh ef out nw].
  unfold next_outcome in Hok. cbn in Hok.
  destruct out as [| [] out]; try discriminate Hok.
  cbn. unfold attempts, delays. rewrite !flat_map_app. cbn.
  rewrite !app_nil_r. repeat split.
Qed.

(** X20.  When the order is committed and the three writes of the emptied
    cart then fail, the order stays placed and confirmed, the cart document
    is not emptied, and the error of the cart write is reported. *)
Theorem committed_order_uncleared_cart (random : Z) a uid (rest : list bool) :
  db a = true -> userId a = Some uid -> cart a <> [] ->
  ~ grandTotal (cart a) == 0 ->
  outcomes a = true :: false :: false :: false :: rest ->
  let a' := handlePlaceOrder random a in
  List.length (stored_history a') = S (List.length (stored_history a)) /\
  isOrderPlaced a' = true /\
  stored_cart a' = stored_cart a /\
  error a' = Some "Failed to save cart. Please check your connection." /\
  delays (effects a') = delays (effects a) ++ [1000; 1000; 2000]%Z.
Proof.
  intros Hdb Huid Hc Hg Hout. cbv zeta.
  rewrite (past_the_guard random a uid Hdb Huid Hc Hg). cbv zeta.
  destruct a as [d u c il e io oh sc sh ef out nw]. cbn in *. subst.
  unfold next_outcome, updateCartInDb.
  change (Z.to_nat maxRetries) with 3%nat. cbn.
  unfold delays. rewrite !flat_map_app, length_app. cbn.
  rewrite <- !app_assoc. cbn. repeat split. lia.
Qed.

End Orders.

Lemma committed_order_witness :
  exists order,
    stored_history (handlePlaceOrder 4242 (Scenarios.kitchen [Scenarios.tenLine] [])) =
      stored_history (Scenarios.kitchen [Scenarios.tenLine] []) ++ [order] /\
    (10000 <= orderId order <= 99999)%Z /\
    order_itemsJson order = Encoded (cart (Scenarios.kitchen [Scenarios.tenLine] [])) /\
    (order_grandTotal order ==
       order_subtotal order + order_taxAmount order + order_deliveryFee order)%Q /\
    status order = "Preparing" /\
    isOrderPlaced (handlePlaceOrder 4242 (Scenarios.kitchen [Scenarios.tenLine] [])) = true /\
    isLoading (handlePlaceOrder 4242 (Scenarios.kitchen [Scenarios.tenLine] [])) = false /\
    cart (handlePlaceOrder 4242 (Scenarios.kitchen [Scenarios.tenLine] [])) =
      cart (Scenarios.kitchen [Scenarios.tenLine] []).
Proof.
  apply (committed_order 4242 (Scenarios.kitchen [Scenarios.tenLine] []) "user-1").
  - reflexivity.
  - reflexivity.
  - discriminate.
  - intros E. discriminate E.
  - reflexivity.
  - lia.
Defined.

Lemma refused_order_witness :
  error (handlePlaceOrder 4242 (Scenarios.kitchen [Scenarios.tenLine] [false])) =
  Some "Failed to place order due to a database error.".
Proof.
  refine (proj1 (refused_order 4242 (Scenarios.kitchen [Scenarios.tenLine] [false])
                   "user-1" eq_refl eq_refl _ _ eq_refl)).
  - discriminate.
  - intros E. discriminate E.
Defined.

Lemma committed_order_uncleared_cart_witness :
  isOrderPlaced
    (handlePlaceOrder 4242
       (Scenarios.kitchen [Scenarios.tenLine] [true; false; false; false])) = true.
Proof.
  refine (proj1 (proj2 (committed_order_uncleared_cart 4242
            (Scenarios.kitchen [Scenarios.tenLine] [true; false; false; false])
            "user-1" [] eq_refl eq_refl _ _ eq_refl))).
  - discriminate.
  - intros E. discriminate E.
Defined.

End JuiSipApp2Checkout.

(* ------------------------------------------------------------------ *)
(** ** JuiSipApp2: the mock mode, the listeners and the menu *)

Module JuiSipApp2Listeners.
Import JuiSipApp2 JuiSipApp2Facts.

Section AnyNumber.
Context {T : Type} {NT : Num T}.
Implicit Types (a : App T) (newCart : list (CartItem T)).

(** X21.  Without a database or without a user, as in the local mock mode,
    the cart actions only set the cart in memory, with no write and no delay,
    and checkout does nothing at all. *)
Theorem mock_mode a :
  db a = false \/ userId a = None ->
  (forall newCart, updateCartInDb newCart a = a) /\
  (forall item, addToCart item a = setCart (addToCart_newCart (cart a) item) a) /\
  (forall itemId change,
     updateQuantity itemId change a =
     setCart (updateQuantity_newCart (cart a) itemId change) a) /\
  (forall itemId,
     removeFromCart itemId a = setCart (removeFromCart_newCart (cart a) itemId) a) /\
  clearCart a = setCart [] a /\
  (forall random, handlePlaceOrder random a = a).
Proof.
  intros H.
  assert (U : forall newCart c, updateCartInDb newCart (setCart c a) = setCart c a).
  { intros newCart c. unfold updateCartInDb. cbn [db userId setCart].
    destruct H as [-> | ->]; [reflexivity | destruct (db a); reflexivity]. }
  split; [| split; [| split; [| split; [| split]]]].
  - intros newCart. unfold updateCartInDb.
    destruct H as [-> | ->]; [reflexivity | destruct (db a); reflexivity].
  - intros item. apply U.
  - intros itemId change. apply U.
  - intros itemId. apply U.
  - apply U.
  - intros random. unfold handlePlaceOrder.
    destruct (userId a) as [uid |]; [| reflexivity].
    destruct H as [-> | H]; [| discriminate H].
    cbn [negb]. now rewrite orb_true_r.
Qed.

(** A committed write of the cart the memory holds, echoed by the listener. *)
Lemma echo_of_write newCart a uid :
  db a = true -> userId a = Some uid -> next_outcome a = true ->
  deliver (updateCartInDb newCart (setCart newCart a)) =
  updateCartInDb newCart (setCart newCart a).
Proof.
  intros Hdb Huid Hok. destruct a as [d u c il e io oh sc sh ef out nw].
  cbn in Hdb, Huid. subst. unfold next_outcome in Hok. cbn in Hok.
  unfold updateCartInDb, deliver. cbn [db userId setCart].
  change (Z.to_nat maxRetries) with 3%nat.
  destruct out as [| [] out]; try discriminate Hok; reflexivity.
Qed.

(** X22.  When the first write of a cart action is committed, the snapshot
    that follows it brings back the cart the action has put in memory: the
    state is the same after the listener as before it. *)
Theorem echo_changes_nothing a uid :
  db a = true -> userId a = Some uid -> next_outcome a = true ->
  (forall item, deliver (addToCart item a) = addToCart item a) /\
  (forall itemId change,
     deliver (updateQuantity itemId change a) = updateQuantity itemId change a) /\
  (forall itemId, deliver (removeFromCart itemId a) = removeFromCart itemId a) /\
  deliver (clearCart a) = clearCart a.
Proof.
  intros Hdb Huid Hok. repeat split; intros; now apply (echo_of_write _ a uid).
Qed.

End AnyNumber.

Lemma mock_mode_witness :
  addToCart Scenarios.zestyLemonade (Scenarios.offlineKitchen []) =
  setCart (addToCart_newCart (cart (Scenarios.offlineKitchen [])) Scenarios.zestyLemonade)
    (Scenarios.offlineKitchen []).
Proof.
  refine (proj1 (proj2 (mock_mode (Scenarios.offlineKitchen []) _))
            Scenarios.zestyLemonade).
  left. reflexivity.
Defined.

Lemma echo_changes_nothing_witness :
  deliver (addToCart Scenarios.zestyLemonade (Scenarios.kitchen [] [])) =
  addToCart Scenarios.zestyLemonade (Scenarios.kitchen [] []).
Proof.
  exact (proj1 (echo_changes_nothing (Scenarios.kitchen [] []) "user-1"
                  eq_refl eq_refl eq_refl) Scenarios.zestyLemonade).
Defined.

(** *** Sorting *)

Section Sorting.
Context {A : Type} (key : A -> Z).

Lemma sort_insert_perm (compareFn : A -> A -> Z) (x : A) (l : list A) :
  Permutation (sort_insert compareFn x l) (x :: l).
Proof.
  induction l as [| y l IH]; cbn [sort_insert]; [reflexivity |].
  destruct (compareFn x y <=? 0); [reflexivity |].
  rewrite IH. apply perm_swap.
Qed.

Lemma sort_perm (compareFn : A -> A -> Z) (l : list A) :
  Permutation (sort compareFn l) l.
Proof.
  induction l as [| x l IH]; cbn [sort]; [reflexivity |].
  rewrite sort_insert_perm. now constructor.
Qed.

Lemma sort_insert_sorted (x : A) (l : list A) :
  StronglySorted (fun u v => key v <= key u) l ->
  StronglySorted (fun u v => key v <= key u) (sort_insert (fun u v => key v - key u) x l).
Proof.
  induction 1 as [| y l Hl IH Hy]; cbn [sort_insert].
  - constructor; constructor.
  - destruct (Z.leb_spec (key y - key x) 0) as [L | G].
    + constructor; [now constructor |].
      constructor; [lia |]. rewrite Forall_forall in *. intros z Hz.
      specialize (Hy z Hz). cbn in Hy. lia.
    + constructor; [exact IH |].
      rewrite Forall_forall in *. intros z Hz.
      apply (Permutation_in _ (sort_insert_perm (fun u v => key v - key u) x l)) in Hz.
      destruct Hz as [<- | Hz]; [lia | now apply Hy].
Qed.

Lemma sort_sorted (l : list A) :
  StronglySorted (fun u v => key v <= key u) (sort (fun u v => key v - key u) l).
Proof.
  induction l as [| x l IH]; cbn [sort]; [constructor |].
  now apply sort_insert_sorted.
Qed.

End Sorting.

Lemma map_throwing_none {A B} (f : A -> option B) (l : list A) :
  map_throwing f l = None <-> exists x, In x l /\ f x = None.
Proof.
  induction l as [| x l IH]; cbn [map_throwing].
  - split; [discriminate | intros (x & [] & _)].
  - destruct (f x) as [y |] eqn:E.
    + destruct (map_throwing f l) as [ys |].
      * split; [discriminate |]. intros (z & [<- | Hz] & Ez); [congruence |].
        assert (N : Some ys = None) by (apply IH; now exists z).
        discriminate N.
      * split; [| reflexivity]. intros _.
        destruct (proj1 IH eq_refl) as (z & Hz & Ez). exists z. split; [now right | exact Ez].
    + split; [| reflexivity]. intros _. exists x. split; [now left | exact E].
Qed.

Lemma map_throwing_some {A B} (f : A -> option B) (l : list A) (ys : list B) :
  map_throwing f l = Some ys -> Forall2 (fun x y => f x = Some y) l ys.
Proof.
  revert ys. induction l as [| x l IH]; cbn [map_throwing]; intros ys E.
  - injection E as <-. constructor.
  - destruct (f x) as [y |] eqn:Ex; [| discriminate E].
    destruct (map_throwing f l) as [ys' |]; [| discriminate E].
    injection E as <-. constructor; [exact Ex | now apply IH].
Qed.

Section HistoryListener.
Context {T : Type}.
Variable getTime : string -> Z.
Variable toLocaleString : string -> string.
Implicit Types (a : App T) (docs : list (HistoryDocument T)).

(** X23.  When the history listener gets to [setOrderHistory], the array it
    hands over holds one entry for each order document, each with the id and
    the data of its document, and is ordered from the newest to the oldest
    [placedAt]: its first entry is the latest order. *)
Theorem history_newest_first a docs (entries : list (HistoryEntry T)) :
  historyData getTime toLocaleString a docs = Some entries ->
  StronglySorted
    (fun x y => getTime (entry_placedAt y) <= getTime (entry_placedAt x)) entries /\
  exists unsorted,
    Permutation entries unsorted /\
    Forall2 (fun doc e =>
               entry_id e = history_id doc /\ entry_data e = history_data doc /\
               JSON_parse (order_itemsJson (history_data doc)) = Some (entry_items e))
      docs unsorted.
Proof.
  unfold historyData.
  destruct (map_throwing (historyEntry toLocaleString a) docs) as [l |] eqn:E;
    [| discriminate].
  intros H. injection H as <-. split.
  - apply (sort_sorted (fun e => getTime (entry_placedAt e))).
  - exists l. split; [apply sort_perm |].
    apply map_throwing_some in E. induction E as [| doc e docs' l' He _ IH];
      constructor; [| exact IH].
    unfold historyEntry in He.
    destruct (JSON_parse (order_itemsJson (history_data doc))) as [parsed |];
      [| discriminate He].
    injection He as <-. repeat split.
Qed.

(** X24.  The history listener gives up, and sets no history, exactly when
    the items of some order document cannot be parsed; the cart listener, on
    a cart document that cannot be parsed, sets the empty cart and reports no
    error. *)
Theorem history_unparseable_order a docs :
  (historyData getTime toLocaleString a docs = None <->
   exists doc, In doc docs /\ order_itemsJson (history_data doc) = Malformed) /\
  (forall (updated : string),
     let a' := onSnapshot_cart
                 (Present {| itemsJson := Malformed; updatedAt := updated |}) a in
     cart a' = [] /\ error a' = error a /\ effects a' = effects a).
Proof.
  split; [| intros; repeat split].
  unfold historyData.
  assert (M : forall doc,
             historyEntry toLocaleString a doc = None <->
             order_itemsJson (history_data doc) = Malformed).
  { intros doc. unfold historyEntry.
    destruct (order_itemsJson (history_data doc)); cbn; split; congruence. }
  destruct (map_throwing (historyEntry toLocaleString a) docs) as [l |] eqn:E.
  - split; [discriminate |]. intros (doc & Hd & Ed).
    assert (N : map_throwing (historyEntry toLocaleString a) docs = None).
    { apply map_throwing_none. exists doc. split; [exact Hd | now apply M]. }
    congruence.
  - split; [| reflexivity]. intros _.
    apply map_throwing_none in E as (doc & Hd & Ed).
    exists doc. split; [exact Hd | now apply M].
Qed.

End HistoryListener.

Lemma history_newest_first_witness :
  StronglySorted
    (fun x y => Scenarios.dayOf (entry_placedAt y) <= Scenarios.dayOf (entry_placedAt x))
    (sort (fun x y => Scenarios.dayOf (entry_placedAt y) - Scenarios.dayOf (entry_placedAt x))
       (map (fun doc : HistoryDocument Q =>
               {| entry_id := history_id doc; entry_data := history_data doc;
                  entry_items := [Scenarios.tenLine];
                  entry_placedAt := history_id doc;
                  entry_displayDate := history_id doc |})
          [Scenarios.orderAt 10001 "2025-01-02T00:00:00.000Z";
           Scenarios.orderAt 10002 "2025-01-03T00:00:00.000Z";
           Scenarios.orderAt 10003 "2025-01-01T00:00:00.000Z"])).
Proof.
  refine (proj1 (history_newest_first Scenarios.dayOf (fun s => s)
                   (Scenarios.kitchen [] [])
                   [Scenarios.orderAt 10001 "2025-01-02T00:00:00.000Z";
                    Scenarios.orderAt 10002 "2025-01-03T00:00:00.000Z";
                    Scenarios.orderAt 10003 "2025-01-01T00:00:00.000Z"] _ _)).
  reflexivity.
Defined.

End JuiSipApp2Listeners.

(* ------------------------------------------------------------------ *)
(** ** JuiSipApp2: the tabs of the menu *)

Module JuiSipApp2Menu.
Import JuiSipApp2.



Section Tabs.
Context {T : Type} {NT : Num T}.


End Tabs.

End JuiSipApp2Menu.
